(** * squeaky-wheel: escrow addressing and message mirroring

    A shallow embedding of [src/utils/anchorClient.ts] and
    [src/utils/messageService.ts].  The asynchronous TypeScript functions are
    written in a state-and-exception monad over a [World] that holds the hosted
    database (tables [profiles] and [messages]), the log of database calls and
    the log of instructions sent to the on-chain program.  Everything the code
    obtains from outside (clock, random source, database faults, RPC answers,
    the web3 key functions) is read from an environment [Env].  Two library
    checks on the path of a payment are written out: the size assertion of
    the [BN] constructor of bn.js, and the choice between the two error texts
    of [new PublicKey]. *)

From Stdlib Require Import ZArith List String Ascii Bool Lia.
From Stdlib Require Import SpecFloat Permutation Sorted.
From Stdlib Require Import Strings.Byte.
Import ListNotations.

Local Open Scope string_scope.
Local Open Scope Z_scope.

(* ================================================================== *)
(** ** JavaScript strings and numbers *)

(** JavaScript strings are sequences of code units; the identifiers, wallet
    addresses and error messages handled here are Latin-1 text, modelled by
    [string]. *)
Module JS.

(** [s.startsWith(p)] *)
Definition startsWith (s p : string) : bool := String.prefix p s.

(** [s.includes(p)] *)
Fixpoint includes (s p : string) : bool :=
  String.prefix p s ||
  match s with
  | EmptyString => false
  | String _ s' => includes s' p
  end.

(** [s.slice(a, b)] and [s.substring(a, b)] for [0 <= a <= b]. *)
Definition slice (s : string) (a b : nat) : string :=
  String.substring a (b - a) s.

(** [s.slice(-n)]: the last [n] code units (all of [s] when it is shorter). *)
Definition slice_last (s : string) (n : nat) : string :=
  String.substring (String.length s - n) n s.

(** [!s] for a string: only the empty string is falsy. *)
Definition falsy (s : string) : bool :=
  match s with EmptyString => true | _ => false end.

(** The digit alphabet of [Number.prototype.toString(radix)]. *)
Definition digits : string := "0123456789abcdefghijklmnopqrstuvwxyz".

Definition digitChar (d : Z) : ascii :=
  match String.get (Z.to_nat d) digits with
  | Some c => c
  | None => "0"%char
  end.

(** Digits of a non-negative integer, most significant first. *)
Fixpoint digitsOf (fuel : nat) (radix n : Z) : string :=
  match fuel with
  | O => EmptyString
  | S fuel' =>
      if n <? radix then String (digitChar n) EmptyString
      else digitsOf fuel' radix (n / radix)
             ++ String (digitChar (n mod radix)) EmptyString
  end.

(** [n.toString(radix)] for an integral number [n]. *)
Definition toString (n radix : Z) : string :=
  if n <? 0
  then String "-"%char (digitsOf (S (Z.to_nat (Z.log2 (- n)))) radix (- n))
  else digitsOf (S (Z.to_nat (Z.log2 n))) radix n.

(** The integer a digit string denotes: the inverse reading of [toString],
    used to check the digits produced. *)
Definition digitValue (c : ascii) : Z :=
  match String.index 0 (String c EmptyString) digits with
  | Some i => Z.of_nat i
  | None => 0
  end.

Fixpoint valueFrom (radix acc : Z) (s : string) : Z :=
  match s with
  | EmptyString => acc
  | String c s' => valueFrom radix (acc * radix + digitValue c) s'
  end.

(** Numbers are IEEE 754 binary64 values. *)
Definition number : Type := spec_float.
Definition prec : Z := 53.
Definition emax : Z := 1024.

Definition mul : number -> number -> number := SFmul prec emax.
Definition add : number -> number -> number := SFadd prec emax.
(** [a >= b] and [a < b]; both are false when an operand is NaN. *)
Definition geb (a b : number) : bool := SFleb b a.
Definition ltb (a b : number) : bool := SFltb a b.

(** The number denoted by an integer literal or an integral JSON value. *)
Definition ofZ (z : Z) : number := binary_normalize prec emax z 0 false.

(** The literal [0.01], i.e. [0x1.47ae147ae147bp-7]. *)
Definition lit_0_01 : number := S754_finite false 5764607523034235 (-59).

End JS.

(* ================================================================== *)
(** ** Data model *)

(** [MessageStatus] of [messageService.ts]. *)
Inductive MessageStatus : Type := pending | approved | rejected.

(** A row of table [profiles]. *)
Module Profiles.
Record row : Type := mk {
  id : string;
  wallet_address : string;
  username : string;
  avatar_url : option string
}.
End Profiles.

(** A numeric database column arrives either as a number or as text. *)
Inductive DbNumeric : Type :=
| NumValue (n : JS.number)
| NumText (s : string).

(** A row of table [messages]. *)
Module Messages.
Record row : Type := mk {
  id : string;
  sender_id : string;
  recipient_id : string;
  amount : DbNumeric;
  created_at : string;
  updated_at : option string;
  message_id : string;
  content : string;
  status : MessageStatus;
  transaction_signature : option string
}.
End Messages.

(** [MessageData], the shape returned by [fetchMessages]. *)
Module MessageData.
Record t : Type := mk {
  id : string;
  sender_id : string;
  recipient_id : string;
  amount : JS.number;
  created_at : string;
  message_id : string;
  content : string;
  status : MessageStatus;
  transaction_signature : option string;
  senderUsername : string;
  senderDisplayName : string;
  senderAvatarUrl : string;
  recipientUsername : string
}.
End MessageData.

(** A web3 [PublicKey], identified by the 32 bytes of [toBuffer()]. *)
Record PublicKey : Type := { toBuffer : list byte }.

Record AnchorWallet : Type := { publicKey : PublicKey }.

Record Program : Type := { programId : PublicKey; provider : AnchorWallet }.

(** The three instructions of the [pay_to_reply] IDL with their accounts
    [sender], [recipient], [messageEscrow]; [systemProgram] is always
    [SystemProgram.programId] and is left out.  [amount] is the number
    handed to [new BN]. *)
Inductive Instruction : Type :=
| IxCreateMessagePayment (amount : JS.number) (messageId : string)
    (sender recipient messageEscrow : PublicKey)
| IxApproveMessagePayment (sender recipient messageEscrow : PublicKey)
| IxRejectMessagePayment (sender recipient messageEscrow : PublicKey).

(** The [type] parameter of [fetchMessages]. *)
Inductive FetchType : Type := received | sent | all.

(** Calls issued to the database client, as logged in the world. *)
Inductive DbCall : Type :=
| ProfilesSelectByWallet (wallet : string)
| ProfilesInsert (p : Profiles.row)
| ProfilesSelectIn (ids : list string)
| MessagesSelectFor (type : FetchType) (profile : string)
| MessagesInsert (sender recipient message_id : string)
| MessagesSelectByMessageId (message_id : string)
| MessagesSelectById (id : string)
| MessagesUpdateByMessageId (message_id : string) (s : MessageStatus)
| MessagesUpdateById (id : string) (s : MessageStatus).

(** What the code reads from outside.  The fields indexed by [nat] are
    answers to the successive effectful calls of a run, indexed by the
    world's [tick]. *)
Record Env : Type := {
  Date_now : nat -> Z;
  Date_toISOString : Z -> string;
  Date_getTime : string -> option Z;
  Math_random : nat -> string;
  crypto_randomUUID : option (nat -> string);
  parseFloat : string -> JS.number;
  db_error : nat -> bool;
  db_default_id : nat -> string;
  db_default_created_at : nat -> string;
  connection_getBalance : nat -> PublicKey -> Z + string;
  rpc_result : nat -> Instruction -> string + string;
  PublicKey_new : string -> option PublicKey;
  toBase58 : PublicKey -> string;
  findProgramAddress : list (list byte) -> PublicKey -> (PublicKey * Z) + string;
  PROGRAM_ID : PublicKey
}.

(** The state the functions act on. *)
Record World : Type := {
  profiles : list Profiles.row;
  messages : list Messages.row;
  db_log : list DbCall;
  submitted : list Instruction;
  tick : nat
}.

(* ================================================================== *)
(** ** The monad of the asynchronous functions *)

Inductive Outcome (A : Type) : Type :=
| Return (a : A)
| Throw (message : string).
Arguments Return {A} a.
Arguments Throw {A} message.

Definition M (A : Type) : Type := World -> Outcome A * World.

Definition ret {A} (a : A) : M A := fun w => (Return a, w).

Definition bind {A B} (m : M A) (k : A -> M B) : M B :=
  fun w =>
    match m w with
    | (Return a, w') => k a w'
    | (Throw e, w') => (Throw e, w')
    end.

Definition throw {A} (message : string) : M A := fun w => (Throw message, w).

(** [try { m } catch (error) { h error.message }] *)
Definition try_catch {A} (m : M A) (h : string -> M A) : M A :=
  fun w =>
    match m w with
    | (Return a, w') => (Return a, w')
    | (Throw e, w') => h e w'
    end.

Declare Scope js_scope.
Delimit Scope js_scope with js.
Notation "x <- c ;; k" := (bind c (fun x => k))
  (at level 100, c at next level, right associativity) : js_scope.
Local Open Scope js_scope.

(** The index of the next outside answer. *)
Definition next_tick : M nat :=
  fun w => (Return (tick w),
            {| profiles := profiles w; messages := messages w;
               db_log := db_log w; submitted := submitted w;
               tick := S (tick w) |}).

Definition get_world : M World := fun w => (Return w, w).

Definition set_profiles (ps : list Profiles.row) : M unit :=
  fun w => (Return tt,
            {| profiles := ps; messages := messages w;
               db_log := db_log w; submitted := submitted w;
               tick := tick w |}).

Definition set_messages (ms : list Messages.row) : M unit :=
  fun w => (Return tt,
            {| profiles := profiles w; messages := ms;
               db_log := db_log w; submitted := submitted w;
               tick := tick w |}).

Definition log_db (c : DbCall) : M unit :=
  fun w => (Return tt,
            {| profiles := profiles w; messages := messages w;
               db_log := db_log w ++ [c]; submitted := submitted w;
               tick := tick w |}).

Definition log_instruction (i : Instruction) : M unit :=
  fun w => (Return tt,
            {| profiles := profiles w; messages := messages w;
               db_log := db_log w; submitted := submitted w ++ [i];
               tick := tick w |}).

(* ================================================================== *)
(** ** Built-ins used by the code *)

(** [anchor.utils.bytes.utf8.encode] on Latin-1 text. *)
Definition byte_of_N (n : N) : byte :=
  match Byte.of_N n with Some b => b | None => x00 end.

Definition utf8_unit (c : ascii) : list byte :=
  let n := N_of_ascii c in
  if (n <? 128)%N then [byte_of_N n]
  else [byte_of_N (192 + n / 64); byte_of_N (128 + n mod 64)].

Fixpoint utf8_encode (s : string) : list byte :=
  match s with
  | EmptyString => []
  | String c s' => utf8_unit c ++ utf8_encode s'
  end.

(** [[...new Set(l)]]: duplicates dropped, first occurrences kept in order. *)
Fixpoint Set_of (seen l : list string) : list string :=
  match l with
  | [] => []
  | x :: l' =>
      if existsb (String.eqb x) seen then Set_of seen l'
      else x :: Set_of (x :: seen) l'
  end.

(** [Array.prototype.sort(comparefn)].  The sort is stable; a comparator
    result of NaN ([None]) counts as [+0].  For a consistent comparator the
    result is the unique stable sorted arrangement, computed by insertion.
    The comparator of [fetchMessages] is consistent when every [created_at]
    it reads is a valid date; when one is not, its results are NaN, the
    language leaves the arrangement to the engine, and the insertion below
    gives one stable arrangement of the same elements.  The theorems about
    order below are stated for valid dates only. *)
Definition SortCompare {A} (comparefn : A -> A -> option Z) (x y : A) : Z :=
  match comparefn x y with Some v => v | None => 0 end.

Fixpoint sort_insert {A} (comparefn : A -> A -> option Z) (x : A) (l : list A)
  : list A :=
  match l with
  | [] => [x]
  | y :: l' =>
      if SortCompare comparefn x y <=? 0 then x :: l
      else y :: sort_insert comparefn x l'
  end.

Fixpoint Array_sort {A} (comparefn : A -> A -> option Z) (l : list A) : list A :=
  match l with
  | [] => []
  | x :: l' => sort_insert comparefn x (Array_sort comparefn l')
  end.

(** [.single()] of the database client: exactly one row, else an error. *)
Definition single {A} (rows : list A) : option A :=
  match rows with
  | [r] => Some r
  | _ => None
  end.

(** A message id is well-formed when it starts with [m] and has at least
    four characters: the test of [saveMessage] and [updateMessageStatus]. *)
Definition wellFormed (messageId : string) : bool :=
  JS.startsWith messageId "m" && negb (Nat.ltb (String.length messageId) 4).

Definition LAMPORTS_PER_SOL : JS.number := JS.ofZ 1000000000.

Definition msg_insufficient : string :=
  "Insufficient funds. Please add more SOL to your wallet to complete this transaction.".

Definition msg_rejected : string := "Transaction was rejected by the wallet.".

(** [new BN(number)] of bn.js on a JS number.  The constructor reads
    [number || 0], so NaN reads as 0; it drops the sign and asserts
    [number < 0x20000000000000] on what is left: a magnitude of 2^53 or
    more, an infinity included, throws "Assertion failed". *)
Definition BN_accepts (number : JS.number) : bool :=
  match number with
  | S754_nan => true
  | _ => JS.ltb (SFabs number) (JS.ofZ 9007199254740992)
  end.

Arguments BN_accepts : simpl never.

(** The result keeps the number the [BN] was built from. *)
Definition new_BN (number : JS.number) : M JS.number :=
  if BN_accepts number then ret number else throw "Assertion failed".

(** The alphabet of base-58 text, in which addresses are written. *)
Definition base58_alphabet : string :=
  "123456789ABCDEFGHJKLMNPQRSTUVWXYZabcdefghijkmnopqrstuvwxyz".

Fixpoint isBase58 (s : string) : bool :=
  match s with
  | EmptyString => true
  | String c s' =>
      existsb (Ascii.eqb c) (list_ascii_of_string base58_alphabet)
      && isBase58 s'
  end.

(* ================================================================== *)
(** ** The database client, [messageService.ts] and [anchorClient.ts] *)

Section Code.

Variable env : Env.

(** One call to the hosted database: it is logged and takes the next outside
    answer; the result is that answer's index. *)
Definition db_call (c : DbCall) : M nat :=
  _ <- log_db c ;;
  next_tick.

(** [from('profiles').select(..).eq('wallet_address', wallet).single()] *)
Definition profiles_by_wallet (wallet : string) : M (option Profiles.row) :=
  n <- db_call (ProfilesSelectByWallet wallet) ;;
  w <- get_world ;;
  ret (if db_error env n then None
       else single (filter (fun p => Profiles.wallet_address p =? wallet)%string
                      (profiles w))).

(** [from('profiles').insert(p).select(..).single()] *)
Definition profiles_insert (p : Profiles.row) : M (option Profiles.row) :=
  n <- db_call (ProfilesInsert p) ;;
  if db_error env n then ret None
  else
    w <- get_world ;;
    _ <- set_profiles (profiles w ++ [p]) ;;
    ret (Some p).

(** [from('profiles').select('id, username, avatar_url').in('id', ids)] *)
Definition profiles_in (ids : list string) : M (option (list Profiles.row)) :=
  n <- db_call (ProfilesSelectIn ids) ;;
  w <- get_world ;;
  ret (if db_error env n then None
       else Some (filter (fun p => existsb (String.eqb (Profiles.id p)) ids)
                    (profiles w))).

(** The three row filters of [fetchMessages]. *)
Definition matches (type : FetchType) (profile : string) (m : Messages.row)
  : bool :=
  match type with
  | received => (Messages.recipient_id m =? profile)%string
  | sent => (Messages.sender_id m =? profile)%string
  | all => (Messages.sender_id m =? profile)%string
           || (Messages.recipient_id m =? profile)%string
  end.

(** [from('messages').select('*')] with the filter of [type]. *)
Definition messages_for (type : FetchType) (profile : string)
  : M (option (list Messages.row)) :=
  n <- db_call (MessagesSelectFor type profile) ;;
  w <- get_world ;;
  ret (if db_error env n then None
       else Some (filter (matches type profile) (messages w))).

(** [from('messages').insert([{..}])]; [id] and [created_at] are column
    defaults. *)
Definition messages_insert (sender recipient message_id content : string)
  (amount : JS.number) (transaction_signature : option string) : M bool :=
  n <- db_call (MessagesInsert sender recipient message_id) ;;
  if db_error env n then ret false
  else
    w <- get_world ;;
    _ <- set_messages
           (messages w ++
            [ {| Messages.id := db_default_id env n;
                 Messages.sender_id := sender;
                 Messages.recipient_id := recipient;
                 Messages.amount := NumValue amount;
                 Messages.created_at := db_default_created_at env n;
                 Messages.updated_at := None;
                 Messages.message_id := message_id;
                 Messages.content := content;
                 Messages.status := pending;
                 Messages.transaction_signature := transaction_signature |} ]) ;;
    ret true.

(** [from('messages').select(..).eq('message_id', message_id).single()] *)
Definition messages_by_message_id (message_id : string)
  : M (option Messages.row) :=
  n <- db_call (MessagesSelectByMessageId message_id) ;;
  w <- get_world ;;
  ret (if db_error env n then None
       else single (filter (fun m => Messages.message_id m =? message_id)%string
                      (messages w))).

(** [from('messages').select(..).eq('id', id).single()] *)
Definition messages_by_id (id : string) : M (option Messages.row) :=
  n <- db_call (MessagesSelectById id) ;;
  w <- get_world ;;
  ret (if db_error env n then None
       else single (filter (fun m => Messages.id m =? id)%string (messages w))).

(** The object given to [update]: [status], [transaction_signature] only
    when the signature is truthy, and [updated_at]. *)
Definition apply_update (s : MessageStatus)
  (transactionSignature : option string) (updated : string) (m : Messages.row)
  : Messages.row :=
  {| Messages.id := Messages.id m;
     Messages.sender_id := Messages.sender_id m;
     Messages.recipient_id := Messages.recipient_id m;
     Messages.amount := Messages.amount m;
     Messages.created_at := Messages.created_at m;
     Messages.updated_at := Some updated;
     Messages.message_id := Messages.message_id m;
     Messages.content := Messages.content m;
     Messages.status := s;
     Messages.transaction_signature :=
       match transactionSignature with
       | Some sig => if JS.falsy sig then Messages.transaction_signature m
                     else Some sig
       | None => Messages.transaction_signature m
       end |}.

(** [from('messages').update({..}).eq(column, value)]: every row selected
    by [sel] is updated. *)
Definition messages_update (c : DbCall) (sel : Messages.row -> bool)
  (s : MessageStatus) (transactionSignature : option string)
  (updated : string) : M bool :=
  n <- db_call c ;;
  if db_error env n then ret false
  else
    w <- get_world ;;
    _ <- set_messages
           (map (fun m => if sel m
                          then apply_update s transactionSignature updated m
                          else m)
              (messages w)) ;;
    ret true.

(** [Date.now()] *)
Definition now : M Z :=
  n <- next_tick ;;
  ret (Date_now env n).

(** [crypto.randomUUID ? crypto.randomUUID() : `profile-${Date.now()}` ++ suffix] *)
Definition newProfileId (suffix : string) : M string :=
  match crypto_randomUUID env with
  | Some uuid => n <- next_tick ;; ret (uuid n)
  | None => t <- now ;; ret ("profile-" ++ JS.toString t 10 ++ suffix)
  end.

(* ------------------------------------------------------------------ *)
(** *** messageService.ts *)

(** [profilesMap], a [Record<string, any>] filled by assignment. *)
Definition profilesMap_set (m : list (string * Profiles.row)) (p : Profiles.row)
  : list (string * Profiles.row) :=
  (Profiles.id p, p) :: m.

Definition profilesMap_get (m : list (string * Profiles.row)) (k : string)
  : option Profiles.row :=
  match find (fun e => (fst e =? k)%string) m with
  | Some e => Some (snd e)
  | None => None
  end.

(** [p?.username || 'Unknown User'] *)
Definition usernameOf (p : option Profiles.row) : string :=
  match p with
  | Some r => if JS.falsy (Profiles.username r) then "Unknown User"
              else Profiles.username r
  | None => "Unknown User"
  end.

(** [p?.avatar_url || ''] *)
Definition avatarOf (p : option Profiles.row) : string :=
  match p with
  | Some r => match Profiles.avatar_url r with Some a => a | None => "" end
  | None => ""
  end.

(** The body of [messages.map(msg => ...)] in [fetchMessages]. *)
Definition formatMessage (profilesMap : list (string * Profiles.row))
  (msg : Messages.row) : MessageData.t :=
  let sender := profilesMap_get profilesMap (Messages.sender_id msg) in
  let recipient := profilesMap_get profilesMap (Messages.recipient_id msg) in
  {| MessageData.id := Messages.id msg;
     MessageData.sender_id := Messages.sender_id msg;
     MessageData.recipient_id := Messages.recipient_id msg;
     MessageData.amount :=
       match Messages.amount msg with
       | NumText s => parseFloat env s
       | NumValue n => n
       end;
     MessageData.created_at := Messages.created_at msg;
     MessageData.message_id := Messages.message_id msg;
     MessageData.content := Messages.content msg;
     MessageData.status := Messages.status msg;
     MessageData.transaction_signature := Messages.transaction_signature msg;
     MessageData.senderUsername := usernameOf sender;
     MessageData.senderDisplayName := usernameOf sender;
     MessageData.senderAvatarUrl := avatarOf sender;
     MessageData.recipientUsername := usernameOf recipient |}.

(** [(a, b) => new Date(b.created_at).getTime() - new Date(a.created_at).getTime()] *)
Definition newestFirst (a b : MessageData.t) : option Z :=
  match Date_getTime env (MessageData.created_at b),
        Date_getTime env (MessageData.created_at a) with
  | Some tb, Some ta => Some (tb - ta)
  | _, _ => None
  end.

Definition fetchMessages (walletAddress : option string) (type : FetchType)
  : M (list MessageData.t) :=
  match walletAddress with
  | None => ret []
  | Some walletAddress =>
    if JS.falsy walletAddress then ret []
    else
      try_catch
        (userProfile <- profiles_by_wallet walletAddress ;;
         match userProfile with
         | None =>
             id <- newProfileId "" ;;
             newProfile <- profiles_insert
               {| Profiles.id := id;
                  Profiles.wallet_address := walletAddress;
                  Profiles.username := "user_" ++ JS.slice walletAddress 0 8;
                  Profiles.avatar_url := None |} ;;
             match newProfile with
             | None => ret []
             | Some _ => ret []
             end
         | Some userProfile =>
             found <- messages_for type (Profiles.id userProfile) ;;
             match found with
             | None => ret []
             | Some messages =>
                 let senderIds :=
                   filter (fun s => negb (JS.falsy s))
                     (Set_of [] (map Messages.sender_id messages)) in
                 let recipientIds :=
                   filter (fun s => negb (JS.falsy s))
                     (Set_of [] (map Messages.recipient_id messages)) in
                 let profileIds := Set_of [] (senderIds ++ recipientIds) in
                 profilesMap <-
                   (match profileIds with
                    | [] => ret []
                    | _ :: _ =>
                        profilesData <- profiles_in profileIds ;;
                        match profilesData with
                        | Some ps => ret (fold_left profilesMap_set ps [])
                        | None => ret []
                        end
                    end) ;;
                 let formattedMessages := map (formatMessage profilesMap) messages in
                 ret (Array_sort newestFirst formattedMessages)
             end
         end)
        (fun _ => ret [])
  end.

(** The get-or-create step that [saveMessage] runs for the sender and for
    the recipient; [None] is the early [return false]. *)
Definition getOrCreateProfile (walletAddress suffix : string)
  : M (option string) :=
  found <- profiles_by_wallet walletAddress ;;
  match found with
  | Some p => ret (Some (Profiles.id p))
  | None =>
      id <- newProfileId suffix ;;
      created <- profiles_insert
        {| Profiles.id := id;
           Profiles.wallet_address := walletAddress;
           Profiles.username := "user_" ++ JS.slice walletAddress 0 8;
           Profiles.avatar_url := None |} ;;
      match created with
      | Some p => ret (Some (Profiles.id p))
      | None => ret None
      end
  end.

Definition saveMessage (senderWalletAddress recipientWalletAddress
  messageId content : string) (amount : JS.number)
  (transactionSignature : option string) : M bool :=
  try_catch
    (validMessageId <-
       (if JS.falsy messageId || negb (JS.startsWith messageId "m")
           || Nat.ltb (String.length messageId) 4
        then t <- now ;; ret ("m" ++ JS.slice_last (JS.toString t 36) 3)
        else ret messageId) ;;
     senderId <- getOrCreateProfile senderWalletAddress "-sender" ;;
     match senderId with
     | None => ret false
     | Some senderId =>
         recipientId <- getOrCreateProfile recipientWalletAddress "-recipient" ;;
         match recipientId with
         | None => ret false
         | Some recipientId =>
             messages_insert senderId recipientId validMessageId content
               amount transactionSignature
         end
     end)
    (fun _ => ret false).

Definition updateMessageStatus (messageId : string) (status : MessageStatus)
  (transactionSignature : option string) : M bool :=
  try_catch
    (if negb (JS.startsWith messageId "m") || Nat.ltb (String.length messageId) 4
     then ret false
     else
       existingMessage <- messages_by_message_id messageId ;;
       match existingMessage with
       | None =>
           if JS.includes messageId "-"
           then
             messageById <- messages_by_id messageId ;;
             match messageById with
             | None => ret false
             | Some messageById =>
                 t <- now ;;
                 messages_update
                   (MessagesUpdateById (Messages.id messageById) status)
                   (fun m => (Messages.id m =? Messages.id messageById)%string)
                   status transactionSignature (Date_toISOString env t)
             end
           else ret false
       | Some _ =>
           t <- now ;;
           messages_update
             (MessagesUpdateByMessageId messageId status)
             (fun m => (Messages.message_id m =? messageId)%string)
             status transactionSignature (Date_toISOString env t)
       end)
    (fun _ => ret false).

(* ------------------------------------------------------------------ *)
(** *** anchorClient.ts *)

Definition getProgram (wallet : AnchorWallet) : M Program :=
  ret {| programId := PROGRAM_ID env; provider := wallet |}.

(** The seed list handed to [PublicKey.findProgramAddress]. *)
Definition escrowSeeds (sender recipient : PublicKey) (messageId : string)
  : list (list byte) :=
  [ utf8_encode "message-escrow";
    toBuffer sender;
    toBuffer recipient;
    utf8_encode messageId ].

Definition deriveMessageEscrowPDA (sender recipient : PublicKey)
  (messageId : string) (program : Program) : M (PublicKey * Z) :=
  match findProgramAddress env (escrowSeeds sender recipient messageId)
          (programId program) with
  | inl pda => ret pda
  | inr message => throw message
  end.

(** [connection.getBalance(key)]: lamports, or a thrown error. *)
Definition getBalance (key : PublicKey) : M JS.number :=
  n <- next_tick ;;
  match connection_getBalance env n key with
  | inl lamports => ret (JS.ofZ lamports)
  | inr message => throw message
  end.

(** [requiredLamports + estimatedFee] of [checkSufficientBalance]. *)
Definition totalRequired (requiredAmount : JS.number) : JS.number :=
  let requiredLamports := JS.mul requiredAmount LAMPORTS_PER_SOL in
  let estimatedFee := JS.mul JS.lit_0_01 LAMPORTS_PER_SOL in
  JS.add requiredLamports estimatedFee.

Definition checkSufficientBalance (wallet : AnchorWallet)
  (requiredAmount : JS.number) : M bool :=
  try_catch
    (walletBalance <- getBalance (publicKey wallet) ;;
     ret (JS.geb walletBalance (totalRequired requiredAmount)))
    (fun _ => ret false).

(** [new PublicKey(address)].  [PublicKey_new env] says which addresses
    decode to a key.  For the others the constructor throws: the base-58
    decoder's "Non-base58 character" when a character is outside the
    alphabet, and "Invalid public key input" when the text decodes to
    something that is not a key. *)
Definition newPublicKey (address : string) : M PublicKey :=
  match PublicKey_new env address with
  | Some key => ret key
  | None =>
      throw (if isBase58 address then "Invalid public key input"
             else "Non-base58 character")
  end.

(** [program.methods.<instruction>(..).accounts(..).rpc()]: the instruction
    is sent; the answer is a transaction signature or a thrown error. *)
Definition rpc (i : Instruction) : M string :=
  _ <- log_instruction i ;;
  n <- next_tick ;;
  match rpc_result env n i with
  | inl tx => ret tx
  | inr message => throw message
  end.

(** [Math.random().toString(16)] *)
Definition random16 : M string :=
  n <- next_tick ;;
  ret (Math_random env n).

(** The [catch] block of [createMessagePayment]. *)
Definition createMessagePayment_catch {A} (message : string) : M A :=
  if JS.includes message "insufficient funds"
     || JS.includes message "attempt to debit an account"
     || JS.includes message "Insufficient funds"
  then throw msg_insufficient
  else if JS.includes message "User rejected"
  then throw msg_rejected
  else throw message.

Definition createMessagePayment (wallet : AnchorWallet)
  (recipientAddress : string) (amount : JS.number) (messageContent : string)
  : M string :=
  try_catch
    (hasSufficientBalance <- checkSufficientBalance wallet amount ;;
     if negb hasSufficientBalance then throw msg_insufficient
     else
       t <- now ;;
       r <- random16 ;;
       let messageId := JS.toString t 16 ++ "-" ++ JS.slice r 2 10 in
       let shortMessageId := JS.slice messageId 0 4 in
       program <- getProgram wallet ;;
       let lamports := JS.mul amount LAMPORTS_PER_SOL in
       recipientPublicKey <- newPublicKey recipientAddress ;;
       pda <- deriveMessageEscrowPDA (publicKey wallet) recipientPublicKey
                shortMessageId program ;;
       let escrowPDA := fst pda in
       bn <- new_BN lamports ;;
       tx <- rpc (IxCreateMessagePayment bn shortMessageId
                    (publicKey wallet) recipientPublicKey escrowPDA) ;;
       _ <- saveMessage (toBase58 env (publicKey wallet)) recipientAddress
              messageId messageContent amount (Some tx) ;;
       ret tx)
    createMessagePayment_catch.

(** The common body of [approveMessagePayment] and [rejectMessagePayment]:
    they differ in the instruction sent and the status mirrored. *)
Definition settleMessagePayment
  (instruction : PublicKey -> PublicKey -> PublicKey -> Instruction)
  (status : MessageStatus) (wallet : AnchorWallet)
  (senderAddress messageId : string) : M string :=
  try_catch
    (let shortMessageId := JS.slice messageId 0 4 in
     program <- getProgram wallet ;;
     senderPublicKey <- newPublicKey senderAddress ;;
     pda <- deriveMessageEscrowPDA senderPublicKey (publicKey wallet)
              shortMessageId program ;;
     let escrowPDA := fst pda in
     tx <- rpc (instruction senderPublicKey (publicKey wallet) escrowPDA) ;;
     _ <- updateMessageStatus messageId status (Some tx) ;;
     ret tx)
    (fun message => throw message).

Definition approveMessagePayment : AnchorWallet -> string -> string -> M string :=
  settleMessagePayment IxApproveMessagePayment approved.

Definition rejectMessagePayment : AnchorWallet -> string -> string -> M string :=
  settleMessagePayment IxRejectMessagePayment rejected.

End Code.

(* ================================================================== *)
(** ** Statistics and maintenance functions of [messageService.ts]

    These functions return what they compute; what they print on the
    console is outside the model.  Their table scans and repairs take one
    outside answer each, like every database call; [db_log] keeps the calls
    of the messaging and payment functions above. *)

(** The object returned by [getMessageStats]. *)
Record MessageStats : Type := {
  pendingReceived : nat;
  approvedReceived : nat;
  totalReceived : nat;
  pendingSent : nat;
  approvedSent : nat;
  totalSent : nat;
  totalEarnings : JS.number
}.

(** The all-zero object of its early returns. *)
Definition noStats : MessageStats :=
  {| pendingReceived := 0; approvedReceived := 0; totalReceived := 0;
     pendingSent := 0; approvedSent := 0; totalSent := 0;
     totalEarnings := S754_zero false |}.

(** [msg.status === s] *)
Definition statusIs (s : MessageStatus) (m : Messages.row) : bool :=
  match Messages.status m, s with
  | pending, pending => true
  | approved, approved => true
  | rejected, rejected => true
  | _, _ => false
  end.

(** [x || 0] on a number: zero and NaN are falsy. *)
Definition orZero (x : JS.number) : JS.number :=
  match x with
  | S754_zero _ => S754_zero false
  | S754_nan => S754_zero false
  | _ => x
  end.

(** The report returned by [debugMessageIssues]. *)
Record IssuesReport : Type := {
  totalMessages : nat;
  totalProfiles : nat;
  missingProfileIds : list string;
  profilesWithoutWalletAddress : list Profiles.row;
  messagesWithInvalidId : list Messages.row;
  hasDuplicateMessageIds : bool;
  hasDuplicateWalletAddresses : bool
}.

(** The data returned by [debugDatabase]. *)
Record DatabaseDump : Type := {
  dump_profiles : list Profiles.row;
  dump_messages : list Messages.row;
  dump_missingProfileIds : list string;
  dump_profilesWithoutWalletAddress : list Profiles.row
}.

(** The data returned by [checkMessagesDirectly]. *)
Record DirectCheck : Type := {
  profile : Profiles.row;
  sentMessages : list Messages.row;
  receivedMessages : list Messages.row
}.

(** [allProfileIds.filter(id => !existingProfileIds.includes(id))], with
    [allProfileIds] the de-duplicated sender ids followed by recipient ids. *)
Definition missingProfiles (ps : list Profiles.row) (ms : list Messages.row)
  : list string :=
  let senderIds := Set_of [] (map Messages.sender_id ms) in
  let recipientIds := Set_of [] (map Messages.recipient_id ms) in
  let allProfileIds := Set_of [] (senderIds ++ recipientIds) in
  let existingProfileIds := map Profiles.id ps in
  filter (fun id => negb (existsb (String.eqb id) existingProfileIds))
    allProfileIds.

(** [!msg.message_id || !msg.message_id.startsWith('m') || msg.message_id.length < 4] *)
Definition invalidId (m : Messages.row) : bool :=
  JS.falsy (Messages.message_id m)
  || negb (JS.startsWith (Messages.message_id m) "m")
  || Nat.ltb (String.length (Messages.message_id m)) 4.

(** The filter of [fixMessageIds]: an invalid id, or one with a [-]. *)
Definition needsRepair (m : Messages.row) : bool :=
  invalidId m || JS.includes (Messages.message_id m) "-".

(** The row after [update({ message_id: newMessageId })]. *)
Definition rename (newMessageId : string) (m : Messages.row) : Messages.row :=
  {| Messages.id := Messages.id m;
     Messages.sender_id := Messages.sender_id m;
     Messages.recipient_id := Messages.recipient_id m;
     Messages.amount := Messages.amount m;
     Messages.created_at := Messages.created_at m;
     Messages.updated_at := Messages.updated_at m;
     Messages.message_id := newMessageId;
     Messages.content := Messages.content m;
     Messages.status := Messages.status m;
     Messages.transaction_signature := Messages.transaction_signature m |}.

Section Maintenance.

Variable env : Env.

(** [from('profiles').select(..)] without filter. *)
Definition profiles_all : M (option (list Profiles.row)) :=
  n <- next_tick ;;
  w <- get_world ;;
  ret (if db_error env n then None else Some (profiles w)).

(** [from('messages').select('*')] without filter. *)
Definition messages_all : M (option (list Messages.row)) :=
  n <- next_tick ;;
  w <- get_world ;;
  ret (if db_error env n then None else Some (messages w)).

(** [from('messages').update({ message_id: newMessageId }).eq('id', id)];
    the answer tells whether the update went through. *)
Definition messages_rename (id newMessageId : string) : M bool :=
  n <- next_tick ;;
  if db_error env n then ret false
  else
    w <- get_world ;;
    _ <- set_messages
           (map (fun m => if (Messages.id m =? id)%string
                          then rename newMessageId m else m)
              (messages w)) ;;
    ret true.

(** [parseFloat(msg.amount as any) || 0]; on a number [parseFloat] reads
    back its decimal text, which denotes the same number. *)
Definition earning (m : Messages.row) : JS.number :=
  orZero (match Messages.amount m with
          | NumText s => parseFloat env s
          | NumValue n => n
          end).

Definition getMessageStats (walletAddress : option string) : M MessageStats :=
  match walletAddress with
  | None => ret noStats
  | Some walletAddress =>
    if JS.falsy walletAddress then ret noStats
    else
      try_catch
        (profileData <- profiles_by_wallet env walletAddress ;;
         match profileData with
         | None => ret noStats
         | Some profileData =>
             let userId := Profiles.id profileData in
             receivedAnswer <- messages_for env received userId ;;
             match receivedAnswer with
             | None => ret noStats
             | Some receivedMessages =>
                 sentAnswer <- messages_for env sent userId ;;
                 match sentAnswer with
                 | None => ret noStats
                 | Some sentMessages =>
                     ret {| pendingReceived :=
                              List.length (filter (statusIs pending) receivedMessages);
                            approvedReceived :=
                              List.length (filter (statusIs approved) receivedMessages);
                            totalReceived := List.length receivedMessages;
                            pendingSent :=
                              List.length (filter (statusIs pending) sentMessages);
                            approvedSent :=
                              List.length (filter (statusIs approved) sentMessages);
                            totalSent := List.length sentMessages;
                            totalEarnings :=
                              fold_left (fun sum msg => JS.add sum (earning msg))
                                (filter (statusIs approved) receivedMessages)
                                (S754_zero false) |}
                 end
             end
         end)
        (fun _ => ret noStats)
  end.

Definition fixDatabaseIssues : M bool :=
  try_catch
    (profilesAnswer <- profiles_all ;;
     match profilesAnswer with
     | None => ret false
     | Some _ =>
         messagesAnswer <- messages_all ;;
         match messagesAnswer with
         | None => ret false
         | Some _ => ret true
         end
     end)
    (fun _ => ret false).

Definition checkMessagesDirectly (walletAddress : string)
  : M (string + DirectCheck) :=
  try_catch
    (profilesAnswer <- profiles_all ;;
     match profilesAnswer with
     | None => ret (inl "Failed to fetch profiles")
     | Some ps =>
         match find (fun p => (Profiles.wallet_address p =? walletAddress)%string)
                 ps with
         | None => ret (inl "No profile found for this wallet address")
         | Some p =>
             messagesAnswer <- messages_all ;;
             match messagesAnswer with
             | None => ret (inl "Failed to fetch messages")
             | Some allMessages =>
                 ret (inr
                   {| profile := p;
                      sentMessages :=
                        filter (fun msg => (Messages.sender_id msg
                                            =? Profiles.id p)%string) allMessages;
                      receivedMessages :=
                        filter (fun msg => (Messages.recipient_id msg
                                            =? Profiles.id p)%string) allMessages |})
             end
         end
     end)
    (fun _ => ret (inl "Failed to check messages")).

Definition debugDatabase : M (string + DatabaseDump) :=
  try_catch
    (profilesAnswer <- profiles_all ;;
     match profilesAnswer with
     | None => ret (inl "Failed to fetch profiles")
     | Some ps =>
         messagesAnswer <- messages_all ;;
         match messagesAnswer with
         | None => ret (inl "Failed to fetch messages")
         | Some ms =>
             ret (inr
               {| dump_profiles := ps;
                  dump_messages := ms;
                  dump_missingProfileIds := missingProfiles ps ms;
                  dump_profilesWithoutWalletAddress :=
                    filter (fun p => JS.falsy (Profiles.wallet_address p)) ps |})
         end
     end)
    (fun _ => ret (inl "Failed to debug database")).

Definition debugMessageIssues : M (string + IssuesReport) :=
  try_catch
    (messagesAnswer <- messages_all ;;
     match messagesAnswer with
     | None => ret (inl "Failed to fetch messages")
     | Some ms =>
         profilesAnswer <- profiles_all ;;
         match profilesAnswer with
         | None => ret (inl "Failed to fetch profiles")
         | Some ps =>
             let walletAddresses :=
               filter (fun a => negb (JS.falsy a))
                 (map Profiles.wallet_address ps) in
             let uniqueWalletAddresses := Set_of [] walletAddresses in
             let messageIds := map Messages.message_id ms in
             let uniqueMessageIds := Set_of [] messageIds in
             ret (inr
               {| totalMessages := List.length ms;
                  totalProfiles := List.length ps;
                  missingProfileIds := missingProfiles ps ms;
                  profilesWithoutWalletAddress :=
                    filter (fun p => JS.falsy (Profiles.wallet_address p)) ps;
                  messagesWithInvalidId := filter invalidId ms;
                  hasDuplicateMessageIds :=
                    negb (Nat.eqb (List.length messageIds)
                            (List.length uniqueMessageIds));
                  hasDuplicateWalletAddresses :=
                    negb (Nat.eqb (List.length walletAddresses)
                            (List.length uniqueWalletAddresses)) |})
         end
     end)
    (fun _ => ret (inl "Failed to debug message issues")).

(** The statements shared by the repair loops of [fixMessageIds] and
    [fixMessageRetrieval]: a new identifier from the clock, then the update
    of the rows with the database id of [msg].  Whether the update went
    through is only counted and printed. *)
Definition renameFromClock (msg : Messages.row) : M unit :=
  t <- now env ;;
  let newMessageId := "m" ++ JS.slice_last (JS.toString t 36) 3 in
  _ <- messages_rename (Messages.id msg) newMessageId ;;
  ret tt.

(** [for (const msg of incorrectMessages) { try { .. } catch { .. } }] *)
Fixpoint fixMessageIds_loop (incorrectMessages : list Messages.row) : M unit :=
  match incorrectMessages with
  | [] => ret tt
  | msg :: rest =>
      _ <- try_catch (renameFromClock msg) (fun _ => ret tt) ;;
      fixMessageIds_loop rest
  end.

(** [for (const msg of incorrectMessages) { .. }] *)
Fixpoint fixMessageRetrieval_loop (incorrectMessages : list Messages.row)
  : M unit :=
  match incorrectMessages with
  | [] => ret tt
  | msg :: rest =>
      _ <- renameFromClock msg ;;
      fixMessageRetrieval_loop rest
  end.

Definition fixMessageIds : M bool :=
  try_catch
    (messagesAnswer <- messages_all ;;
     match messagesAnswer with
     | None => ret false
     | Some ms =>
         let incorrectMessages := filter needsRepair ms in
         match incorrectMessages with
         | [] => ret true
         | _ :: _ =>
             _ <- fixMessageIds_loop incorrectMessages ;;
             ret true
         end
     end)
    (fun _ => ret false).

Definition fixMessageRetrieval (walletAddress : string) : M bool :=
  try_catch
    (profileData <- profiles_by_wallet env walletAddress ;;
     match profileData with
     | None => ret false
     | Some profileData =>
         messagesAnswer <- messages_all ;;
         match messagesAnswer with
         | None => ret false
         | Some allMessages =>
             let userMessages :=
               filter (fun msg =>
                         (Messages.sender_id msg =? Profiles.id profileData)%string
                         || (Messages.recipient_id msg
                             =? Profiles.id profileData)%string) allMessages in
             let incorrectMessages := filter invalidId userMessages in
             _ <- fixMessageRetrieval_loop incorrectMessages ;;
             allProfiles <- profiles_all ;;
             match allProfiles with
             | None => ret false
             | Some _ => ret true
             end
         end
     end)
    (fun _ => ret false).

End Maintenance.

(* ================================================================== *)
(** ** Auxiliary definitions for the statements *)

(** The world after [n] outside answers were taken and nothing else. *)
Definition advance (n : nat) (w : World) : World :=
  {| profiles := profiles w; messages := messages w;
     db_log := db_log w; submitted := submitted w;
     tick := n + tick w |}.

(** Hexadecimal digits and the textual shape of a standard UUID
    (8-4-4-4-12), the format of database ids. *)
Definition isHexDigit (c : ascii) : bool :=
  JS.includes "0123456789abcdefABCDEF" (String c EmptyString).

Fixpoint hexRun (n : nat) (s : string) : option string :=
  match n with
  | O => Some s
  | S n' =>
      match s with
      | String c s' => if isHexDigit c then hexRun n' s' else None
      | EmptyString => None
      end
  end.

Definition dashThen (k : string -> option string) (s : string) : option string :=
  match s with
  | String "-"%char s' => k s'
  | _ => None
  end.

Definition isUUID (s : string) : bool :=
  match hexRun 8 s with
  | Some s1 =>
      match dashThen (hexRun 4) s1 with
      | Some s2 =>
          match dashThen (hexRun 4) s2 with
          | Some s3 =>
              match dashThen (hexRun 4) s3 with
              | Some s4 =>
                  match dashThen (hexRun 12) s4 with
                  | Some EmptyString => true
                  | _ => false
                  end
              | None => false
              end
          | None => false
          end
      | None => false
      end
  | None => false
  end.

(** The identifier [saveMessage] persists, given the clock reading [t]. *)
Definition validMessageId (messageId : string) (t : Z) : string :=
  if wellFormed messageId then messageId
  else "m" ++ JS.slice_last (JS.toString t 36) 3.

(** The transitions the status of a message is meant to make: none, or one
    step out of [pending]. *)
Definition allowedTransition (old new : MessageStatus) : bool :=
  match old, new with
  | pending, _ => true
  | approved, approved => true
  | rejected, rejected => true
  | _, _ => false
  end.

(** The intended invariant, read on [updateMessageStatus]: whatever the
    call, every row makes an allowed transition. *)
Definition statusOnlyLeavesPending : Prop :=
  forall (env : Env) (messageId : string) (s : MessageStatus)
         (transactionSignature : option string) (w : World),
    Forall2 (fun m m' =>
               allowedTransition (Messages.status m) (Messages.status m') = true)
      (messages w)
      (messages (snd (updateMessageStatus env messageId s
                        transactionSignature w))).

(** The signature a row has after an update that carries [given]. *)
Definition signatureAfter (given : option string) (m : Messages.row)
  : option string :=
  match given with
  | Some sig => if JS.falsy sig then Messages.transaction_signature m
                else Some sig
  | None => Messages.transaction_signature m
  end.

(** The identifier [createMessagePayment] generates when started in [w]:
    the clock is its second outside answer, the random text its third. *)
Definition generatedId (env : Env) (w : World) : string :=
  JS.toString (Date_now env (S (tick w))) 16 ++ "-"
  ++ JS.slice (Math_random env (S (S (tick w)))) 2 10.

(** The error [createMessagePayment] throws for a caught error [message]. *)
Definition shownError (message : string) : string :=
  if JS.includes message "insufficient funds"
     || JS.includes message "attempt to debit an account"
     || JS.includes message "Insufficient funds"
  then msg_insufficient
  else if JS.includes message "User rejected" then msg_rejected
  else message.

(** The world once the balance was read, the identifier generated and the
    instruction [i] handed to the network. *)
Definition afterSubmission (w : World) (i : Instruction) : World :=
  {| profiles := profiles w; messages := messages w; db_log := db_log w;
     submitted := (submitted w ++ [i])%list; tick := 4 + tick w |}.

(** An identifier that [fixMessageIds] leaves alone. *)
Definition cleanId (messageId : string) : bool :=
  wellFormed messageId && negb (JS.includes messageId "-").

(** Two rows that agree on every column but [message_id]. *)
Definition sameButMessageId (m m' : Messages.row) : Prop :=
  Messages.id m' = Messages.id m
  /\ Messages.sender_id m' = Messages.sender_id m
  /\ Messages.recipient_id m' = Messages.recipient_id m
  /\ Messages.amount m' = Messages.amount m
  /\ Messages.created_at m' = Messages.created_at m
  /\ Messages.updated_at m' = Messages.updated_at m
  /\ Messages.content m' = Messages.content m
  /\ Messages.status m' = Messages.status m
  /\ Messages.transaction_signature m' = Messages.transaction_signature m.

(** What a repair loop over [repaired] does to a row [m], giving [m']:
    nothing but the [message_id] changes; a row whose database id is that
    of a repaired message ends with a clean identifier, any other row is
    left as it was. *)
Definition repairedRow (clean : string -> bool) (repaired : list Messages.row)
  (m m' : Messages.row) : Prop :=
  sameButMessageId m m'
  /\ (if existsb (String.eqb (Messages.id m)) (map Messages.id repaired)
      then clean (Messages.message_id m') = true
      else m' = m).

(** The time of a formatted message, as the comparator reads it. *)
Definition timeOf (env : Env) (m : MessageData.t) : option Z :=
  Date_getTime env (MessageData.created_at m).

(** A formatted message whose [created_at] parses as a date. *)
Definition dated (env : Env) (m : MessageData.t) : Prop := timeOf env m <> None.

(** [a] is not older than [b]. *)
Definition notOlder (env : Env) (a b : MessageData.t) : Prop :=
  match timeOf env a, timeOf env b with
  | Some ta, Some tb => tb <= ta
  | _, _ => False
  end.

(** The rows a request of [type] made for the profile [profile] is about:
    those it received, those it sent, or both. *)
Definition selectedFor (type : FetchType) (profile : string)
  (row : Messages.row) : Prop :=
  match type with
  | received => Messages.recipient_id row = profile
  | sent => Messages.sender_id row = profile
  | all => Messages.sender_id row = profile
           \/ Messages.recipient_id row = profile
  end.

(** For every wallet address carried by a stored profile, the database
    answering and every stored [created_at] a valid date, [fetchMessages]
    returns the rows selected for that profile, formatted, newest first. *)
Definition newestFirstForExistingProfile : Prop :=
  forall (env : Env) (walletAddress : string) (type : FetchType) (w : World)
         (p : Profiles.row),
    walletAddress <> "" ->
    In p (profiles w) -> Profiles.wallet_address p = walletAddress ->
    (forall n, db_error env n = false) ->
    Forall (fun m => Date_getTime env (Messages.created_at m) <> None)
      (messages w) ->
    exists result w' profilesMap keep,
      fetchMessages env (Some walletAddress) type w = (Return result, w')
      /\ (forall row, keep row = true <-> selectedFor type (Profiles.id p) row)
      /\ Permutation result
           (map (formatMessage env profilesMap) (filter keep (messages w)))
      /\ StronglySorted (notOlder env) result.

(** A concrete environment to run the code on examples: a clock that starts
    at 1700000000000 ms, a database and a network that never fail, keys
    written as their text, and a stand-in address derivation that
    concatenates its seeds. *)
Module Demo.

Definition key (s : string) : PublicKey := {| toBuffer := utf8_encode s |}.

Definition text (k : PublicKey) : string :=
  string_of_list_byte (toBuffer k).

Fixpoint decimal (acc : Z) (s : string) : option Z :=
  match s with
  | EmptyString => Some acc
  | String c s' =>
      let d := Z.of_N (N_of_ascii c) - 48 in
      if (0 <=? d) && (d <=? 9) then decimal (10 * acc + d) s' else None
  end.

Definition num (n : nat) : string := JS.toString (Z.of_nat n) 10.

Definition env : Env :=
  {| Date_now := fun n => 1700000000000 + Z.of_nat n;
     Date_toISOString := fun z => JS.toString z 10;
     Date_getTime := decimal 0;
     Math_random := fun _ => "0.a3f19c27d4b58";
     crypto_randomUUID := Some (fun n => "profile-" ++ num n);
     parseFloat := fun _ => S754_nan;
     db_error := fun _ => false;
     db_default_id := fun n => "row-" ++ num n;
     db_default_created_at := fun n => JS.toString (1700000000000 + Z.of_nat n) 10;
     connection_getBalance := fun _ _ => inl 5000000000;
     rpc_result := fun n _ => inl ("tx" ++ num n);
     PublicKey_new := fun s => Some (key s);
     toBase58 := text;
     findProgramAddress :=
       fun seeds _ => inl ({| toBuffer := List.concat seeds |}, 255);
     PROGRAM_ID := key "GPS2swU3p4XGWisAh3n4QWQuMvrQdfnz2eSwME2dp66A" |}.

(** The same environment with [answer] as the answer of every balance
    query: a number of lamports, or the message of a thrown error. *)
Definition withBalance (answer : Z + string) : Env :=
  {| Date_now := Date_now env;
     Date_toISOString := Date_toISOString env;
     Date_getTime := Date_getTime env;
     Math_random := Math_random env;
     crypto_randomUUID := crypto_randomUUID env;
     parseFloat := parseFloat env;
     db_error := db_error env;
     db_default_id := db_default_id env;
     db_default_created_at := db_default_created_at env;
     connection_getBalance := fun _ _ => answer;
     rpc_result := rpc_result env;
     PublicKey_new := PublicKey_new env;
     toBase58 := toBase58 env;
     findProgramAddress := findProgramAddress env;
     PROGRAM_ID := PROGRAM_ID env |}.

Definition empty : World :=
  {| profiles := []; messages := []; db_log := []; submitted := []; tick := 0 |}.

Definition alice : AnchorWallet := {| publicKey := key "Alice" |}.
Definition bob : AnchorWallet := {| publicKey := key "Bob" |}.

(** A message saved by Alice for Bob, then approved. *)
Definition saved : World :=
  snd (saveMessage env "Alice" "Bob" "m001" "hello" (JS.ofZ 1) (Some "tx0")
         empty).

Definition settled : World :=
  snd (updateMessageStatus env "m001" approved (Some "tx1") saved).

(** A database with the profiles of Alice and Bob and three messages from
    Alice to Bob, stored out of date order. *)
Definition profileOf (id wallet : string) : Profiles.row :=
  {| Profiles.id := id; Profiles.wallet_address := wallet;
     Profiles.username := "user_" ++ wallet; Profiles.avatar_url := None |}.

Definition messageAt (id created message_id : string) : Messages.row :=
  {| Messages.id := id; Messages.sender_id := "pa";
     Messages.recipient_id := "pb"; Messages.amount := NumValue (JS.ofZ 1);
     Messages.created_at := created; Messages.updated_at := None;
     Messages.message_id := message_id; Messages.content := "hello";
     Messages.status := pending; Messages.transaction_signature := None |}.

Definition inbox : World :=
  {| profiles := [profileOf "pa" "Alice"; profileOf "pb" "Bob"];
     messages := [messageAt "r1" "100" "m001"; messageAt "r2" "300" "m002";
                  messageAt "r3" "200" "m003"];
     db_log := []; submitted := []; tick := 0 |}.

(** Alice pays Bob for a message. *)
Definition paid : Outcome string * World :=
  createMessagePayment env alice "Bob" (JS.ofZ 1) "hello" empty.

End Demo.

(** Further environments and worlds to run the code on. *)
Module Samples.

(** [Demo.env] with another clock, other database faults and other
    network answers. *)
Definition envWith (clock : nat -> Z) (faults : nat -> bool)
  (network : nat -> Instruction -> string + string) : Env :=
  {| Date_now := clock;
     Date_toISOString := Date_toISOString Demo.env;
     Date_getTime := Date_getTime Demo.env;
     Math_random := Math_random Demo.env;
     crypto_randomUUID := crypto_randomUUID Demo.env;
     parseFloat := parseFloat Demo.env;
     db_error := faults;
     db_default_id := db_default_id Demo.env;
     db_default_created_at := db_default_created_at Demo.env;
     connection_getBalance := connection_getBalance Demo.env;
     rpc_result := network;
     PublicKey_new := PublicKey_new Demo.env;
     toBase58 := toBase58 Demo.env;
     findProgramAddress := findProgramAddress Demo.env;
     PROGRAM_ID := PROGRAM_ID Demo.env |}.

(** A network that refuses every instruction. *)
Definition refusing (e : string) : Env :=
  envWith (Date_now Demo.env) (db_error Demo.env) (fun _ _ => inr e).


(** A database that answers its first call only. *)
Definition firstCallOnly : Env :=
  envWith (Date_now Demo.env) (fun n => negb (Nat.eqb n 0))
    (rpc_result Demo.env).

(** A database that reports an error on its first call and answers from
    then on. *)
Definition firstCallRefused : Env :=
  envWith (Date_now Demo.env) (fun n => Nat.eqb n 0) (rpc_result Demo.env).

(** A clock that advances by 46656 ms from one reading to the next. *)
Definition slowClock : Env :=
  envWith (fun n => 1700000000000 + 46656 * Z.of_nat n) (db_error Demo.env)
    (rpc_result Demo.env).

(** Two profiles for Alice's wallet. *)
Definition twins : World :=
  {| profiles := [Demo.profileOf "pa" "Alice"; Demo.profileOf "pa2" "Alice";
                  Demo.profileOf "pb" "Bob"];
     messages := messages Demo.inbox;
     db_log := []; submitted := []; tick := 0 |}.

(** Rows with a malformed id, an id with a dash, a database id that looks
    like a message id, and a clean one. *)
Definition messy : World :=
  {| profiles := profiles Demo.inbox;
     messages := [Demo.messageAt "r1" "100" "xx1";
                  Demo.messageAt "r2" "300" "m0-2";
                  Demo.messageAt "m-17" "200" "m003"];
     db_log := []; submitted := []; tick := 0 |}.

End Samples.

(* ================================================================== *)
(** ** Facts about the built-ins *)

Lemma compare_cont_Eq_flip (p q : positive) :
  Pos.compare_cont Eq p q = Lt -> Pos.compare_cont Eq q p = Gt.
Proof.
  change (Pos.compare_cont Eq p q) with (Pos.compare p q).
  change (Pos.compare_cont Eq q p) with (Pos.compare q p).
  intros H. rewrite Pos.compare_antisym, H. reflexivity.
Qed.

Lemma compare_cont_Eq_flip' (p q : positive) :
  CompOpp (Pos.compare_cont Eq p q) = Lt ->
  CompOpp (Pos.compare_cont Eq q p) = Gt.
Proof.
  change (Pos.compare_cont Eq p q) with (Pos.compare p q).
  change (Pos.compare_cont Eq q p) with (Pos.compare q p).
  rewrite (Pos.compare_antisym p q).
  destruct (Pos.compare p q); simpl; congruence.
Qed.

(** Binary64 comparison: [a < b] excludes [a >= b]. *)
Lemma SFcompare_Lt_flip (a b : spec_float) :
  SFcompare a b = Some Lt -> SFcompare b a = Some Gt.
Proof.
  destruct a as [sa|sa| |sa ma ea], b as [sb|sb| |sb mb eb]; simpl;
    try discriminate;
    try (destruct sa; discriminate);
    try (destruct sb; discriminate);
    try (destruct sa, sb; simpl; congruence).
  destruct sa, sb; try congruence.
  - rewrite (Z.compare_antisym ea eb).
    destruct (Z.compare ea eb) eqn:E; simpl; try congruence.
    intros H. f_equal. apply compare_cont_Eq_flip'. congruence.
  - rewrite (Z.compare_antisym ea eb).
    destruct (Z.compare ea eb) eqn:E; simpl; try congruence.
    intros H. f_equal. apply compare_cont_Eq_flip. congruence.
Qed.

Lemma ltb_not_geb (a b : JS.number) :
  JS.ltb a b = true -> JS.geb a b = false.
Proof.
  unfold JS.ltb, JS.geb, SFltb, SFleb.
  destruct (SFcompare a b) as [[ | | ]|] eqn:E; try discriminate.
  intros _. rewrite (SFcompare_Lt_flip _ _ E). reflexivity.
Qed.

(** *** [toString]: the fuel is enough and the digits denote the number *)

Lemma log2_quotient (radix n : Z) :
  2 <= radix -> radix <= n -> Z.log2 (n / radix) < Z.log2 n.
Proof.
  intros Hr Hn.
  assert (Hle : n / radix <= n / 2).
  { apply Z.div_le_compat_l; lia. }
  apply Z.log2_le_mono in Hle.
  assert (Hhalf : Z.log2 (n / 2) = Z.max 0 (Z.log2 n - 1)).
  { rewrite <- (Z.log2_shiftr n 1) by lia.
    rewrite Z.shiftr_div_pow2 by lia. reflexivity. }
  assert (1 <= Z.log2 n).
  { change 1 with (Z.log2 2). apply Z.log2_le_mono. lia. }
  lia.
Qed.

Lemma digitsOf_fuel (radix : Z) (fuel1 fuel2 : nat) (n : Z) :
  2 <= radix -> 0 <= n ->
  (Z.to_nat (Z.log2 n) < fuel1)%nat -> (Z.to_nat (Z.log2 n) < fuel2)%nat ->
  JS.digitsOf fuel1 radix n = JS.digitsOf fuel2 radix n.
Proof.
  intros Hr. revert fuel2 n.
  induction fuel1 as [|fuel1 IH]; intros fuel2 n Hn H1 H2; [lia|].
  destruct fuel2 as [|fuel2]; [lia|].
  simpl. destruct (n <? radix) eqn:E; [reflexivity|].
  apply Z.ltb_ge in E.
  pose proof (log2_quotient radix n Hr E) as Hq.
  pose proof (Z.log2_nonneg (n / radix)).
  f_equal. apply IH.
  - apply Z.div_pos; lia.
  - lia.
  - lia.
Qed.

Lemma digitValue_digitChar (d : Z) :
  0 <= d < 36 -> JS.digitValue (JS.digitChar d) = d.
Proof.
  intros H. rewrite <- (Z2Nat.id d) at 2 by lia.
  unfold JS.digitChar.
  assert (Hi : (Z.to_nat d < 36)%nat) by lia.
  revert Hi. generalize (Z.to_nat d) as i. intros i Hi.
  do 36 (destruct i as [|i]; [reflexivity|]). lia.
Qed.

Lemma valueFrom_append (radix acc : Z) (s1 s2 : string) :
  JS.valueFrom radix acc (s1 ++ s2)
  = JS.valueFrom radix (JS.valueFrom radix acc s1) s2.
Proof.
  revert acc. induction s1 as [|c s1 IH]; intros acc; simpl; [reflexivity|].
  apply IH.
Qed.

Lemma valueFrom_digitsOf (radix : Z) (fuel : nat) (n : Z) :
  2 <= radix <= 36 -> 0 <= n -> (Z.to_nat (Z.log2 n) < fuel)%nat ->
  JS.valueFrom radix 0 (JS.digitsOf fuel radix n) = n.
Proof.
  intros Hr. revert n.
  induction fuel as [|fuel IH]; intros n Hn Hf; [lia|].
  simpl. destruct (n <? radix) eqn:E.
  - apply Z.ltb_lt in E. simpl. rewrite digitValue_digitChar; lia.
  - apply Z.ltb_ge in E.
    pose proof (log2_quotient radix n ltac:(lia) E) as Hq.
    pose proof (Z.log2_nonneg (n / radix)).
    pose proof (Z.mod_pos_bound n radix ltac:(lia)).
    rewrite valueFrom_append, IH.
    + simpl. rewrite digitValue_digitChar by lia.
      rewrite Z.mul_comm. symmetry. apply Z.div_mod. lia.
    + apply Z.div_pos; lia.
    + lia.
Qed.

(** The digits [toString] gives to a non-negative integer, in a radix from
    2 to 36, denote that integer. *)
Lemma toString_value (n radix : Z) :
  2 <= radix <= 36 -> 0 <= n ->
  JS.valueFrom radix 0 (JS.toString n radix) = n.
Proof.
  intros Hr Hn. unfold JS.toString.
  assert (E : (n <? 0) = false) by (apply Z.ltb_ge; exact Hn).
  rewrite E. apply valueFrom_digitsOf; try assumption. lia.
Qed.

(* ================================================================== *)
(** ** The balance check of [createMessagePayment] *)

Section BalanceCheck.

Variable env : Env.
Variable wallet : AnchorWallet.
Variable recipientAddress messageContent : string.
Variable amount : JS.number.

Lemma catch_insufficient (w : World) :
  createMessagePayment_catch (A := string) msg_insufficient w
  = (Throw msg_insufficient, w).
Proof. reflexivity. Qed.

Lemma checkSufficientBalance_answer (w : World) (lamports : Z) :
  connection_getBalance env (tick w) (publicKey wallet) = inl lamports ->
  checkSufficientBalance env wallet amount w
  = (Return (JS.geb (JS.ofZ lamports) (totalRequired amount)), advance 1 w).
Proof.
  intros H.
  unfold checkSufficientBalance, try_catch, bind, getBalance, next_tick, bind.
  rewrite H. reflexivity.
Qed.

Lemma checkSufficientBalance_throws (w : World) (message : string) :
  connection_getBalance env (tick w) (publicKey wallet) = inr message ->
  checkSufficientBalance env wallet amount w = (Return false, advance 1 w).
Proof.
  intros H.
  unfold checkSufficientBalance, try_catch, bind, getBalance, next_tick, bind.
  rewrite H. reflexivity.
Qed.

Lemma createMessagePayment_check_false (w w1 : World) :
  checkSufficientBalance env wallet amount w = (Return false, w1) ->
  createMessagePayment env wallet recipientAddress amount messageContent w
  = (Throw msg_insufficient, w1).
Proof.
  intros H.
  unfold createMessagePayment, try_catch, bind.
  rewrite H. simpl. apply catch_insufficient.
Qed.

(** C2. When the wallet balance is below [amount] plus the 0.01 SOL buffer
    (compared in lamports, as the code computes them), [createMessagePayment]
    throws the insufficient-funds error, sends no instruction and makes no
    database call; both tables are unchanged. *)
Theorem C2_insufficient_funds (w : World) (lamports : Z) :
  connection_getBalance env (tick w) (publicKey wallet) = inl lamports ->
  JS.ltb (JS.ofZ lamports) (totalRequired amount) = true ->
  exists w',
    createMessagePayment env wallet recipientAddress amount messageContent w
    = (Throw msg_insufficient, w')
    /\ submitted w' = submitted w
    /\ db_log w' = db_log w
    /\ profiles w' = profiles w
    /\ messages w' = messages w.
Proof.
  intros Hbal Hlt.
  exists (advance 1 w). split; [|repeat split].
  apply createMessagePayment_check_false.
  rewrite (checkSufficientBalance_answer w lamports Hbal).
  rewrite (ltb_not_geb _ _ Hlt). reflexivity.
Qed.

(** C9. When the balance query throws, [checkSufficientBalance] answers
    [false] and [createMessagePayment] throws the insufficient-funds error
    with nothing sent or written: the very outcome it has, from the same
    world, when the query answers with a balance that is too small. *)
Theorem C9_query_failure_reads_as_insufficient (w : World) (message : string) :
  connection_getBalance env (tick w) (publicKey wallet) = inr message ->
  checkSufficientBalance env wallet amount w = (Return false, advance 1 w)
  /\ createMessagePayment env wallet recipientAddress amount messageContent w
     = (Throw msg_insufficient, advance 1 w)
  /\ forall (env' : Env) (lamports : Z),
       connection_getBalance env' (tick w) (publicKey wallet) = inl lamports ->
       JS.ltb (JS.ofZ lamports) (totalRequired amount) = true ->
       createMessagePayment env' wallet recipientAddress amount messageContent w
       = createMessagePayment env wallet recipientAddress amount messageContent w.
Proof.
  intros Hthrow.
  pose proof (checkSufficientBalance_throws w message Hthrow) as Hcheck.
  split; [exact Hcheck|].
  split; [apply createMessagePayment_check_false; exact Hcheck|].
  intros env' lamports Hbal Hlt.
  rewrite (createMessagePayment_check_false w (advance 1 w) Hcheck).
  unfold createMessagePayment, try_catch, bind.
  unfold checkSufficientBalance, try_catch, bind, getBalance, next_tick, bind.
  rewrite Hbal. simpl.
  rewrite (ltb_not_geb _ _ Hlt). reflexivity.
Qed.

End BalanceCheck.

Lemma C2_witness :
  exists w',
    createMessagePayment (Demo.withBalance (inl 1000)) Demo.alice "Bob"
      (JS.ofZ 1) "hello" Demo.empty
    = (Throw msg_insufficient, w')
    /\ submitted w' = [] /\ db_log w' = [] /\ profiles w' = []
    /\ messages w' = [].
Proof.
  apply (C2_insufficient_funds (Demo.withBalance (inl 1000)) Demo.alice
           "Bob" "hello" (JS.ofZ 1) Demo.empty 1000).
  - reflexivity.
  - vm_compute. reflexivity.
Defined.

Lemma C9_witness :
  createMessagePayment (Demo.withBalance (inr "fetch failed")) Demo.alice "Bob"
    (JS.ofZ 1) "hello" Demo.empty
  = (Throw msg_insufficient, advance 1 Demo.empty).
Proof.
  apply (C9_query_failure_reads_as_insufficient
           (Demo.withBalance (inr "fetch failed")) Demo.alice "Bob" "hello"
           (JS.ofZ 1) Demo.empty "fetch failed").
  reflexivity.
Defined.

(* ================================================================== *)
(** ** Message identifiers *)

Lemma startsWith_m_cons (c : ascii) (s : string) :
  JS.startsWith (String c s) "m" = Ascii.eqb "m" c.
Proof.
  unfold JS.startsWith. simpl.
  destruct (Ascii.eqb_spec "m"%char c) as [E|E].
  - subst c. simpl. destruct s; reflexivity.
  - destruct (ascii_dec "m" c) as [E'|E']; [contradiction|].
    destruct c as [[] [] [] [] [] [] [] []]; try reflexivity; contradiction.
Qed.

Lemma wellFormed_spec (messageId : string) :
  wellFormed messageId = true <->
  JS.startsWith messageId "m" = true /\ (4 <= String.length messageId)%nat.
Proof.
  unfold wellFormed. rewrite andb_true_iff, negb_true_iff, Nat.ltb_ge.
  reflexivity.
Qed.

(** The test of [updateMessageStatus] is the negation of [wellFormed];
    the test of [saveMessage] adds [!messageId], which changes nothing. *)
Lemma update_test (messageId : string) :
  negb (JS.startsWith messageId "m") || Nat.ltb (String.length messageId) 4
  = negb (wellFormed messageId).
Proof. unfold wellFormed. rewrite negb_andb, negb_involutive. reflexivity. Qed.

Lemma save_test (messageId : string) :
  JS.falsy messageId || negb (JS.startsWith messageId "m")
    || Nat.ltb (String.length messageId) 4
  = negb (wellFormed messageId).
Proof.
  rewrite <- update_test.
  destruct messageId; reflexivity.
Qed.

Lemma isUUID_not_m (s : string) :
  isUUID s = true -> JS.startsWith s "m" = false.
Proof.
  unfold isUUID.
  destruct s as [|c s]; [discriminate|].
  cbn [hexRun].
  destruct (isHexDigit c) eqn:Hc; [|discriminate].
  intros _. rewrite startsWith_m_cons.
  destruct (Ascii.eqb_spec "m"%char c) as [E|E]; [|reflexivity].
  subst c. discriminate.
Qed.

(* ================================================================== *)
(** ** [updateMessageStatus] *)

Ltac run :=
  unfold try_catch, bind, ret, throw, db_call, log_db, next_tick, get_world,
    set_messages, set_profiles, now; simpl.

Section UpdateStatus.

Variable env : Env.
Variable messageId : string.
Variable status : MessageStatus.
Variable transactionSignature : option string.

Lemma updateMessageStatus_malformed (w : World) :
  wellFormed messageId = false ->
  updateMessageStatus env messageId status transactionSignature w
  = (Return false, w).
Proof.
  intros H. unfold updateMessageStatus, try_catch.
  rewrite update_test, H. reflexivity.
Qed.

(** C4. A message id that does not start with [m], or is shorter than four
    characters, makes [updateMessageStatus] answer [false]; the world, and
    with it the database, is left exactly as it was. *)
Theorem C4_update_rejects_malformed (w : World) :
  JS.startsWith messageId "m" = false \/ (String.length messageId < 4)%nat ->
  updateMessageStatus env messageId status transactionSignature w
  = (Return false, w).
Proof.
  intros H. apply updateMessageStatus_malformed.
  destruct (wellFormed messageId) eqn:E; [|reflexivity].
  apply wellFormed_spec in E. destruct E as [E1 E2].
  destruct H as [H|H]; [congruence|lia].
Qed.

(** C8. The lookup by database id is issued only for an id that starts with
    [m], has at least four characters and contains [-]; a standard UUID is
    turned away by the format test, with no database call at all. *)
Theorem C8_fallback_guard (w : World) :
  (exists calls,
      db_log (snd (updateMessageStatus env messageId status
                     transactionSignature w)) = (db_log w ++ calls)%list
      /\ forall k, In (MessagesSelectById k) calls ->
           k = messageId
           /\ JS.startsWith messageId "m" = true
           /\ (4 <= String.length messageId)%nat
           /\ JS.includes messageId "-" = true)
  /\ (isUUID messageId = true ->
      updateMessageStatus env messageId status transactionSignature w
      = (Return false, w)).
Proof.
  split.
  - destruct (wellFormed messageId) eqn:Hwf.
    + pose proof (proj1 (wellFormed_spec messageId) Hwf) as [Hm Hlen].
      unfold updateMessageStatus, try_catch.
      rewrite update_test, Hwf. cbn [negb].
      unfold messages_by_message_id, messages_by_id, messages_update. run.
      destruct (db_error env (tick w)); cbn [fst snd].
      all: destruct (JS.includes messageId "-") eqn:Hdash; simpl.
      all: repeat match goal with
             | |- context [if ?b then _ else _] => destruct b eqn:?; simpl
             | |- context [match single ?l with _ => _ end] =>
                 destruct (single l) eqn:?; simpl
             end.
      all: rewrite <- ?app_assoc; eexists; (split; [reflexivity|]).
      all: simpl; intros k Hk;
        repeat (destruct Hk as [Hk|Hk]; [try discriminate|]);
        try contradiction.
      all: injection Hk as <-; auto.
    + rewrite (updateMessageStatus_malformed w Hwf).
      exists []. rewrite app_nil_r. split; [reflexivity|].
      intros k [].
  - intros Hu. apply updateMessageStatus_malformed.
    unfold wellFormed. rewrite (isUUID_not_m _ Hu). reflexivity.
Qed.

End UpdateStatus.

(* ================================================================== *)
(** ** [saveMessage] *)

Lemma length_append (s1 s2 : string) :
  String.length (s1 ++ s2) = (String.length s1 + String.length s2)%nat.
Proof. induction s1 as [|c s1 IH]; simpl; [reflexivity|now rewrite IH]. Qed.

Lemma length_substring (n m : nat) (s : string) :
  (n + m <= String.length s)%nat -> String.length (substring n m s) = m.
Proof.
  revert m s. induction n as [|n IHn]; intros m s.
  - revert s. induction m as [|m IHm]; intros s H.
    + destruct s; reflexivity.
    + destruct s as [|c s]; simpl in *; [lia|].
      rewrite IHm; [reflexivity|lia].
  - intros H. destruct s as [|c s]; simpl in *; [lia|].
    apply IHn. lia.
Qed.

Lemma digitsOf_nonempty (fuel : nat) (radix n : Z) :
  (1 <= String.length (JS.digitsOf (S fuel) radix n))%nat.
Proof.
  simpl. destruct (n <? radix); simpl; [lia|].
  rewrite length_append. simpl. lia.
Qed.

Lemma digitsOf_three (fuel : nat) (radix n : Z) :
  0 < radix -> radix * radix <= n ->
  (3 <= String.length (JS.digitsOf (S (S (S fuel))) radix n))%nat.
Proof.
  intros Hr Hn.
  assert (H1 : (n <? radix) = false) by (apply Z.ltb_ge; nia).
  assert (H2 : (n / radix <? radix) = false).
  { apply Z.ltb_ge. apply Z.div_le_lower_bound; lia. }
  change (JS.digitsOf (S (S (S fuel))) radix n)
    with (if n <? radix then String (JS.digitChar n) EmptyString
          else JS.digitsOf (S (S fuel)) radix (n / radix)
                 ++ String (JS.digitChar (n mod radix)) EmptyString).
  rewrite H1, length_append.
  change (JS.digitsOf (S (S fuel)) radix (n / radix))
    with (if n / radix <? radix
          then String (JS.digitChar (n / radix)) EmptyString
          else JS.digitsOf (S fuel) radix (n / radix / radix)
                 ++ String (JS.digitChar ((n / radix) mod radix)) EmptyString).
  rewrite H2, length_append.
  pose proof (digitsOf_nonempty fuel radix (n / radix / radix)).
  simpl String.length in *. lia.
Qed.

Lemma toString36_three (t : Z) :
  1296 <= t -> (3 <= String.length (JS.toString t 36))%nat.
Proof.
  intros Ht. unfold JS.toString.
  assert (Hneg : (t <? 0) = false) by (apply Z.ltb_ge; lia).
  rewrite Hneg.
  assert (Hlog : 10 <= Z.log2 t).
  { change 10 with (Z.log2 1296). apply Z.log2_le_mono. exact Ht. }
  destruct (Z.to_nat (Z.log2 t)) as [|[|k]] eqn:E; try lia.
  apply digitsOf_three; lia.
Qed.

(** The identifier [saveMessage] generates is well-formed once the clock
    reads at least 1296 ms, i.e. has three digits in base 36. *)
Lemma regenerated_wellFormed (t : Z) :
  1296 <= t ->
  wellFormed ("m" ++ JS.slice_last (JS.toString t 36) 3) = true.
Proof.
  intros Ht. pose proof (toString36_three t Ht) as Hlen.
  unfold wellFormed.
  assert (String.length (JS.slice_last (JS.toString t 36) 3) = 3%nat) as Hs.
  { unfold JS.slice_last. apply length_substring. lia. }
  change ("m" ++ JS.slice_last (JS.toString t 36) 3)
    with (String "m" (JS.slice_last (JS.toString t 36) 3)).
  rewrite startsWith_m_cons. cbn [String.length]. rewrite Hs.
  reflexivity.
Qed.

Section SaveMessage.

Variable env : Env.

Lemma newProfileId_returns (suffix : string) (w : World) :
  exists id w',
    newProfileId env suffix w = (Return id, w')
    /\ messages w' = messages w /\ profiles w' = profiles w.
Proof.
  unfold newProfileId. destruct (crypto_randomUUID env); run; eauto.
Qed.

Lemma getOrCreateProfile_returns (walletAddress suffix : string) (w : World) :
  exists r w',
    getOrCreateProfile env walletAddress suffix w = (Return r, w')
    /\ messages w' = messages w
    /\ ((forall n, db_error env n = false) -> r <> None).
Proof.
  unfold getOrCreateProfile, profiles_by_wallet. run.
  destruct (db_error env (tick w)) eqn:E0; simpl.
  2: destruct (single _) eqn:Es; simpl.
  2: { eexists _, _. split; [reflexivity|]. split; [reflexivity|]. discriminate. }
  all: match goal with
       | |- context [newProfileId env ?sfx ?w0] =>
           destruct (newProfileId_returns sfx w0) as (id & w1 & H1 & Hm & _);
           rewrite H1; simpl in Hm
       end.
  all: unfold profiles_insert; run.
  all: destruct (db_error env (tick w1)) eqn:E1; simpl.
  all: eexists _, _; (split; [reflexivity|]); split; try exact Hm.
  all: intros Hok; try discriminate.
  all: rewrite Hok in *; discriminate.
Qed.

Lemma saveMessage_effect (senderWalletAddress recipientWalletAddress
  messageId content : string) (amount : JS.number)
  (transactionSignature : option string) (w : World) :
  exists b w',
    saveMessage env senderWalletAddress recipientWalletAddress messageId
      content amount transactionSignature w = (Return b, w')
    /\ (if b
        then exists row,
            messages w' = (messages w ++ [row])%list
            /\ Messages.message_id row
               = validMessageId messageId (Date_now env (tick w))
            /\ Messages.status row = pending
            /\ Messages.content row = content
            /\ Messages.transaction_signature row = transactionSignature
        else messages w' = messages w)
    /\ ((forall n, db_error env n = false) -> b = true).
Proof.
  unfold saveMessage, validMessageId. rewrite save_test.
  destruct (wellFormed messageId) eqn:Hwf; cbn [negb]; run.
  all: match goal with
       | |- context [getOrCreateProfile env ?a "-sender" ?w0] =>
           destruct (getOrCreateProfile_returns a "-sender" w0)
             as (r1 & w1 & H1 & Hm1 & Hok1);
           rewrite H1; simpl in Hm1
       end.
  all: destruct r1 as [senderId|];
    [|eexists _, _; split; [reflexivity|]; split; [exact Hm1|];
      intros Hok; exfalso; apply (Hok1 Hok); reflexivity].
  all: match goal with
       | |- context [getOrCreateProfile env ?a "-recipient" ?w0] =>
           destruct (getOrCreateProfile_returns a "-recipient" w0)
             as (r2 & w2 & H2 & Hm2 & Hok2);
           rewrite H2; simpl in Hm2
       end.
  all: destruct r2 as [recipientId|];
    [|eexists _, _; split; [reflexivity|]; split; [congruence|];
      intros Hok; exfalso; apply (Hok2 Hok); reflexivity].
  all: unfold messages_insert; run.
  all: destruct (db_error env (tick w2)) eqn:E; simpl.
  all: eexists _, _; (split; [reflexivity|]); split.
  all: try (intros Hok; rewrite Hok in E; discriminate).
  all: try (intros _; reflexivity).
  all: simpl; try congruence.
  all: eexists; simpl; rewrite Hm2, Hm1; repeat split.
Qed.

(** C3. When [saveMessage] is given a malformed message id (empty, not
    starting with [m], or shorter than four characters) and the clock reads
    at least 1296 ms, the call answers a boolean; the answer [true] comes
    with exactly one new row, whose [message_id] is a regenerated,
    well-formed identifier; the answer [false] comes with no new row; and
    with a database that reports no error the answer is [true]. *)
Theorem C3_save_regenerates (senderWalletAddress recipientWalletAddress
  messageId content : string) (amount : JS.number)
  (transactionSignature : option string) (w : World) :
  messageId = "" \/ JS.startsWith messageId "m" = false
    \/ (String.length messageId < 4)%nat ->
  1296 <= Date_now env (tick w) ->
  exists b w',
    saveMessage env senderWalletAddress recipientWalletAddress messageId
      content amount transactionSignature w = (Return b, w')
    /\ (if b
        then exists row,
            messages w' = (messages w ++ [row])%list
            /\ wellFormed (Messages.message_id row) = true
            /\ Messages.message_id row <> messageId
        else messages w' = messages w)
    /\ ((forall n, db_error env n = false) -> b = true).
Proof.
  intros Hbad Hclock.
  assert (Hwf : wellFormed messageId = false).
  { destruct (wellFormed messageId) eqn:E; [|reflexivity].
    apply wellFormed_spec in E. destruct E as [E1 E2].
    destruct Hbad as [H|[H|H]]; [subst; discriminate|congruence|lia]. }
  destruct (saveMessage_effect senderWalletAddress recipientWalletAddress
              messageId content amount transactionSignature w)
    as (b & w' & Hrun & Heff & Hok).
  exists b, w'. split; [exact Hrun|]. split; [|exact Hok].
  destruct b; [|exact Heff].
  destruct Heff as (row & Hrows & Hid & _).
  unfold validMessageId in Hid. rewrite Hwf in Hid.
  exists row. split; [exact Hrows|].
  pose proof (regenerated_wellFormed _ Hclock) as Hgood.
  rewrite <- Hid in Hgood. split; [exact Hgood|].
  intros Heq. rewrite Heq in Hgood. congruence.
Qed.

End SaveMessage.

Lemma C3_witness :
  exists b w',
    saveMessage Demo.env "Alice" "Bob" "xx1" "hello" (JS.ofZ 1) None Demo.empty
    = (Return b, w')
    /\ (if b
        then exists row,
            messages w' = [row]
            /\ wellFormed (Messages.message_id row) = true
            /\ Messages.message_id row <> "xx1"
        else messages w' = [])
    /\ ((forall n, db_error Demo.env n = false) -> b = true).
Proof.
  apply (C3_save_regenerates Demo.env "Alice" "Bob" "xx1" "hello" (JS.ofZ 1)
           None Demo.empty).
  - right. left. reflexivity.
  - simpl. lia.
Defined.

(** The example of the specification: [xx1] is stored as [mv28]. *)
Example save_xx1 :
  let r := saveMessage Demo.env "Alice" "Bob" "xx1" "hello" (JS.ofZ 1) None
             Demo.empty in
  fst r = Return true
  /\ map Messages.message_id (messages (snd r)) = ["mv28"].
Proof. vm_compute. split; reflexivity. Qed.

(** The bound on the clock is tight: at 1295 ms the generated identifier
    is [mzz]. *)
Example regenerated_at_1295 :
  "m" ++ JS.slice_last (JS.toString 1295 36) 3 = "mzz"
  /\ wellFormed "mzz" = false.
Proof. split; reflexivity. Qed.

(* ================================================================== *)
(** ** The mirrored status *)

Lemma Forall2_map_right {A} (R : A -> A -> Prop) (f : A -> A) (l : list A) :
  (forall a, R a (f a)) -> Forall2 R l (map f l).
Proof. intros H. induction l; simpl; constructor; auto. Qed.

Lemma Forall2_same {A} (R : A -> A -> Prop) (l : list A) :
  (forall a, R a a) -> Forall2 R l l.
Proof. intros H. induction l; constructor; auto. Qed.

Section Status.

Variable env : Env.

Lemma updateMessageStatus_rows (messageId : string) (s : MessageStatus)
  (transactionSignature : option string) (w : World) :
  exists b w',
    updateMessageStatus env messageId s transactionSignature w = (Return b, w')
    /\ Forall2 (fun m m' =>
                  Messages.id m' = Messages.id m
                  /\ Messages.message_id m' = Messages.message_id m
                  /\ (Messages.status m' = Messages.status m
                      \/ Messages.status m' = s))
         (messages w) (messages w').
Proof.
  unfold updateMessageStatus, try_catch.
  unfold messages_by_message_id, messages_by_id, messages_update. run.
  repeat match goal with
    | |- context [if ?b then _ else _] => destruct b eqn:?; simpl
    | |- context [match single ?l with _ => _ end] =>
        destruct (single l) eqn:?; simpl
    end.
  all: eexists _, _; (split; [reflexivity|]); simpl.
  all: try (apply Forall2_map_right; intros m;
            match goal with
            | |- context [if ?c then _ else _] => destruct c
            end; simpl; auto).
  all: apply Forall2_same; auto.
Qed.

Lemma updateMessageStatus_overwrites (messageId : string) (s : MessageStatus)
  (transactionSignature : option string) (w : World) (row : Messages.row) :
  wellFormed messageId = true ->
  filter (fun m => (Messages.message_id m =? messageId)%string) (messages w)
  = [row] ->
  db_error env (tick w) = false ->
  db_error env (2 + tick w) = false ->
  exists w',
    updateMessageStatus env messageId s transactionSignature w
    = (Return true, w')
    /\ messages w'
       = map (fun m =>
                if (Messages.message_id m =? messageId)%string
                then apply_update s transactionSignature
                       (Date_toISOString env (Date_now env (1 + tick w))) m
                else m)
           (messages w).
Proof.
  intros Hwf Hrow E0 E2.
  unfold updateMessageStatus, try_catch.
  rewrite update_test, Hwf. cbn [negb].
  unfold messages_by_message_id, messages_update. run.
  rewrite E0, Hrow. simpl. simpl in E2. rewrite E2. simpl.
  eexists. split; reflexivity.
Qed.

(** C6, as the code has it.  [saveMessage] stores every new row with status
    [pending].  [updateMessageStatus] never reads the current status: a call
    leaves each row's status as it was or sets it to the requested one, and
    when the id is well-formed, selects exactly one row and the database
    reports no error, the call answers [true] and every row with that id has
    the requested status afterwards, whatever it had before. *)
Theorem C6_status_amended :
  (forall senderWalletAddress recipientWalletAddress messageId content amount
          transactionSignature w,
      exists b w',
        saveMessage env senderWalletAddress recipientWalletAddress messageId
          content amount transactionSignature w = (Return b, w')
        /\ (if b
            then exists row,
                messages w' = (messages w ++ [row])%list
                /\ Messages.status row = pending
            else messages w' = messages w))
  /\ (forall messageId s transactionSignature w,
      exists b w',
        updateMessageStatus env messageId s transactionSignature w
        = (Return b, w')
        /\ Forall2 (fun m m' =>
                      Messages.id m' = Messages.id m
                      /\ Messages.message_id m' = Messages.message_id m
                      /\ (Messages.status m' = Messages.status m
                          \/ Messages.status m' = s))
             (messages w) (messages w'))
  /\ (forall messageId s transactionSignature w row,
      wellFormed messageId = true ->
      filter (fun m => (Messages.message_id m =? messageId)%string)
        (messages w) = [row] ->
      (forall n, db_error env n = false) ->
      exists w',
        updateMessageStatus env messageId s transactionSignature w
        = (Return true, w')
        /\ forall m', In m' (messages w') ->
             Messages.message_id m' = messageId -> Messages.status m' = s).
Proof.
  split; [|split].
  - intros sa ra messageId content amount sig w.
    destruct (saveMessage_effect env sa ra messageId content amount sig w)
      as (b & w' & Hrun & Heff & _).
    exists b, w'. split; [exact Hrun|].
    destruct b; [|exact Heff].
    destruct Heff as (row & Hrows & _ & Hst & _). eauto.
  - intros messageId s sig w. apply updateMessageStatus_rows.
  - intros messageId s sig w row Hwf Hrow Hok.
    destruct (updateMessageStatus_overwrites messageId s sig w row Hwf Hrow
                (Hok _) (Hok _)) as (w' & Hrun & Hrows).
    exists w'. split; [exact Hrun|].
    intros m' Hin Hid. rewrite Hrows in Hin.
    apply in_map_iff in Hin. destruct Hin as (m & Hm & _).
    destruct (String.eqb_spec (Messages.message_id m) messageId) as [E|E].
    + subst m'. reflexivity.
    + subst m'. contradiction.
Qed.

End Status.

(** C6 fails as stated: a message saved as [pending] and then approved is
    set to [rejected] by a second, successful call of [updateMessageStatus];
    the intended invariant does not hold of the code. *)
Lemma C6_counterexample :
  map Messages.status (messages Demo.saved) = [pending]
  /\ map Messages.status (messages Demo.settled) = [approved]
  /\ fst (updateMessageStatus Demo.env "m001" rejected (Some "tx2")
            Demo.settled) = Return true
  /\ map Messages.status
       (messages (snd (updateMessageStatus Demo.env "m001" rejected
                         (Some "tx2") Demo.settled))) = [rejected]
  /\ ~ statusOnlyLeavesPending.
Proof.
  repeat split; try (vm_compute; reflexivity).
  intros H.
  specialize (H Demo.env "m001" rejected (Some "tx2") Demo.settled).
  vm_compute in H.
  inversion H as [|m m' l l' Hbad _]. discriminate Hbad.
Qed.

Lemma C6_amended_witness :
  exists w',
    updateMessageStatus Demo.env "m001" rejected (Some "tx2") Demo.settled
    = (Return true, w')
    /\ forall m', In m' (messages w') ->
         Messages.message_id m' = "m001" -> Messages.status m' = rejected.
Proof.
  destruct (C6_status_amended Demo.env) as (_ & _ & H).
  eapply H.
  - reflexivity.
  - vm_compute. reflexivity.
  - intros n. reflexivity.
Defined.

(* ================================================================== *)
(** ** [fetchMessages] *)

Section Sorting.

Variable env : Env.

Lemma sort_insert_perm {A} (cmp : A -> A -> option Z) (x : A) (l : list A) :
  Permutation (x :: l) (sort_insert cmp x l).
Proof.
  induction l as [|y l IH]; simpl; [reflexivity|].
  destruct (SortCompare cmp x y <=? 0); [reflexivity|].
  rewrite perm_swap. constructor. exact IH.
Qed.

Lemma Array_sort_perm {A} (cmp : A -> A -> option Z) (l : list A) :
  Permutation l (Array_sort cmp l).
Proof.
  induction l as [|x l IH]; simpl; [reflexivity|].
  rewrite <- sort_insert_perm. constructor. exact IH.
Qed.

Lemma notOlder_trans (a b c : MessageData.t) :
  notOlder env a b -> notOlder env b c -> notOlder env a c.
Proof.
  unfold notOlder.
  destruct (timeOf env a), (timeOf env b), (timeOf env c); try tauto. lia.
Qed.

(** On dated messages the comparator of [fetchMessages] is non-positive
    exactly when its first argument is not older than its second. *)
Lemma newestFirst_sign (a b : MessageData.t) :
  dated env a -> dated env b ->
  (SortCompare (newestFirst env) a b <=? 0) = true <-> notOlder env a b.
Proof.
  unfold dated, SortCompare, newestFirst, notOlder, timeOf.
  destruct (Date_getTime env (MessageData.created_at a)) as [ta|];
    [|intros H; contradiction].
  destruct (Date_getTime env (MessageData.created_at b)) as [tb|];
    [|intros _ H; contradiction].
  intros _ _. rewrite Z.leb_le. lia.
Qed.

Lemma newestFirst_total (a b : MessageData.t) :
  dated env a -> dated env b ->
  (SortCompare (newestFirst env) a b <=? 0) = false -> notOlder env b a.
Proof.
  unfold dated, SortCompare, newestFirst, notOlder, timeOf.
  destruct (Date_getTime env (MessageData.created_at a)) as [ta|];
    [|intros H; contradiction].
  destruct (Date_getTime env (MessageData.created_at b)) as [tb|];
    [|intros _ H; contradiction].
  intros _ _. rewrite Z.leb_gt. lia.
Qed.

Lemma sort_insert_sorted (x : MessageData.t) (l : list MessageData.t) :
  dated env x -> Forall (dated env) l ->
  StronglySorted (notOlder env) l ->
  StronglySorted (notOlder env) (sort_insert (newestFirst env) x l).
Proof.
  intros Hx Hl Hs.
  induction Hs as [|y l Hs IH Hy]; simpl.
  - constructor; constructor.
  - inversion Hl as [|? ? Hdy Hdl]; subst.
    destruct (SortCompare (newestFirst env) x y <=? 0) eqn:E.
    + apply newestFirst_sign in E; try assumption.
      constructor; [constructor; assumption|].
      constructor; [exact E|].
      eapply Forall_impl; [|exact Hy].
      intros z Hz. eapply notOlder_trans; eassumption.
    + apply newestFirst_total in E; try assumption.
      constructor; [apply IH; assumption|].
      eapply Permutation_Forall; [apply sort_insert_perm|].
      constructor; assumption.
Qed.

Lemma Array_sort_sorted (l : list MessageData.t) :
  Forall (dated env) l ->
  StronglySorted (notOlder env) (Array_sort (newestFirst env) l).
Proof.
  induction l as [|x l IH]; intros H; simpl; [constructor|].
  inversion H; subst.
  apply sort_insert_sorted; auto.
  eapply Permutation_Forall; [apply Array_sort_perm|]. assumption.
Qed.

Lemma formatted_dated (profilesMap : list (string * Profiles.row))
  (rows : list Messages.row) :
  Forall (fun m => Date_getTime env (Messages.created_at m) <> None) rows ->
  Forall (dated env) (map (formatMessage env profilesMap) rows).
Proof.
  intros H. apply Forall_map. eapply Forall_impl; [|exact H].
  intros m Hm. exact Hm.
Qed.

Lemma Forall_filter {A} (P : A -> Prop) (f : A -> bool) (l : list A) :
  Forall P l -> Forall P (filter f l).
Proof.
  intros H. apply Forall_forall. intros x Hx.
  apply filter_In in Hx. destruct Hx as [Hx _].
  revert x Hx. apply Forall_forall. exact H.
Qed.

End Sorting.

Section Fetch.

Variable env : Env.

Lemma filter_none {A} (f : A -> bool) (l : list A) :
  (forall a, In a l -> f a = false) -> filter f l = [].
Proof.
  induction l as [|a l IH]; intros H; simpl; [reflexivity|].
  rewrite (H a (or_introl eq_refl)). apply IH.
  intros b Hb. apply H. right. exact Hb.
Qed.

Lemma falsy_nonempty (s : string) : s <> "" -> JS.falsy s = false.
Proof. destruct s; [congruence|reflexivity]. Qed.

(** A wallet address without profile: the lookup fails, one insert is
    attempted, and the answer is the empty list either way. *)
Lemma fetchMessages_unknown_wallet (walletAddress : string) (type : FetchType)
  (w : World) :
  walletAddress <> "" ->
  (forall p, In p (profiles w) -> Profiles.wallet_address p <> walletAddress) ->
  exists id w',
    fetchMessages env (Some walletAddress) type w = (Return [], w')
    /\ messages w' = messages w
    /\ profiles w'
       = if db_error env (2 + tick w) then profiles w
         else (profiles w ++
               [ {| Profiles.id := id;
                    Profiles.wallet_address := walletAddress;
                    Profiles.username := "user_" ++ JS.slice walletAddress 0 8;
                    Profiles.avatar_url := None |} ])%list.
Proof.
  intros Hne Hnone.
  unfold fetchMessages. rewrite (falsy_nonempty _ Hne).
  unfold profiles_by_wallet. run.
  rewrite filter_none.
  2: { intros p Hp. apply String.eqb_neq. apply Hnone. exact Hp. }
  assert (Hsingle : (if db_error env (tick w) then None
                     else single (@nil Profiles.row)) = None)
    by (destruct (db_error env (tick w)); reflexivity).
  rewrite Hsingle.
  unfold newProfileId, profiles_insert.
  destruct (crypto_randomUUID env) as [uuid|]; run.
  - exists (uuid (S (tick w))).
    destruct (db_error env (S (S (tick w)))); simpl.
    all: eexists; split; [reflexivity|]; split; reflexivity.
  - exists ("profile-" ++ JS.toString (Date_now env (S (tick w))) 10 ++ "").
    destruct (db_error env (S (S (tick w)))); simpl.
    all: eexists; split; [reflexivity|]; split; reflexivity.
Qed.

(** C5. For a non-empty wallet address that no profile carries,
    [fetchMessages] answers the empty list and, the database accepting the
    insert, leaves table [profiles] with exactly one more row, whose
    [wallet_address] is that address; table [messages] is unchanged. *)
Theorem C5_fetch_creates_profile (walletAddress : string) (type : FetchType)
  (w : World) :
  walletAddress <> "" ->
  (forall p, In p (profiles w) -> Profiles.wallet_address p <> walletAddress) ->
  db_error env (2 + tick w) = false ->
  exists p w',
    fetchMessages env (Some walletAddress) type w = (Return [], w')
    /\ profiles w' = (profiles w ++ [p])%list
    /\ Profiles.wallet_address p = walletAddress
    /\ messages w' = messages w.
Proof.
  intros Hne Hnone Hdb.
  destruct (fetchMessages_unknown_wallet walletAddress type w Hne Hnone)
    as (id & w' & Hrun & Hmsgs & Hprofiles).
  rewrite Hdb in Hprofiles.
  eexists _, w'. split; [exact Hrun|].
  split; [exact Hprofiles|]. split; [reflexivity|exact Hmsgs].
Qed.

(** Every answer of [fetchMessages] is the empty list or the sorted array of
    the formatted rows selected for some profile. *)
Lemma fetchMessages_shape (walletAddress : option string) (type : FetchType)
  (w : World) :
  exists result w',
    fetchMessages env walletAddress type w = (Return result, w')
    /\ (result = []
        \/ exists profilesMap profile,
             result = Array_sort (newestFirst env)
                        (map (formatMessage env profilesMap)
                           (filter (matches type profile) (messages w)))).
Proof.
  unfold fetchMessages.
  destruct walletAddress as [wa|]; [|run; eauto].
  destruct (JS.falsy wa); [run; eauto|].
  unfold profiles_by_wallet. run.
  destruct (if db_error env (tick w) then None else single _) as [p|].
  - unfold messages_for. run.
    destruct (db_error env (S (tick w))); simpl; [eauto|].
    match goal with
    | |- context [match ?ids with [] => _ | _ :: _ => _ end] =>
        destruct ids as [|i ids']
    end.
    + run. eauto 10.
    + unfold profiles_in. run.
      match goal with
      | |- context [if ?b then _ else _] => destruct b
      end; simpl; eauto 10.
  - unfold newProfileId, profiles_insert.
    destruct (crypto_randomUUID env) as [uuid|]; run.
    all: destruct (db_error env (S (S (tick w)))); simpl; eauto.
Qed.

(** With the wallet's profile found and the two queries answered, the
    result is the sorted array of the formatted rows of that profile. *)
Lemma fetchMessages_known_wallet (walletAddress : string) (type : FetchType)
  (w : World) (p : Profiles.row) :
  walletAddress <> "" ->
  filter (fun q => (Profiles.wallet_address q =? walletAddress)%string)
    (profiles w) = [p] ->
  db_error env (tick w) = false ->
  db_error env (1 + tick w) = false ->
  exists profilesMap w',
    fetchMessages env (Some walletAddress) type w
    = (Return (Array_sort (newestFirst env)
                 (map (formatMessage env profilesMap)
                    (filter (matches type (Profiles.id p)) (messages w)))),
       w').
Proof.
  intros Hne Hp E0 E1.
  unfold fetchMessages. rewrite (falsy_nonempty _ Hne).
  unfold profiles_by_wallet. run.
  rewrite E0, Hp. simpl.
  unfold messages_for. run. simpl in E1. rewrite E1.
  match goal with
  | |- context [match ?ids with [] => _ | _ :: _ => _ end] =>
      destruct ids as [|i ids']
  end.
  - run. eauto.
  - unfold profiles_in. run.
    match goal with
    | |- context [if ?b then _ else _] => destruct b
    end; simpl; eauto.
Qed.

Lemma matches_selectedFor (type : FetchType) (profile : string)
  (row : Messages.row) :
  matches type profile row = true <-> selectedFor type profile row.
Proof.
  unfold matches, selectedFor. destruct type.
  - apply String.eqb_eq.
  - apply String.eqb_eq.
  - rewrite orb_true_iff, !String.eqb_eq. reflexivity.
Qed.

(** C10, amended.  For a wallet address carried by exactly one profile, the
    database answering the two queries and every stored [created_at] a valid
    date, [fetchMessages] returns the stored rows selected for that profile
    (those it received, sent, or either, by the request), each once and
    formatted, ordered by [created_at] from newest to oldest. *)
Theorem C10_newest_first (walletAddress : string) (type : FetchType)
  (w : World) (p : Profiles.row) :
  walletAddress <> "" ->
  filter (fun q => (Profiles.wallet_address q =? walletAddress)%string)
    (profiles w) = [p] ->
  db_error env (tick w) = false ->
  db_error env (1 + tick w) = false ->
  Forall (fun m => Date_getTime env (Messages.created_at m) <> None)
    (messages w) ->
  exists result w' profilesMap keep,
    fetchMessages env (Some walletAddress) type w = (Return result, w')
    /\ (forall row, keep row = true <-> selectedFor type (Profiles.id p) row)
    /\ Permutation result
         (map (formatMessage env profilesMap) (filter keep (messages w)))
    /\ StronglySorted (notOlder env) result.
Proof.
  intros Hne Hp E0 E1 Hdates.
  destruct (fetchMessages_known_wallet walletAddress type w p Hne Hp E0 E1)
    as (profilesMap & w' & Hrun).
  eexists _, w', profilesMap, (matches type (Profiles.id p)).
  split; [exact Hrun|]. split; [|split].
  - intros row. apply matches_selectedFor.
  - symmetry. apply Array_sort_perm.
  - apply Array_sort_sorted. apply formatted_dated.
    apply Forall_filter. exact Hdates.
Qed.

(** Whatever the wallet and the database answers, the list returned is
    ordered newest first. *)
Lemma fetchMessages_always_sorted (walletAddress : option string)
  (type : FetchType) (w : World) :
  Forall (fun m => Date_getTime env (Messages.created_at m) <> None)
    (messages w) ->
  exists result w',
    fetchMessages env walletAddress type w = (Return result, w')
    /\ StronglySorted (notOlder env) result.
Proof.
  intros Hdates.
  destruct (fetchMessages_shape walletAddress type w)
    as (result & w' & Hrun & [Hnil|(profilesMap & profile & Hres)]).
  - exists result, w'. split; [exact Hrun|]. subst. constructor.
  - exists result, w'. split; [exact Hrun|]. subst.
    apply Array_sort_sorted. apply formatted_dated.
    apply Forall_filter. exact Hdates.
Qed.

End Fetch.

Lemma C4_witness :
  updateMessageStatus Demo.env "xx1" approved None Demo.saved
  = (Return false, Demo.saved).
Proof.
  apply (C4_update_rejects_malformed Demo.env "xx1" approved None Demo.saved).
  left. reflexivity.
Defined.

Lemma C8_witness :
  updateMessageStatus Demo.env "123e4567-e89b-12d3-a456-426614174000"
    approved None Demo.saved
  = (Return false, Demo.saved).
Proof.
  apply (proj2 (C8_fallback_guard Demo.env
                  "123e4567-e89b-12d3-a456-426614174000" approved None
                  Demo.saved)).
  reflexivity.
Defined.

(** An id that passes the format test and contains [-] does reach the
    lookup by database id. *)
Example fallback_reached :
  db_log (snd (updateMessageStatus Demo.env "m-17" approved None Demo.empty))
  = [MessagesSelectByMessageId "m-17"; MessagesSelectById "m-17"].
Proof. reflexivity. Qed.

Lemma C5_witness :
  exists p w',
    fetchMessages Demo.env (Some "Carol") all Demo.inbox = (Return [], w')
    /\ profiles w' = (profiles Demo.inbox ++ [p])%list
    /\ Profiles.wallet_address p = "Carol"
    /\ messages w' = messages Demo.inbox.
Proof.
  apply (C5_fetch_creates_profile Demo.env "Carol" all Demo.inbox).
  - discriminate.
  - simpl. intros p [H|[H|[]]]; subst p; discriminate.
  - reflexivity.
Defined.

(** The empty wallet address is turned away before any database call. *)
Example fetch_empty_address :
  fetchMessages Demo.env (Some "") all Demo.inbox = (Return [], Demo.inbox).
Proof. reflexivity. Qed.

Lemma C10_witness :
  exists result w' profilesMap keep,
    fetchMessages Demo.env (Some "Bob") received Demo.inbox
    = (Return result, w')
    /\ (forall row, keep row = true <-> selectedFor received "pb" row)
    /\ Permutation result
         (map (formatMessage Demo.env profilesMap)
            (filter keep (messages Demo.inbox)))
    /\ StronglySorted (notOlder Demo.env) result.
Proof.
  apply (C10_newest_first Demo.env "Bob" received Demo.inbox
           (Demo.profileOf "pb" "Bob")).
  - discriminate.
  - reflexivity.
  - reflexivity.
  - reflexivity.
  - simpl. repeat constructor; discriminate.
Defined.

(** C10 fails as stated: Alice's wallet address is carried by two profiles,
    one of which sent three stored messages; the database answers every
    call and every date is valid, yet [fetchMessages] returns the empty
    list, for a request of any type. *)
Lemma C10_counterexample :
  In (Demo.profileOf "pa" "Alice") (profiles Samples.twins)
  /\ map Messages.sender_id (messages Samples.twins) = ["pa"; "pa"; "pa"]
  /\ (forall type,
        fst (fetchMessages Demo.env (Some "Alice") type Samples.twins)
        = Return [])
  /\ ~ newestFirstForExistingProfile.
Proof.
  split; [left; reflexivity|].
  split; [reflexivity|].
  split; [intros []; vm_compute; reflexivity|].
  intros H.
  destruct (H Demo.env "Alice" sent Samples.twins (Demo.profileOf "pa" "Alice"))
    as (result & w' & profilesMap & keep & Hrun & Hkeep & Hperm & _).
  - discriminate.
  - left. reflexivity.
  - reflexivity.
  - intros n. reflexivity.
  - simpl. repeat constructor; discriminate.
  - assert (Hres : result = []).
    { apply (f_equal fst) in Hrun. vm_compute in Hrun.
      injection Hrun as <-. reflexivity. }
    subst result. apply Permutation_nil in Hperm.
    assert (Hk : keep (Demo.messageAt "r1" "100" "m001") = true)
      by (apply Hkeep; reflexivity).
    revert Hperm. unfold Samples.twins, Demo.inbox. simpl.
    rewrite Hk. discriminate.
Qed.

(** Such a state is of the code's own making: one refused lookup makes
    [fetchMessages] store a second profile for Bob's wallet address, and
    from then on, with the database answering, Bob's messages are not
    returned. *)
Example duplicate_after_refused_lookup :
  let w1 := snd (fetchMessages Samples.firstCallRefused (Some "Bob") received
                   Demo.inbox) in
  map Profiles.wallet_address (profiles w1) = ["Alice"; "Bob"; "Bob"]
  /\ messages w1 = messages Demo.inbox
  /\ fst (fetchMessages Samples.firstCallRefused (Some "Bob") received w1)
     = Return [].
Proof. vm_compute. repeat split. Qed.

Example fetch_inbox_order :
  match fst (fetchMessages Demo.env (Some "Bob") received Demo.inbox) with
  | Return result => map MessageData.created_at result = ["300"; "200"; "100"]
  | Throw _ => False
  end.
Proof. vm_compute. reflexivity. Qed.

(* ================================================================== *)
(** ** The escrow address *)

Section Escrow.

Variable env : Env.

(** C7. [deriveMessageEscrowPDA] is deterministic: its answer is fixed by
    [sender], [recipient] and the seed.  It does not depend on the world it
    runs in, nor on the wallet behind the program that [getProgram] builds,
    and it leaves the world as it was. *)
Theorem C7_derivation_deterministic (sender recipient : PublicKey)
  (seed : string) :
  (forall (program : Program) (w1 w2 : World),
      fst (deriveMessageEscrowPDA env sender recipient seed program w1)
      = fst (deriveMessageEscrowPDA env sender recipient seed program w2)
      /\ snd (deriveMessageEscrowPDA env sender recipient seed program w1) = w1)
  /\ (forall (wallet1 wallet2 : AnchorWallet) (w1 w2 : World),
      fst ((program <- getProgram env wallet1 ;;
            deriveMessageEscrowPDA env sender recipient seed program) w1)
      = fst ((program <- getProgram env wallet2 ;;
              deriveMessageEscrowPDA env sender recipient seed program) w2)).
Proof.
  split.
  - intros program w1 w2. unfold deriveMessageEscrowPDA.
    destruct (findProgramAddress env _ _); split; reflexivity.
  - intros wallet1 wallet2 w1 w2.
    unfold getProgram, deriveMessageEscrowPDA, bind, ret. simpl.
    destruct (findProgramAddress env _ _); reflexivity.
Qed.

End Escrow.

(** The example of the specification, on the seed [ab12]. *)
Example derive_twice :
  fst (deriveMessageEscrowPDA Demo.env (Demo.key "A") (Demo.key "B") "ab12"
         {| programId := PROGRAM_ID Demo.env; provider := Demo.alice |}
         Demo.empty)
  = fst (deriveMessageEscrowPDA Demo.env (Demo.key "A") (Demo.key "B") "ab12"
           {| programId := PROGRAM_ID Demo.env; provider := Demo.bob |}
           Demo.saved).
Proof. reflexivity. Qed.

(** *** The seed on the two paths *)

Lemma append_assoc (a b c : string) : (a ++ b) ++ c = a ++ (b ++ c).
Proof. induction a as [|x a IH]; simpl; [reflexivity|now rewrite IH]. Qed.

Lemma digitChar_hex (d : Z) : 0 <= d < 16 -> JS.digitChar d <> "m"%char.
Proof.
  intros H. unfold JS.digitChar.
  assert (Hi : (Z.to_nat d < 16)%nat) by lia.
  revert Hi. generalize (Z.to_nat d) as i. intros i Hi.
  do 16 (destruct i as [|i]; [simpl; discriminate|]). lia.
Qed.

(** The hexadecimal digits of a non-negative number, followed by anything,
    never begin with [m]. *)
Lemma digitsOf_hex_head (fuel : nat) (n : Z) (tail : string) :
  0 <= n ->
  exists c rest,
    JS.digitsOf (S fuel) 16 n ++ tail = String c rest /\ c <> "m"%char.
Proof.
  revert n tail. induction fuel as [|fuel IH]; intros n tail Hn.
  - simpl. destruct (n <? 16) eqn:E.
    + eexists _, _. split; [reflexivity|].
      apply digitChar_hex. apply Z.ltb_lt in E. lia.
    + eexists _, _. split; [reflexivity|].
      apply digitChar_hex. apply Z.mod_pos_bound. lia.
  - change (JS.digitsOf (S (S fuel)) 16 n)
      with (if n <? 16 then String (JS.digitChar n) EmptyString
            else JS.digitsOf (S fuel) 16 (n / 16)
                   ++ String (JS.digitChar (n mod 16)) EmptyString).
    destruct (n <? 16) eqn:E.
    + eexists _, _. split; [reflexivity|].
      apply digitChar_hex. apply Z.ltb_lt in E. lia.
    + rewrite append_assoc. apply IH. apply Z.div_pos; lia.
Qed.

Lemma toString16_head (t : Z) (tail : string) :
  exists c rest, JS.toString t 16 ++ tail = String c rest /\ c <> "m"%char.
Proof.
  unfold JS.toString. destruct (t <? 0) eqn:E.
  - eexists _, _. split; [reflexivity|]. discriminate.
  - apply digitsOf_hex_head. apply Z.ltb_ge in E. exact E.
Qed.

(** The identifier generated by [createMessagePayment] is never well-formed
    for [saveMessage], and its seed does not begin with [m]. *)
Lemma generated_id_malformed (t : Z) (r : string) :
  let messageId := JS.toString t 16 ++ "-" ++ JS.slice r 2 10 in
  wellFormed messageId = false
  /\ exists c rest, JS.slice messageId 0 4 = String c rest /\ c <> "m"%char.
Proof.
  intros messageId. unfold messageId.
  destruct (toString16_head t ("-" ++ JS.slice r 2 10)) as (c & rest & H & Hc).
  rewrite H. split.
  - unfold wellFormed. rewrite startsWith_m_cons.
    destruct (Ascii.eqb_spec "m"%char c); [congruence|reflexivity].
  - unfold JS.slice. simpl. eauto.
Qed.

(** The seed read back from a regenerated identifier begins with [m]. *)
Lemma regenerated_seed (t : Z) :
  exists rest,
    JS.slice ("m" ++ JS.slice_last (JS.toString t 36) 3) 0 4 = String "m" rest.
Proof. unfold JS.slice. simpl. eauto. Qed.

Lemma utf8_head (c : ascii) (s s' : string) :
  c <> "m"%char -> utf8_encode (String c s) <> utf8_encode (String "m" s').
Proof.
  intros Hc. cbn [utf8_encode].
  change (utf8_unit "m") with [x6d].
  destruct c as [[] [] [] [] [] [] [] []];
    try (intros H; discriminate H).
  contradiction Hc. reflexivity.
Qed.

Section RoundTrip.

Variable env : Env.

Lemma catch_always_throws (message : string) (w : World) :
  exists e, createMessagePayment_catch (A := string) message w = (Throw e, w).
Proof.
  unfold createMessagePayment_catch, throw.
  destruct (_ || _); [eauto|]. destruct (JS.includes message "User rejected"); eauto.
Qed.

Lemma checkSufficientBalance_world (wallet : AnchorWallet) (amount : JS.number)
  (w : World) :
  exists b, checkSufficientBalance env wallet amount w = (Return b, advance 1 w).
Proof.
  unfold checkSufficientBalance, getBalance. run.
  destruct (connection_getBalance env (tick w) (publicKey wallet)); eauto.
Qed.

Lemma saveMessage_submitted (senderWalletAddress recipientWalletAddress
  messageId content : string) (amount : JS.number)
  (transactionSignature : option string) (w : World) :
  submitted (snd (saveMessage env senderWalletAddress recipientWalletAddress
                    messageId content amount transactionSignature w))
  = submitted w.
Proof.
  unfold saveMessage, getOrCreateProfile, profiles_by_wallet, newProfileId,
    profiles_insert, messages_insert.
  run.
  repeat match goal with
    | |- context [if ?b then _ else _] => destruct b; simpl
    | |- context [match crypto_randomUUID env with _ => _ end] =>
        destruct (crypto_randomUUID env); simpl
    | |- context [match single ?l with _ => _ end] =>
        destruct (single l); simpl
    end.
  all: reflexivity.
Qed.

(** C1, on the code.  Whenever [createMessagePayment] succeeds, the
    instruction it sent names a seed that does not begin with [m], while the
    [message_id] of the row it persisted was regenerated by [saveMessage] and
    begins with [m]: the seed read back from the persisted id on the
    approval or rejection path differs from the seed of the creation path,
    and so does the seed list given to the address derivation, for the same
    sender and recipient. *)
Theorem C1_persisted_id_changes_seed (wallet : AnchorWallet)
  (recipientAddress : string) (amount : JS.number) (messageContent : string)
  (w w' : World) (tx : string) :
  createMessagePayment env wallet recipientAddress amount messageContent w
  = (Return tx, w') ->
  exists lamports seed recipient escrow,
    PublicKey_new env recipientAddress = Some recipient
    /\ submitted w'
       = (submitted w ++
          [IxCreateMessagePayment lamports seed (publicKey wallet) recipient
             escrow])%list
    /\ forall row,
         In row (messages w') -> ~ In row (messages w) ->
         JS.slice (Messages.message_id row) 0 4 <> seed
         /\ escrowSeeds (publicKey wallet) recipient
              (JS.slice (Messages.message_id row) 0 4)
            <> escrowSeeds (publicKey wallet) recipient seed.
Proof.
  intros Hrun.
  unfold createMessagePayment, try_catch in Hrun.
  match type of Hrun with
  | (let (_, _) := ?body in _) = _ => destruct body as [[tx0|e] w0] eqn:Hbody
  | match ?body with _ => _ end = _ => destruct body as [[tx0|e] w0] eqn:Hbody
  end.
  2: { destruct (catch_always_throws e w0) as (e' & He).
       rewrite He in Hrun. discriminate. }
  injection Hrun as -> ->.
  unfold bind at 1 in Hbody.
  destruct (checkSufficientBalance_world wallet amount w) as (b & Hcheck).
  rewrite Hcheck in Hbody.
  destruct b; [|discriminate]. cbn [negb] in Hbody.
  unfold random16, newPublicKey, getProgram, deriveMessageEscrowPDA, new_BN,
    rpc in Hbody.
  revert Hbody. run.
  destruct (PublicKey_new env recipientAddress) as [recipient|]; simpl;
    [|discriminate].
  match goal with
  | |- context [findProgramAddress env ?s ?p] =>
      destruct (findProgramAddress env s p) as [[escrow bump]|e]; simpl;
        [|discriminate]
  end.
  destruct (BN_accepts (JS.mul amount LAMPORTS_PER_SOL)); simpl;
    [|discriminate].
  match goal with
  | |- context [rpc_result env ?n ?i] =>
      destruct (rpc_result env n i) as [sig|e]; simpl; [|discriminate]
  end.
  match goal with
  | |- context [saveMessage env ?sa ?ra ?mid ?c ?a ?ts ?w0] =>
      pose proof (saveMessage_submitted sa ra mid c a ts w0) as Hsub;
      destruct (saveMessage_effect env sa ra mid c a ts w0)
        as (saved & w1 & Hsave & Heff & _);
      rewrite Hsave in Hsub |- *
  end.
  simpl in Hsub. intros Hbody. injection Hbody as <- <-.
  eexists _, _, recipient, escrow.
  split; [reflexivity|]. split; [exact Hsub|].
  intros row Hin Hnew.
  destruct saved; simpl in Heff.
  2: { rewrite Heff in Hin. contradiction. }
  destruct Heff as (row0 & Hrows & Hid & _).
  rewrite Hrows in Hin. apply in_app_or in Hin.
  destruct Hin as [Hin|[<-|[]]]; [contradiction|].
  simpl in Hid.
  pose proof (generated_id_malformed (Date_now env (S (tick w)))
                (Math_random env (S (S (tick w))))) as Hgen.
  cbv zeta in Hgen. cbn [append] in Hgen.
  destruct Hgen as (Hbad & c & rest & Hseed & Hc).
  unfold validMessageId in Hid. rewrite Hbad in Hid.
  destruct (regenerated_seed (Date_now env (S (S (S (S (tick w)))))))
    as (rest' & Hback).
  rewrite Hid, Hback, Hseed.
  split.
  - intros Heq. injection Heq as Heq _. congruence.
  - unfold escrowSeeds. intros Heq. injection Heq as Heq.
    revert Heq. apply not_eq_sym. apply utf8_head. exact Hc.
Qed.

End RoundTrip.

Lemma C1_witness :
  exists lamports seed recipient escrow,
    PublicKey_new Demo.env "Bob" = Some recipient
    /\ submitted (snd Demo.paid)
       = (submitted Demo.empty ++
          [IxCreateMessagePayment lamports seed (publicKey Demo.alice)
             recipient escrow])%list
    /\ forall row,
         In row (messages (snd Demo.paid)) -> ~ In row (messages Demo.empty) ->
         JS.slice (Messages.message_id row) 0 4 <> seed
         /\ escrowSeeds (publicKey Demo.alice) recipient
              (JS.slice (Messages.message_id row) 0 4)
            <> escrowSeeds (publicKey Demo.alice) recipient seed.
Proof.
  apply (C1_persisted_id_changes_seed Demo.env Demo.alice "Bob" (JS.ofZ 1)
           "hello" Demo.empty (snd Demo.paid) "tx3").
  vm_compute. reflexivity.
Defined.

(** The run behind it: Alice's payment is created under seed [18bc] and
    mirrored under [message_id] [mv2c]; Bob's approval with the mirrored id
    derives from seed [mv2c] and names another escrow account. *)
Example escrow_mismatch :
  fst Demo.paid = Return "tx3"
  /\ map Messages.message_id (messages (snd Demo.paid)) = ["mv2c"]
  /\ exists lamports created approved_,
       submitted (snd (approveMessagePayment Demo.env Demo.bob "Alice" "mv2c"
                         (snd Demo.paid)))
       = [IxCreateMessagePayment lamports "18bc" (Demo.key "Alice")
            (Demo.key "Bob") created;
          IxApproveMessagePayment (Demo.key "Alice") (Demo.key "Bob")
            approved_]
       /\ created <> approved_.
Proof.
  split; [vm_compute; reflexivity|].
  split; [vm_compute; reflexivity|].
  eexists _, _, _. split; [vm_compute; reflexivity|].
  intros H. discriminate H.
Qed.

(** Approving with the identifier as generated reaches the escrow account
    of the creation, but [updateMessageStatus] then turns the identifier
    away and the mirrored row stays [pending]. *)
Example generated_id_not_mirrored :
  let r := approveMessagePayment Demo.env Demo.bob "Alice"
             "18bcfe56801-a3f19c27" (snd Demo.paid) in
  map Messages.status (messages (snd r)) = [pending]
  /\ exists lamports escrow,
       submitted (snd r)
       = [IxCreateMessagePayment lamports "18bc" (Demo.key "Alice")
            (Demo.key "Bob") escrow;
          IxApproveMessagePayment (Demo.key "Alice") (Demo.key "Bob") escrow].
Proof.
  split; [vm_compute; reflexivity|].
  eexists _, _. vm_compute. reflexivity.
Qed.

(* ================================================================== *)
(** ** The built-ins on examples *)

Example toString_hex : JS.toString 1700000000000 16 = "18bcfe56800".
Proof. reflexivity. Qed.

Example toString_36 : JS.toString 1700000000000 36 = "loyw3v28".
Proof. reflexivity. Qed.

Example toString_negative : JS.toString (-37) 36 = "-11".
Proof. reflexivity. Qed.

Example slice_last_3 : JS.slice_last "loyw3v28" 3 = "v28".
Proof. reflexivity. Qed.

Example slice_last_short : JS.slice_last "7" 3 = "7".
Proof. reflexivity. Qed.

Example includes_dash :
  JS.includes "Error: Insufficient funds." "Insufficient funds" = true
  /\ JS.includes "abc" "-" = false.
Proof. split; reflexivity. Qed.

Example fee_buffer_lamports :
  JS.mul JS.lit_0_01 LAMPORTS_PER_SOL = JS.ofZ 10000000
  /\ totalRequired (JS.ofZ 1) = JS.ofZ 1010000000.
Proof. split; vm_compute; reflexivity. Qed.

Example Set_of_keeps_first : Set_of [] ["b"; "a"; "b"; "c"; "a"] = ["b"; "a"; "c"].
Proof. reflexivity. Qed.

(* ================================================================== *)
(** ** Profiles referenced by a saved message *)

Lemma single_inv {A} (l : list A) (a : A) : single l = Some a -> l = [a].
Proof.
  destruct l as [|x [|y l]]; simpl; intros H; try discriminate.
  injection H as ->. reflexivity.
Qed.

Section SaveProfiles.

Variable env : Env.

(** What the get-or-create step of [saveMessage] does to the world. *)
Lemma getOrCreateProfile_spec (walletAddress suffix : string) (w : World) :
  exists r w',
    getOrCreateProfile env walletAddress suffix w = (Return r, w')
    /\ messages w' = messages w
    /\ (forall q, In q (profiles w) -> In q (profiles w'))
    /\ match r with
       | Some id =>
           exists p, In p (profiles w') /\ Profiles.id p = id
                     /\ Profiles.wallet_address p = walletAddress
       | None => profiles w' = profiles w
       end
    /\ (forall p0,
          filter (fun p => (Profiles.wallet_address p =? walletAddress)%string)
            (profiles w) = [p0] ->
          db_error env (tick w) = false ->
          r = Some (Profiles.id p0) /\ profiles w' = profiles w
          /\ tick w' = S (tick w)).
Proof.
  unfold getOrCreateProfile, profiles_by_wallet. run.
  destruct (db_error env (tick w)) eqn:E0; simpl.
  2: destruct (single _) as [p|] eqn:Es; simpl.
  2: { apply single_inv in Es.
       eexists _, _. split; [reflexivity|]. simpl.
       split; [reflexivity|]. split; [auto|]. split.
       - exists p. assert (Hin : In p [p]) by (left; reflexivity).
         rewrite <- Es in Hin. apply filter_In in Hin.
         destruct Hin as [Hin Hw]. apply String.eqb_eq in Hw. auto.
       - intros p0 Hp0 _. rewrite Hp0 in Es. injection Es as ->. auto. }
  all: unfold newProfileId, profiles_insert.
  all: destruct (crypto_randomUUID env) as [uuid|]; run.
  all: match goal with
       | |- context [if db_error env ?n then _ else _] =>
           destruct (db_error env n) eqn:E1; simpl
       end.
  all: eexists _, _; (split; [reflexivity|]); simpl.
  all: split; [reflexivity|].
  all: split; [intros q Hq; try apply in_or_app; auto|].
  all: split; [try reflexivity;
               try (eexists; split; [apply in_or_app; right; left; reflexivity|];
                    split; reflexivity)|].
  all: intros p0 Hp0 Hdb; try discriminate.
  all: rewrite Hp0 in Es; discriminate.
Qed.

(** The get-or-create step writes at most one profile, after those stored,
    and it carries the wallet address asked for. *)
Lemma getOrCreateProfile_growth (walletAddress suffix : string) (w : World) :
  exists r w' added,
    getOrCreateProfile env walletAddress suffix w = (Return r, w')
    /\ messages w' = messages w
    /\ profiles w' = (profiles w ++ added)%list
    /\ (List.length added <= 1)%nat
    /\ Forall (fun p => Profiles.wallet_address p = walletAddress) added
    /\ match r with
       | Some id =>
           exists p, In p (profiles w') /\ Profiles.id p = id
                     /\ Profiles.wallet_address p = walletAddress
       | None => True
       end.
Proof.
  unfold getOrCreateProfile, profiles_by_wallet. run.
  destruct (db_error env (tick w)) eqn:E0; simpl.
  2: destruct (single _) as [p|] eqn:Es; simpl.
  2: { apply single_inv in Es.
       exists (Some (Profiles.id p)). eexists. exists [].
       split; [reflexivity|]. simpl.
       split; [reflexivity|]. split; [symmetry; apply app_nil_r|].
       split; [lia|]. split; [constructor|].
       exists p. assert (Hin : In p [p]) by (left; reflexivity).
       rewrite <- Es in Hin. apply filter_In in Hin.
       destruct Hin as [Hin Hw]. apply String.eqb_eq in Hw. auto. }
  all: unfold newProfileId, profiles_insert.
  all: destruct (crypto_randomUUID env) as [uuid|]; run.
  all: match goal with
       | |- context [if db_error env ?n then _ else _] =>
           destruct (db_error env n) eqn:E1; simpl
       end.
  all: match goal with
       | |- exists r w' added, (Return None, _) = _ /\ _ =>
           exists None; eexists; exists [];
           split; [reflexivity|]; simpl;
           split; [reflexivity|]; split; [symmetry; apply app_nil_r|];
           split; [lia|]; split; [constructor|exact I]
       | |- exists r w' added, (Return (Some ?i), _) = _ /\ _ =>
           exists (Some i); eexists; eexists [_];
           split; [reflexivity|]; simpl;
           split; [reflexivity|]; split; [reflexivity|];
           split; [lia|]; split; [repeat constructor|];
           eexists; split; [apply in_or_app; right; left; reflexivity|];
           split; reflexivity
       end.
Qed.

(** X1. Every row [saveMessage] writes names, as sender and as recipient, the
    id of a stored profile carrying the respective wallet address.  Whatever
    [saveMessage] answers, the profiles stored before are kept as they were
    and in their order: at most two are added after them, each for one of
    the two wallet addresses; when it answers [false] no row was written. *)
Theorem saveMessage_references_profiles (senderWalletAddress
  recipientWalletAddress messageId content : string) (amount : JS.number)
  (transactionSignature : option string) (w : World) :
  exists b w' added,
    saveMessage env senderWalletAddress recipientWalletAddress messageId
      content amount transactionSignature w = (Return b, w')
    /\ profiles w' = (profiles w ++ added)%list
    /\ (List.length added <= 2)%nat
    /\ Forall (fun p => Profiles.wallet_address p = senderWalletAddress
                        \/ Profiles.wallet_address p = recipientWalletAddress)
         added
    /\ (b = false -> messages w' = messages w)
    /\ (b = true ->
        exists row sender recipient,
          messages w' = (messages w ++ [row])%list
          /\ In sender (profiles w') /\ In recipient (profiles w')
          /\ Profiles.id sender = Messages.sender_id row
          /\ Profiles.wallet_address sender = senderWalletAddress
          /\ Profiles.id recipient = Messages.recipient_id row
          /\ Profiles.wallet_address recipient = recipientWalletAddress).
Proof.
  unfold saveMessage. rewrite save_test.
  destruct (wellFormed messageId); cbn [negb]; run.
  all: match goal with
       | |- context [getOrCreateProfile env ?a "-sender" ?w0] =>
           destruct (getOrCreateProfile_growth a "-sender" w0)
             as (r1 & w1 & a1 & H1 & Hm1 & Hp1 & Hl1 & Hf1 & Hr1);
           rewrite H1; simpl in Hm1, Hp1
       end.
  all: destruct r1 as [senderId|].
  all: try (exists false, w1, a1; split; [reflexivity|];
            split; [exact Hp1|]; split; [lia|];
            split; [eapply Forall_impl; [|exact Hf1]; simpl; auto|];
            split; [intros _; exact Hm1|discriminate]).
  all: match goal with
       | |- context [getOrCreateProfile env ?a "-recipient" ?w0] =>
           destruct (getOrCreateProfile_growth a "-recipient" w0)
             as (r2 & w2 & a2 & H2 & Hm2 & Hp2 & Hl2 & Hf2 & Hr2);
           rewrite H2
       end.
  all: assert (Hp : profiles w2 = (profiles w ++ (a1 ++ a2))%list)
         by (rewrite Hp2, Hp1; symmetry; apply app_assoc).
  all: assert (Hl : (List.length (a1 ++ a2)%list <= 2)%nat)
         by (rewrite length_app; lia).
  all: assert (Hf : Forall (fun p =>
                      Profiles.wallet_address p = senderWalletAddress
                      \/ Profiles.wallet_address p = recipientWalletAddress)
                      (a1 ++ a2)%list)
         by (apply Forall_app; split;
             [eapply Forall_impl; [|exact Hf1]|eapply Forall_impl; [|exact Hf2]];
             simpl; auto).
  all: destruct r2 as [recipientId|].
  all: try (exists false, w2, (a1 ++ a2)%list; split; [reflexivity|];
            split; [exact Hp|]; split; [exact Hl|]; split; [exact Hf|];
            split; [intros _; rewrite Hm2; exact Hm1|discriminate]).
  all: unfold messages_insert; run.
  all: destruct (db_error env (tick w2)); simpl.
  all: try (exists false; eexists; exists (a1 ++ a2)%list;
            split; [reflexivity|]; simpl;
            split; [exact Hp|]; split; [exact Hl|]; split; [exact Hf|];
            split; [intros _; rewrite Hm2; exact Hm1|discriminate]).
  all: exists true; eexists; exists (a1 ++ a2)%list.
  all: split; [reflexivity|]; simpl.
  all: split; [exact Hp|]; split; [exact Hl|]; split; [exact Hf|].
  all: split; [discriminate|]; intros _.
  all: destruct Hr1 as (ps & Hps & Hids & Hws).
  all: destruct Hr2 as (pr & Hpr & Hidr & Hwr).
  all: eexists _, ps, pr.
  all: rewrite Hm2, Hm1.
  all: split; [reflexivity|]; simpl; repeat split; auto.
  all: rewrite Hp2; apply in_or_app; left; exact Hps.
Qed.

(** X2. With one profile for each of the two wallets and a database that
    reports no error, [saveMessage] adds no profile and writes one row
    between those two profiles. *)
Theorem saveMessage_reuses_profiles (senderWalletAddress
  recipientWalletAddress messageId content : string) (amount : JS.number)
  (transactionSignature : option string) (w : World)
  (sender recipient : Profiles.row) :
  filter (fun p => (Profiles.wallet_address p =? senderWalletAddress)%string)
    (profiles w) = [sender] ->
  filter (fun p => (Profiles.wallet_address p =? recipientWalletAddress)%string)
    (profiles w) = [recipient] ->
  (forall n, db_error env n = false) ->
  exists row w',
    saveMessage env senderWalletAddress recipientWalletAddress messageId
      content amount transactionSignature w = (Return true, w')
    /\ profiles w' = profiles w
    /\ messages w' = (messages w ++ [row])%list
    /\ Messages.sender_id row = Profiles.id sender
    /\ Messages.recipient_id row = Profiles.id recipient
    /\ Messages.content row = content
    /\ Messages.status row = pending.
Proof.
  intros Hs Hr Hdb.
  unfold saveMessage. rewrite save_test.
  destruct (wellFormed messageId); cbn [negb]; run.
  all: match goal with
       | |- context [getOrCreateProfile env ?a "-sender" ?w0] =>
           destruct (getOrCreateProfile_spec a "-sender" w0)
             as (r1 & w1 & H1 & Hm1 & _ & _ & Hu1);
           rewrite H1; simpl in Hm1;
           destruct (Hu1 sender Hs (Hdb _)) as (-> & Hpw1 & _);
           simpl in Hpw1
       end.
  all: rewrite <- Hpw1 in Hr.
  all: match goal with
       | |- context [getOrCreateProfile env ?a "-recipient" ?w0] =>
           destruct (getOrCreateProfile_spec a "-recipient" w0)
             as (r2 & w2 & H2 & Hm2 & _ & _ & Hu2);
           rewrite H2;
           destruct (Hu2 recipient Hr (Hdb _)) as (-> & Hpw2 & _)
       end.
  all: unfold messages_insert; run.
  all: rewrite (Hdb (tick w2)); simpl.
  all: eexists _, _; split; [reflexivity|]; simpl.
  all: rewrite Hm2, Hm1, Hpw2, Hpw1; repeat split.
Qed.

End SaveProfiles.

(* ================================================================== *)
(** ** More on [fetchMessages] *)

Section FetchMore.

Variable env : Env.

(** X3. [fetchMessages] never throws and never writes to table [messages];
    table [profiles] is left as it was or gains one row, which carries the
    wallet address asked for, and then the answer is empty. *)
Theorem fetchMessages_frame (walletAddress : option string) (type : FetchType)
  (w : World) :
  exists result w',
    fetchMessages env walletAddress type w = (Return result, w')
    /\ messages w' = messages w
    /\ (profiles w' = profiles w
        \/ exists p wa,
             profiles w' = (profiles w ++ [p])%list
             /\ walletAddress = Some wa
             /\ Profiles.wallet_address p = wa
             /\ result = []).
Proof.
  unfold fetchMessages.
  destruct walletAddress as [wa|]; [|run; eauto 10].
  destruct (JS.falsy wa); [run; eauto 10|].
  unfold profiles_by_wallet. run.
  destruct (if db_error env (tick w) then None else single _) as [p|].
  - unfold messages_for. run.
    destruct (db_error env (S (tick w))); simpl; [eauto 10|].
    match goal with
    | |- context [match ?ids with [] => _ | _ :: _ => _ end] =>
        destruct ids as [|i ids']
    end.
    + run. eauto 10.
    + unfold profiles_in. run.
      match goal with
      | |- context [if ?b then _ else _] => destruct b
      end; simpl; eauto 10.
  - unfold newProfileId, profiles_insert.
    destruct (crypto_randomUUID env) as [uuid|]; run.
    all: destruct (db_error env (S (S (tick w)))); simpl.
    all: eexists _, _; (split; [reflexivity|]); simpl.
    all: split; [reflexivity|].
    all: try (left; reflexivity).
    all: right; eexists _, wa; repeat split.
Qed.

(** X4. A wallet address that two or more profiles carry is treated like an
    unknown one: the answer is empty and, the database accepting the
    insert, one more profile with that address is added. *)
Theorem fetchMessages_duplicate_profiles (walletAddress : string)
  (type : FetchType) (w : World) (p1 p2 : Profiles.row)
  (others : list Profiles.row) :
  walletAddress <> "" ->
  filter (fun p => (Profiles.wallet_address p =? walletAddress)%string)
    (profiles w) = p1 :: p2 :: others ->
  db_error env (2 + tick w) = false ->
  exists p w',
    fetchMessages env (Some walletAddress) type w = (Return [], w')
    /\ profiles w' = (profiles w ++ [p])%list
    /\ Profiles.wallet_address p = walletAddress
    /\ messages w' = messages w.
Proof.
  intros Hne Hdup Hdb.
  unfold fetchMessages. rewrite (falsy_nonempty _ Hne).
  unfold profiles_by_wallet. run. rewrite Hdup.
  assert (Hsingle : (if db_error env (tick w) then None
                     else single (p1 :: p2 :: others)) = None)
    by (destruct (db_error env (tick w)); reflexivity).
  rewrite Hsingle.
  unfold newProfileId, profiles_insert.
  simpl in Hdb.
  destruct (crypto_randomUUID env) as [uuid|]; run.
  all: rewrite Hdb; simpl.
  all: eexists _, _; split; [reflexivity|]; simpl; repeat split.
Qed.

Lemma profilesMap_fold_In (ps : list Profiles.row)
  (acc : list (string * Profiles.row)) (e : string * Profiles.row) :
  In e (fold_left profilesMap_set ps acc) ->
  In e acc \/ (In (snd e) ps /\ fst e = Profiles.id (snd e)).
Proof.
  revert acc. induction ps as [|p ps IH]; intros acc H; simpl in H; [auto|].
  apply IH in H. destruct H as [H|[H1 H2]].
  - destruct H as [<-|H]; [right; simpl; auto|auto].
  - right. split; [right; exact H1|exact H2].
Qed.

Lemma profilesMap_get_In (ps : list Profiles.row) (k : string)
  (p : Profiles.row) :
  profilesMap_get (fold_left profilesMap_set ps []) k = Some p ->
  In p ps /\ Profiles.id p = k.
Proof.
  unfold profilesMap_get.
  destruct (find _ _) as [e|] eqn:E; [|discriminate].
  intros H. injection H as <-.
  apply find_some in E. destruct E as [Hin Hk].
  apply String.eqb_eq in Hk.
  apply profilesMap_fold_In in Hin. destruct Hin as [[]|[H1 H2]].
  split; [exact H1|congruence].
Qed.

(** A name shown for a message is the user name of a stored profile with
    the id looked up, or the placeholder. *)
Lemma usernameOf_source (ps : list Profiles.row) (k : string) :
  usernameOf (profilesMap_get (fold_left profilesMap_set ps []) k)
  = "Unknown User"
  \/ exists p, In p ps /\ Profiles.id p = k
               /\ Profiles.username p
                  = usernameOf (profilesMap_get
                                  (fold_left profilesMap_set ps []) k)
               /\ Profiles.username p <> "".
Proof.
  destruct (profilesMap_get _ k) as [p|] eqn:E; [|left; reflexivity].
  apply profilesMap_get_In in E. destruct E as [Hin Hid].
  unfold usernameOf.
  destruct (Profiles.username p) as [|c u] eqn:Hu; simpl; [left; reflexivity|].
  right. exists p. rewrite Hu. repeat split; auto. discriminate.
Qed.

(** X5. Every message [fetchMessages] returns is the formatted copy of a stored
    row selected by [type] for one profile of the wallet, and the names it
    shows for sender and recipient are the user names of stored profiles
    with those ids, or ['Unknown User']. *)
Theorem fetchMessages_names (walletAddress : option string)
  (type : FetchType) (w : World) :
  exists result w',
    fetchMessages env walletAddress type w = (Return result, w')
    /\ forall md, In md result ->
         exists row user,
           In row (messages w) /\ In user (profiles w)
           /\ Some (Profiles.wallet_address user) = walletAddress
           /\ matches type (Profiles.id user) row = true
           /\ MessageData.id md = Messages.id row
           /\ MessageData.message_id md = Messages.message_id row
           /\ MessageData.status md = Messages.status row
           /\ MessageData.content md = Messages.content row
           /\ (MessageData.senderUsername md = "Unknown User"
               \/ exists p, In p (profiles w)
                    /\ Profiles.id p = Messages.sender_id row
                    /\ Profiles.username p = MessageData.senderUsername md)
           /\ (MessageData.recipientUsername md = "Unknown User"
               \/ exists p, In p (profiles w)
                    /\ Profiles.id p = Messages.recipient_id row
                    /\ Profiles.username p = MessageData.recipientUsername md).
Proof.
  unfold fetchMessages.
  destruct walletAddress as [wa|];
    [|run; eexists _, _; split; [reflexivity|intros md []]].
  destruct (JS.falsy wa);
    [run; eexists _, _; split; [reflexivity|intros md []]|].
  unfold profiles_by_wallet. run.
  destruct (db_error env (tick w)) eqn:E0; simpl.
  2: destruct (single _) as [user|] eqn:Es; simpl.
  2: { apply single_inv in Es.
       assert (Huser : In user (profiles w)
                       /\ Profiles.wallet_address user = wa).
       { assert (Hin : In user [user]) by (left; reflexivity).
         rewrite <- Es in Hin. apply filter_In in Hin.
         destruct Hin as [Hin Hw]. apply String.eqb_eq in Hw. auto. }
       destruct Huser as [Huin Huw].
       unfold messages_for. run.
       destruct (db_error env (S (tick w))); simpl;
         [eexists _, _; split; [reflexivity|intros md []]|].
       assert (Hgen : forall pm,
                  (pm = [] \/ exists ps, (forall p, In p ps -> In p (profiles w))
                                         /\ pm = fold_left profilesMap_set ps []) ->
                  forall md,
                    In md (Array_sort (newestFirst env)
                             (map (formatMessage env pm)
                                (filter (matches type (Profiles.id user))
                                   (messages w)))) ->
                    exists row user0,
                      In row (messages w) /\ In user0 (profiles w)
                      /\ Some (Profiles.wallet_address user0) = Some wa
                      /\ matches type (Profiles.id user0) row = true
                      /\ MessageData.id md = Messages.id row
                      /\ MessageData.message_id md = Messages.message_id row
                      /\ MessageData.status md = Messages.status row
                      /\ MessageData.content md = Messages.content row
                      /\ (MessageData.senderUsername md = "Unknown User"
                          \/ exists p, In p (profiles w)
                               /\ Profiles.id p = Messages.sender_id row
                               /\ Profiles.username p
                                  = MessageData.senderUsername md)
                      /\ (MessageData.recipientUsername md = "Unknown User"
                          \/ exists p, In p (profiles w)
                               /\ Profiles.id p = Messages.recipient_id row
                               /\ Profiles.username p
                                  = MessageData.recipientUsername md)).
       { intros pm Hpm md Hmd.
         eapply Permutation_in in Hmd;
           [|apply Permutation_sym; apply Array_sort_perm].
         apply in_map_iff in Hmd. destruct Hmd as (row & <- & Hrow).
         apply filter_In in Hrow. destruct Hrow as [Hrow Hmatch].
         exists row, user. rewrite Huw.
         do 8 (split; [solve [auto]|]).
         destruct Hpm as [->|(ps & Hps & ->)].
         - split; left; reflexivity.
         - simpl. split.
           + destruct (usernameOf_source ps (Messages.sender_id row))
               as [H|(p & Hp & Hid & Hname & _)]; [left; exact H|].
             right. exists p. auto.
           + destruct (usernameOf_source ps (Messages.recipient_id row))
               as [H|(p & Hp & Hid & Hname & _)]; [left; exact H|].
             right. exists p. auto. }
       match goal with
       | |- context [match ?ids with [] => _ | _ :: _ => _ end] =>
           destruct ids as [|i ids'] eqn:Hids
       end.
       - run. eexists _, _. split; [reflexivity|].
         apply Hgen. left. reflexivity.
       - unfold profiles_in. run.
         match goal with
         | |- context [if ?b then _ else _] => destruct b
         end; simpl.
         + eexists _, _. split; [reflexivity|].
           apply Hgen. left. reflexivity.
         + eexists _, _. split; [reflexivity|].
           apply Hgen. right. eexists. split; [|reflexivity].
           intros p Hp. apply filter_In in Hp. apply Hp. }
  all: unfold newProfileId, profiles_insert.
  all: destruct (crypto_randomUUID env) as [uuid|]; run.
  all: destruct (db_error env (S (S (tick w)))); simpl.
  all: eexists _, _; split; [reflexivity|intros md []].
Qed.

End FetchMore.

(* ================================================================== *)
(** ** More on [updateMessageStatus] *)

Lemma single_none {A} (l : list A) : List.length l <> 1%nat -> single l = None.
Proof. destruct l as [|x [|y l]]; simpl; intros H; congruence. Qed.

Section UpdateMore.

Variable env : Env.

(** X6. An id that is well-formed and has no [-], but is carried by no row or
    by several, is answered [false]; neither table changes. *)
Theorem updateMessageStatus_not_found (messageId : string)
  (status : MessageStatus) (transactionSignature : option string)
  (w : World) :
  wellFormed messageId = true ->
  JS.includes messageId "-" = false ->
  List.length
    (filter (fun m => (Messages.message_id m =? messageId)%string)
       (messages w)) <> 1%nat ->
  exists w',
    updateMessageStatus env messageId status transactionSignature w
    = (Return false, w')
    /\ messages w' = messages w /\ profiles w' = profiles w.
Proof.
  intros Hwf Hdash Hcount.
  unfold updateMessageStatus, try_catch.
  rewrite update_test, Hwf. cbn [negb].
  unfold messages_by_message_id. run.
  rewrite (single_none _ Hcount), Hdash.
  destruct (db_error env (tick w)); simpl;
    eexists; split; try reflexivity; split; reflexivity.
Qed.

(** X7. [updateMessageStatus] never throws, keeps table [profiles] and the
    number and order of the rows of [messages]; a row is left exactly as it
    was, or it keeps every field but [status], [transaction_signature] and
    [updated_at]: the status is the requested one and the signature is the
    given one, or the old one when none or an empty one is given. *)
Theorem updateMessageStatus_touches (messageId : string)
  (status : MessageStatus) (transactionSignature : option string)
  (w : World) :
  exists b w',
    updateMessageStatus env messageId status transactionSignature w
    = (Return b, w')
    /\ profiles w' = profiles w
    /\ Forall2 (fun m m' =>
                  m' = m
                  \/ (Messages.id m' = Messages.id m
                      /\ Messages.sender_id m' = Messages.sender_id m
                      /\ Messages.recipient_id m' = Messages.recipient_id m
                      /\ Messages.amount m' = Messages.amount m
                      /\ Messages.created_at m' = Messages.created_at m
                      /\ Messages.message_id m' = Messages.message_id m
                      /\ Messages.content m' = Messages.content m
                      /\ Messages.status m' = status
                      /\ Messages.transaction_signature m'
                         = signatureAfter transactionSignature m))
         (messages w) (messages w').
Proof.
  unfold updateMessageStatus, try_catch.
  unfold messages_by_message_id, messages_by_id, messages_update. run.
  repeat match goal with
    | |- context [if ?b then _ else _] => destruct b eqn:?; simpl
    | |- context [match single ?l with _ => _ end] =>
        destruct (single l) eqn:?; simpl
    end.
  all: eexists _, _; (split; [reflexivity|]); simpl.
  all: split; [reflexivity|].
  all: try (apply Forall2_map_right; intros m;
            match goal with
            | |- context [if ?c then _ else _] => destruct c
            end; [right; repeat split|left; reflexivity]).
  all: apply Forall2_same; auto.
Qed.

(** X8. The lookup by database id: for a well-formed id with [-] that no row
    carries as [message_id] but exactly one row has as database id, and a
    database that reports no error, the answer is [true] and the rows with
    that database id are the ones updated. *)
Theorem updateMessageStatus_by_database_id (messageId : string)
  (status : MessageStatus) (transactionSignature : option string)
  (w : World) (row : Messages.row) :
  wellFormed messageId = true ->
  JS.includes messageId "-" = true ->
  filter (fun m => (Messages.message_id m =? messageId)%string) (messages w)
  = [] ->
  filter (fun m => (Messages.id m =? messageId)%string) (messages w)
  = [row] ->
  (forall n, db_error env n = false) ->
  exists w' updated,
    updateMessageStatus env messageId status transactionSignature w
    = (Return true, w')
    /\ messages w'
       = map (fun m => if (Messages.id m =? messageId)%string
                       then apply_update status transactionSignature updated m
                       else m)
           (messages w).
Proof.
  intros Hwf Hdash Hnone Hrow Hdb.
  assert (Hid : Messages.id row = messageId).
  { assert (Hin : In row [row]) by (left; reflexivity).
    rewrite <- Hrow in Hin. apply filter_In in Hin.
    apply String.eqb_eq. apply Hin. }
  unfold updateMessageStatus, try_catch.
  rewrite update_test, Hwf. cbn [negb].
  unfold messages_by_message_id, messages_by_id, messages_update. run.
  rewrite (Hdb (tick w)), Hnone, Hdash. simpl.
  rewrite (Hdb (S (tick w))), Hrow. simpl.
  rewrite (Hdb (S (S (S (tick w))))). simpl.
  rewrite Hid. eexists _, _. split; reflexivity.
Qed.

End UpdateMore.

(* ================================================================== *)
(** ** Payment functions and the mirror *)

Section Payments.

Variable env : Env.

Lemma catch_shown (message : string) (w : World) :
  createMessagePayment_catch (A := string) message w
  = (Throw (shownError message), w).
Proof.
  unfold createMessagePayment_catch, shownError, throw.
  destruct (_ || _); [reflexivity|].
  destruct (JS.includes message "User rejected"); reflexivity.
Qed.

Lemma saveMessage_frame (senderWalletAddress recipientWalletAddress
  messageId content : string) (amount : JS.number)
  (transactionSignature : option string) (w : World) :
  exists b w',
    saveMessage env senderWalletAddress recipientWalletAddress messageId
      content amount transactionSignature w = (Return b, w')
    /\ submitted w' = submitted w.
Proof.
  destruct (saveMessage_effect env senderWalletAddress recipientWalletAddress
              messageId content amount transactionSignature w)
    as (b & w' & Hrun & _).
  exists b, w'. split; [exact Hrun|].
  pose proof (saveMessage_submitted env senderWalletAddress
                recipientWalletAddress messageId content amount
                transactionSignature w) as H.
  rewrite Hrun in H. exact H.
Qed.

(** What a successful [createMessagePayment] has done on the chain side. *)
Lemma createMessagePayment_success (wallet : AnchorWallet)
  (recipientAddress : string) (amount : JS.number) (messageContent : string)
  (w w' : World) (tx : string) :
  createMessagePayment env wallet recipientAddress amount messageContent w
  = (Return tx, w') ->
  exists recipient escrow bump,
    PublicKey_new env recipientAddress = Some recipient
    /\ findProgramAddress env
         (escrowSeeds (publicKey wallet) recipient
            (JS.slice (generatedId env w) 0 4))
         (PROGRAM_ID env) = inl (escrow, bump)
    /\ submitted w'
       = (submitted w ++
          [IxCreateMessagePayment (JS.mul amount LAMPORTS_PER_SOL)
             (JS.slice (generatedId env w) 0 4) (publicKey wallet) recipient
             escrow])%list.
Proof.
  intros Hrun.
  unfold createMessagePayment, try_catch in Hrun.
  match type of Hrun with
  | match ?body with _ => _ end = _ => destruct body as [[tx0|e] w0] eqn:Hbody
  end.
  2: { rewrite catch_shown in Hrun. discriminate. }
  injection Hrun as -> ->.
  unfold bind at 1 in Hbody.
  destruct (checkSufficientBalance_world env wallet amount w) as (b & Hcheck).
  rewrite Hcheck in Hbody.
  destruct b; [|discriminate]. cbn [negb] in Hbody.
  unfold random16, newPublicKey, getProgram, deriveMessageEscrowPDA, new_BN,
    rpc in Hbody.
  revert Hbody. run. unfold generatedId.
  destruct (PublicKey_new env recipientAddress) as [recipient|]; simpl;
    [|discriminate].
  match goal with
  | |- context [findProgramAddress env ?s ?p] =>
      destruct (findProgramAddress env s p) as [[escrow bump]|e] eqn:Hpda;
        simpl; [|discriminate]
  end.
  destruct (BN_accepts (JS.mul amount LAMPORTS_PER_SOL)); simpl;
    [|discriminate].
  match goal with
  | |- context [rpc_result env ?n ?i] =>
      destruct (rpc_result env n i) as [sig|e]; simpl; [|discriminate]
  end.
  match goal with
  | |- context [saveMessage env ?sa ?ra ?mid ?c ?a ?ts ?w0] =>
      destruct (saveMessage_frame sa ra mid c a ts w0)
        as (saved & w1 & Hsave & Hsub);
      rewrite Hsave
  end.
  simpl in Hsub. intros Hbody. injection Hbody as <- <-.
  exists recipient, escrow, bump.
  split; [reflexivity|]. split; [exact Hpda|exact Hsub].
Qed.

(** X9. Whenever [createMessagePayment] throws, the database has not been
    touched: no call was made and both tables are as before; at most one
    instruction was sent.  The throws are those of the balance test, of the
    recipient address, of the address derivation, of [new BN] on an amount
    of 2^53 lamports or more, and of the submission. *)
Theorem createMessagePayment_throws_before_writing (wallet : AnchorWallet)
  (recipientAddress : string) (amount : JS.number) (messageContent : string)
  (w w' : World) (e : string) :
  createMessagePayment env wallet recipientAddress amount messageContent w
  = (Throw e, w') ->
  db_log w' = db_log w /\ profiles w' = profiles w
  /\ messages w' = messages w
  /\ (submitted w' = submitted w
      \/ exists i, submitted w' = (submitted w ++ [i])%list).
Proof.
  intros Hrun.
  unfold createMessagePayment, try_catch in Hrun.
  match type of Hrun with
  | match ?body with _ => _ end = _ => destruct body as [[tx0|e0] w0] eqn:Hbody
  end; [discriminate|].
  rewrite catch_shown in Hrun. injection Hrun as _ <-.
  unfold bind at 1 in Hbody.
  destruct (checkSufficientBalance_world env wallet amount w) as (b & Hcheck).
  rewrite Hcheck in Hbody.
  destruct b; cbn [negb] in Hbody.
  2: { unfold throw in Hbody. injection Hbody as _ <-. simpl. auto. }
  unfold random16, newPublicKey, getProgram, deriveMessageEscrowPDA, new_BN,
    rpc in Hbody.
  revert Hbody. run.
  destruct (PublicKey_new env recipientAddress) as [recipient|]; simpl.
  2: { intros H. injection H as _ <-. simpl. auto. }
  match goal with
  | |- context [findProgramAddress env ?s ?p] =>
      destruct (findProgramAddress env s p) as [[escrow bump]|e1]; simpl
  end.
  2: { intros H. injection H as _ <-. simpl. auto. }
  destruct (BN_accepts (JS.mul amount LAMPORTS_PER_SOL)); simpl.
  2: { intros H. injection H as _ <-. simpl. auto. }
  match goal with
  | |- context [rpc_result env ?n ?i] =>
      destruct (rpc_result env n i) as [sig|e1]; simpl
  end.
  2: { intros H. injection H as _ <-. simpl. eauto 10. }
  match goal with
  | |- context [saveMessage env ?sa ?ra ?mid ?c ?a ?ts ?w0] =>
      destruct (saveMessage_frame sa ra mid c a ts w0)
        as (saved & w1 & Hsave & Hsub);
      rewrite Hsave
  end.
  discriminate.
Qed.

End Payments.

Section Submission.

Variable env : Env.
Variable wallet : AnchorWallet.
Variable recipientAddress messageContent : string.
Variable amount : JS.number.


Lemma createMessagePayment_reaches_rpc (w : World) (lamports : Z)
  (recipient escrow : PublicKey) (bump : Z) :
  connection_getBalance env (tick w) (publicKey wallet) = inl lamports ->
  JS.geb (JS.ofZ lamports) (totalRequired amount) = true ->
  PublicKey_new env recipientAddress = Some recipient ->
  findProgramAddress env
    (escrowSeeds (publicKey wallet) recipient
       (JS.slice (generatedId env w) 0 4))
    (PROGRAM_ID env) = inl (escrow, bump) ->
  BN_accepts (JS.mul amount LAMPORTS_PER_SOL) = true ->
  let i := IxCreateMessagePayment (JS.mul amount LAMPORTS_PER_SOL)
             (JS.slice (generatedId env w) 0 4) (publicKey wallet) recipient
             escrow in
  createMessagePayment env wallet recipientAddress amount messageContent w
  = match rpc_result env (3 + tick w) i with
    | inl tx =>
        (Return tx,
         snd (saveMessage env (toBase58 env (publicKey wallet))
                recipientAddress (generatedId env w) messageContent amount
                (Some tx) (afterSubmission w i)))
    | inr e => (Throw (shownError e), afterSubmission w i)
    end.
Proof.
  intros Hbal Hgeb Hkey Hpda Hbn i.
  unfold createMessagePayment, try_catch.
  unfold bind at 1.
  rewrite (checkSufficientBalance_answer env wallet amount w lamports Hbal).
  rewrite Hgeb. cbn [negb].
  unfold random16, newPublicKey, getProgram, deriveMessageEscrowPDA, new_BN,
    rpc.
  run. rewrite Hkey. simpl.
  unfold generatedId in Hpda, i. simpl in Hpda. rewrite Hpda. simpl.
  rewrite Hbn. simpl.
  subst i. simpl.
  match goal with
  | |- context [rpc_result env ?n ?i] =>
      destruct (rpc_result env n i) as [tx|e]; simpl
  end.
  - unfold generatedId, afterSubmission. simpl.
    match goal with
    | |- context [saveMessage env ?sa ?ra ?mid ?c ?a ?ts ?w0] =>
        destruct (saveMessage_frame env sa ra mid c a ts w0)
          as (saved & w1 & Hsave & _);
        rewrite !Hsave
    end.
    reflexivity.
  - rewrite catch_shown. reflexivity.
Qed.

(** An amount that [new BN] turns away: the assertion of the constructor is
    thrown as it is, after the balance, the clock and the random number were
    read, and nothing is sent or written. *)
Lemma createMessagePayment_amount_too_large (w : World) (lamports : Z)
  (recipient escrow : PublicKey) (bump : Z) :
  connection_getBalance env (tick w) (publicKey wallet) = inl lamports ->
  JS.geb (JS.ofZ lamports) (totalRequired amount) = true ->
  PublicKey_new env recipientAddress = Some recipient ->
  findProgramAddress env
    (escrowSeeds (publicKey wallet) recipient
       (JS.slice (generatedId env w) 0 4))
    (PROGRAM_ID env) = inl (escrow, bump) ->
  BN_accepts (JS.mul amount LAMPORTS_PER_SOL) = false ->
  createMessagePayment env wallet recipientAddress amount messageContent w
  = (Throw "Assertion failed", advance 3 w).
Proof.
  intros Hbal Hgeb Hkey Hpda Hbn.
  unfold createMessagePayment, try_catch.
  unfold bind at 1.
  rewrite (checkSufficientBalance_answer env wallet amount w lamports Hbal).
  rewrite Hgeb. cbn [negb].
  unfold random16, newPublicKey, getProgram, deriveMessageEscrowPDA, new_BN,
    rpc.
  run. rewrite Hkey. simpl.
  unfold generatedId in Hpda. simpl in Hpda. rewrite Hpda. simpl.
  rewrite Hbn. simpl. reflexivity.
Qed.

End Submission.

Section SubmissionOutcomes.

Variable env : Env.
Variable wallet : AnchorWallet.
Variable recipientAddress messageContent : string.
Variable amount : JS.number.
Variable w : World.
Variable lamports bump : Z.
Variable recipient escrow : PublicKey.

Hypothesis balance_read :
  connection_getBalance env (tick w) (publicKey wallet) = inl lamports.
Hypothesis balance_enough :
  JS.geb (JS.ofZ lamports) (totalRequired amount) = true.
Hypothesis recipient_parsed :
  PublicKey_new env recipientAddress = Some recipient.
Hypothesis escrow_derived :
  findProgramAddress env
    (escrowSeeds (publicKey wallet) recipient
       (JS.slice (generatedId env w) 0 4))
    (PROGRAM_ID env) = inl (escrow, bump).
Hypothesis amount_fits :
  BN_accepts (JS.mul amount LAMPORTS_PER_SOL) = true.

Let creation : Instruction :=
  IxCreateMessagePayment (JS.mul amount LAMPORTS_PER_SOL)
    (JS.slice (generatedId env w) 0 4) (publicKey wallet) recipient escrow.

(** X10. For an amount that [new BN] accepts (less than 2^53 lamports in
    magnitude), when the network refuses the creation instruction with error
    [e], [createMessagePayment] throws the insufficient-funds text for an error
    that mentions insufficient funds or a debit attempt, the rejection text
    for one that mentions a user rejection, and [e] itself otherwise; the
    instruction was sent once and the database was not touched. *)
Theorem createMessagePayment_submission_refused (e : string) :
  rpc_result env (3 + tick w) creation = inr e ->
  createMessagePayment env wallet recipientAddress amount messageContent w
  = (Throw (shownError e), afterSubmission w creation).
Proof.
  intros Hrpc.
  rewrite (createMessagePayment_reaches_rpc env wallet recipientAddress
             messageContent amount w lamports recipient escrow bump
             balance_read balance_enough recipient_parsed escrow_derived
             amount_fits).
  fold creation. rewrite Hrpc. reflexivity.
Qed.


End SubmissionOutcomes.

Example shownError_examples :
  shownError "Error: User rejected the request." = msg_rejected
  /\ shownError "Transfer: insufficient lamports 5, need 10" = "Transfer: insufficient lamports 5, need 10"
  /\ shownError "failed: attempt to debit an account but found no record"
     = msg_insufficient.
Proof. repeat split; reflexivity. Qed.

(* ================================================================== *)
(** ** Approval and rejection *)

Section Settlement.

Variable env : Env.

Lemma updateMessageStatus_frame (messageId : string) (status : MessageStatus)
  (transactionSignature : option string) (w : World) :
  exists b w',
    updateMessageStatus env messageId status transactionSignature w
    = (Return b, w')
    /\ submitted w' = submitted w.
Proof.
  unfold updateMessageStatus, try_catch.
  unfold messages_by_message_id, messages_by_id, messages_update. run.
  repeat match goal with
    | |- context [if ?b then _ else _] => destruct b eqn:?; simpl
    | |- context [match single ?l with _ => _ end] =>
        destruct (single l) eqn:?; simpl
    end.
  all: eexists _, _; split; reflexivity.
Qed.

(** The run of the common body, once the sender key is parsed and the
    escrow derived: the instruction is handed to the network, and only on
    acceptance the mirror is updated; its answer is dropped. *)
Lemma settleMessagePayment_run
  (instruction : PublicKey -> PublicKey -> PublicKey -> Instruction)
  (status : MessageStatus) (wallet : AnchorWallet)
  (senderAddress messageId : string) (w : World)
  (sender escrow : PublicKey) (bump : Z) :
  PublicKey_new env senderAddress = Some sender ->
  findProgramAddress env
    (escrowSeeds sender (publicKey wallet) (JS.slice messageId 0 4))
    (PROGRAM_ID env) = inl (escrow, bump) ->
  let i := instruction sender (publicKey wallet) escrow in
  let sent :=
    {| profiles := profiles w; messages := messages w; db_log := db_log w;
       submitted := (submitted w ++ [i])%list; tick := S (tick w) |} in
  settleMessagePayment env instruction status wallet senderAddress messageId w
  = match rpc_result env (tick w) i with
    | inl tx =>
        (Return tx, snd (updateMessageStatus env messageId status (Some tx) sent))
    | inr e => (Throw e, sent)
    end.
Proof.
  intros Hkey Hpda i sent.
  unfold settleMessagePayment, try_catch, newPublicKey, getProgram,
    deriveMessageEscrowPDA, rpc.
  run. rewrite Hkey. simpl. rewrite Hpda. simpl.
  fold i. destruct (rpc_result env (tick w) i) as [tx|e]; simpl.
  - fold sent.
    destruct (updateMessageStatus_frame messageId status (Some tx) sent)
      as (b & w' & Hrun & _).
    rewrite Hrun. reflexivity.
  - reflexivity.
Qed.

(** Whenever approval or rejection throws, the database has not been
    touched. *)
Lemma settleMessagePayment_throws
  (instruction : PublicKey -> PublicKey -> PublicKey -> Instruction)
  (status : MessageStatus) (wallet : AnchorWallet)
  (senderAddress messageId : string) (w w' : World) (e : string) :
  settleMessagePayment env instruction status wallet senderAddress messageId w
  = (Throw e, w') ->
  db_log w' = db_log w /\ profiles w' = profiles w
  /\ messages w' = messages w.
Proof.
  unfold settleMessagePayment, try_catch, newPublicKey, getProgram,
    deriveMessageEscrowPDA, rpc.
  run.
  destruct (PublicKey_new env senderAddress) as [sender|]; simpl.
  2: { intros H. injection H as _ <-. auto. }
  match goal with
  | |- context [findProgramAddress env ?s ?p] =>
      destruct (findProgramAddress env s p) as [[escrow bump]|e1]; simpl
  end.
  2: { intros H. injection H as _ <-. auto. }
  match goal with
  | |- context [rpc_result env ?n ?i] =>
      destruct (rpc_result env n i) as [tx|e1]; simpl
  end.
  2: { intros H. injection H as _ <-. auto. }
  match goal with
  | |- context [updateMessageStatus env ?m ?s ?t ?w0] =>
      destruct (updateMessageStatus_frame m s t w0) as (b & w1 & Hrun & _);
      rewrite Hrun
  end.
  discriminate.
Qed.

(** X12. Approval and rejection throw only before the mirror is written:
    whenever one of them throws, no database call was made and both tables
    are as before. *)
Theorem settlement_throws_before_writing (wallet : AnchorWallet)
  (senderAddress messageId : string) (w w' : World) (e : string) :
  approveMessagePayment env wallet senderAddress messageId w = (Throw e, w')
  \/ rejectMessagePayment env wallet senderAddress messageId w = (Throw e, w') ->
  db_log w' = db_log w /\ profiles w' = profiles w
  /\ messages w' = messages w.
Proof.
  intros [H|H]; eapply settleMessagePayment_throws; exact H.
Qed.

Lemma settleMessagePayment_first_four
  (instruction : PublicKey -> PublicKey -> PublicKey -> Instruction)
  (status : MessageStatus) (wallet : AnchorWallet)
  (senderAddress id1 id2 : string) (w : World) :
  JS.slice id1 0 4 = JS.slice id2 0 4 ->
  fst (settleMessagePayment env instruction status wallet senderAddress id1 w)
  = fst (settleMessagePayment env instruction status wallet senderAddress id2 w)
  /\ submitted (snd (settleMessagePayment env instruction status wallet
                       senderAddress id1 w))
     = submitted (snd (settleMessagePayment env instruction status wallet
                         senderAddress id2 w)).
Proof.
  intros Hseed.
  unfold settleMessagePayment, try_catch, newPublicKey, getProgram,
    deriveMessageEscrowPDA, rpc.
  run. rewrite Hseed.
  destruct (PublicKey_new env senderAddress) as [sender|]; simpl; [|auto].
  match goal with
  | |- context [findProgramAddress env ?s ?p] =>
      destruct (findProgramAddress env s p) as [[escrow bump]|e1]; simpl;
        [|auto]
  end.
  match goal with
  | |- context [rpc_result env ?n ?i] =>
      destruct (rpc_result env n i) as [tx|e1]; simpl; [|auto]
  end.
  match goal with
  | |- context [updateMessageStatus env id1 ?s ?t ?w0] =>
      destruct (updateMessageStatus_frame id1 s t w0) as (b1 & w1 & Hrun1 & Hsub1);
      destruct (updateMessageStatus_frame id2 s t w0) as (b2 & w2 & Hrun2 & Hsub2);
      rewrite Hrun1, Hrun2; simpl in Hsub1, Hsub2
  end.
  simpl. split; [reflexivity|congruence].
Qed.

(** X13. Only the first four characters of the message id reach the chain: two
    ids that agree on them make approval, and rejection, send the same
    instruction for the same escrow account and give the same outcome. *)
Theorem settlement_reads_four_characters (wallet : AnchorWallet)
  (senderAddress id1 id2 : string) (w : World) :
  JS.slice id1 0 4 = JS.slice id2 0 4 ->
  (fst (approveMessagePayment env wallet senderAddress id1 w)
   = fst (approveMessagePayment env wallet senderAddress id2 w)
   /\ submitted (snd (approveMessagePayment env wallet senderAddress id1 w))
      = submitted (snd (approveMessagePayment env wallet senderAddress id2 w)))
  /\ (fst (rejectMessagePayment env wallet senderAddress id1 w)
      = fst (rejectMessagePayment env wallet senderAddress id2 w)
      /\ submitted (snd (rejectMessagePayment env wallet senderAddress id1 w))
         = submitted (snd (rejectMessagePayment env wallet senderAddress id2 w))).
Proof.
  intros H. split; apply settleMessagePayment_first_four; exact H.
Qed.

End Settlement.

Section SettlementOutcomes.

Variable env : Env.
Variable wallet : AnchorWallet.
Variable senderAddress messageId : string.
Variable w : World.
Variable sender escrow : PublicKey.
Variable bump : Z.

Hypothesis sender_parsed : PublicKey_new env senderAddress = Some sender.
Hypothesis escrow_derived :
  findProgramAddress env
    (escrowSeeds sender (publicKey wallet) (JS.slice messageId 0 4))
    (PROGRAM_ID env) = inl (escrow, bump).

Let approval : Instruction :=
  IxApproveMessagePayment sender (publicKey wallet) escrow.

(** X14. The message id is checked only after the instruction was accepted: for
    a malformed id, [approveMessagePayment] still sends the approval,
    returns its signature, and leaves the database untouched. *)
Theorem approval_with_malformed_id (tx : string) :
  wellFormed messageId = false ->
  rpc_result env (tick w) approval = inl tx ->
  exists w',
    approveMessagePayment env wallet senderAddress messageId w = (Return tx, w')
    /\ submitted w' = (submitted w ++ [approval])%list
    /\ db_log w' = db_log w
    /\ messages w' = messages w /\ profiles w' = profiles w.
Proof.
  intros Hbad Hrpc.
  unfold approveMessagePayment.
  rewrite (settleMessagePayment_run env IxApproveMessagePayment approved wallet
             senderAddress messageId w sender escrow bump sender_parsed
             escrow_derived).
  fold approval. rewrite Hrpc.
  rewrite (updateMessageStatus_malformed env messageId approved (Some tx) _ Hbad).
  eexists. split; [reflexivity|]. simpl. auto.
Qed.

(** X15. With a well-formed id that one row carries, a database that reports no
    error and a non-empty signature, an accepted approval is mirrored: the
    call returns the signature, that row becomes [approved] with this
    signature, and every other row is left as it was. *)
Theorem approval_is_mirrored (tx : string) (row : Messages.row) :
  wellFormed messageId = true ->
  filter (fun m => (Messages.message_id m =? messageId)%string) (messages w)
  = [row] ->
  (forall n, db_error env n = false) ->
  rpc_result env (tick w) approval = inl tx ->
  tx <> "" ->
  exists w',
    approveMessagePayment env wallet senderAddress messageId w = (Return tx, w')
    /\ submitted w' = (submitted w ++ [approval])%list
    /\ Forall2 (fun m m' =>
                  if (Messages.message_id m =? messageId)%string
                  then Messages.status m' = approved
                       /\ Messages.transaction_signature m' = Some tx
                       /\ Messages.id m' = Messages.id m
                       /\ Messages.message_id m' = messageId
                  else m' = m)
         (messages w) (messages w').
Proof.
  intros Hwf Hrow Hdb Hrpc Htx.
  unfold approveMessagePayment.
  rewrite (settleMessagePayment_run env IxApproveMessagePayment approved wallet
             senderAddress messageId w sender escrow bump sender_parsed
             escrow_derived).
  fold approval. rewrite Hrpc.
  match goal with
  | |- context [updateMessageStatus env messageId approved (Some tx) ?w0] =>
      destruct (updateMessageStatus_overwrites env messageId approved (Some tx)
                  w0 row Hwf Hrow (Hdb _) (Hdb _)) as (w' & Hrun & Hrows);
      pose proof (updateMessageStatus_frame env messageId approved (Some tx) w0)
        as (b & w1 & Hrun' & Hsub)
  end.
  rewrite Hrun in Hrun'. injection Hrun' as <- <-.
  rewrite Hrun. exists w'. split; [reflexivity|].
  split; [exact Hsub|].
  rewrite Hrows. simpl. apply Forall2_map_right.
  intros m. destruct (String.eqb_spec (Messages.message_id m) messageId) as [E|E].
  - simpl. rewrite (falsy_nonempty _ Htx). auto.
  - reflexivity.
Qed.

End SettlementOutcomes.

Section RoundTripHolds.

Variable env : Env.

Lemma settleMessagePayment_submits
  (instruction : PublicKey -> PublicKey -> PublicKey -> Instruction)
  (status : MessageStatus) (wallet : AnchorWallet)
  (senderAddress messageId : string) (w : World)
  (sender escrow : PublicKey) (bump : Z) :
  PublicKey_new env senderAddress = Some sender ->
  findProgramAddress env
    (escrowSeeds sender (publicKey wallet) (JS.slice messageId 0 4))
    (PROGRAM_ID env) = inl (escrow, bump) ->
  submitted (snd (settleMessagePayment env instruction status wallet
                    senderAddress messageId w))
  = (submitted w ++ [instruction sender (publicKey wallet) escrow])%list.
Proof.
  intros Hkey Hpda.
  rewrite (settleMessagePayment_run env instruction status wallet
             senderAddress messageId w sender escrow bump Hkey Hpda).
  destruct (rpc_result env (tick w) _) as [tx|e]; [|reflexivity].
  match goal with
  | |- context [updateMessageStatus env ?m ?s ?t ?w0] =>
      destruct (updateMessageStatus_frame env m s t w0) as (b & w1 & Hrun & Hsub);
      rewrite Hrun
  end.
  exact Hsub.
Qed.

(** X16. The escrow of a payment is found again from the identifier as
    generated: after a successful [createMessagePayment], approval and
    rejection by the recipient, given the sender's address and any id that
    shares its first four characters with the generated one, name the
    escrow account of the creation. *)
Theorem escrow_found_from_generated_id (wallet recipientWallet : AnchorWallet)
  (recipientAddress senderAddress messageContent messageId : string)
  (amount : JS.number) (w w1 : World) (tx : string) :
  createMessagePayment env wallet recipientAddress amount messageContent w
  = (Return tx, w1) ->
  PublicKey_new env recipientAddress = Some (publicKey recipientWallet) ->
  PublicKey_new env senderAddress = Some (publicKey wallet) ->
  JS.slice messageId 0 4 = JS.slice (generatedId env w) 0 4 ->
  exists escrow,
    submitted w1
    = (submitted w ++
       [IxCreateMessagePayment (JS.mul amount LAMPORTS_PER_SOL)
          (JS.slice (generatedId env w) 0 4) (publicKey wallet)
          (publicKey recipientWallet) escrow])%list
    /\ forall w2,
         submitted (snd (approveMessagePayment env recipientWallet
                           senderAddress messageId w2))
         = (submitted w2 ++
            [IxApproveMessagePayment (publicKey wallet)
               (publicKey recipientWallet) escrow])%list
         /\ submitted (snd (rejectMessagePayment env recipientWallet
                              senderAddress messageId w2))
            = (submitted w2 ++
               [IxRejectMessagePayment (publicKey wallet)
                  (publicKey recipientWallet) escrow])%list.
Proof.
  intros Hrun Hrecipient Hsender Hseed.
  destruct (createMessagePayment_success env wallet recipientAddress amount
              messageContent w w1 tx Hrun)
    as (recipient & escrow & bump & Hkey & Hpda & Hsub).
  rewrite Hrecipient in Hkey. injection Hkey as <-.
  exists escrow. split; [exact Hsub|].
  rewrite <- Hseed in Hpda.
  intros w2. split.
  - apply (settleMessagePayment_submits IxApproveMessagePayment approved
             recipientWallet senderAddress messageId w2 (publicKey wallet)
             escrow bump Hsender Hpda).
  - apply (settleMessagePayment_submits IxRejectMessagePayment rejected
             recipientWallet senderAddress messageId w2 (publicKey wallet)
             escrow bump Hsender Hpda).
Qed.

End RoundTripHolds.


(* ================================================================== *)
(** ** Regenerated identifiers repeat *)

Lemma substring_skip (s t : string) (m : nat) :
  substring (String.length s) m (s ++ t) = substring 0 m t.
Proof. induction s as [|c s IH]; simpl; [reflexivity|exact IH]. Qed.

Lemma slice_last_three (s : string) (a b c : ascii) :
  JS.slice_last (s ++ String a (String b (String c EmptyString))) 3
  = String a (String b (String c EmptyString)).
Proof.
  unfold JS.slice_last. rewrite length_append. simpl String.length.
  replace (String.length s + 3 - 3)%nat with (String.length s) by lia.
  rewrite substring_skip. reflexivity.
Qed.

Lemma digitsOf_last_three (fuel : nat) (radix n : Z) :
  0 < radix -> radix * radix <= n ->
  exists prefix,
    JS.digitsOf (S (S (S fuel))) radix n
    = prefix ++ String (JS.digitChar ((n / radix / radix) mod radix))
                  (String (JS.digitChar ((n / radix) mod radix))
                     (String (JS.digitChar (n mod radix)) EmptyString)).
Proof.
  intros Hr Hn.
  assert (H1 : (n <? radix) = false) by (apply Z.ltb_ge; nia).
  assert (H2 : (n / radix <? radix) = false).
  { apply Z.ltb_ge. apply Z.div_le_lower_bound; lia. }
  change (JS.digitsOf (S (S (S fuel))) radix n)
    with (if n <? radix then String (JS.digitChar n) EmptyString
          else JS.digitsOf (S (S fuel)) radix (n / radix)
                 ++ String (JS.digitChar (n mod radix)) EmptyString).
  rewrite H1.
  change (JS.digitsOf (S (S fuel)) radix (n / radix))
    with (if n / radix <? radix
          then String (JS.digitChar (n / radix)) EmptyString
          else JS.digitsOf (S fuel) radix (n / radix / radix)
                 ++ String (JS.digitChar ((n / radix) mod radix)) EmptyString).
  rewrite H2.
  change (JS.digitsOf (S fuel) radix (n / radix / radix))
    with (if n / radix / radix <? radix
          then String (JS.digitChar (n / radix / radix)) EmptyString
          else JS.digitsOf fuel radix (n / radix / radix / radix)
                 ++ String (JS.digitChar ((n / radix / radix) mod radix))
                      EmptyString).
  destruct (n / radix / radix <? radix) eqn:H3.
  - exists EmptyString. simpl.
    apply Z.ltb_lt in H3.
    assert (0 <= n / radix / radix).
    { apply Z.div_pos; [apply Z.div_pos|]; lia. }
    rewrite (Z.mod_small (n / radix / radix) radix) by lia. reflexivity.
  - exists (JS.digitsOf fuel radix (n / radix / radix / radix)).
    rewrite !append_assoc. reflexivity.
Qed.

Lemma toString36_last_three (t : Z) :
  1296 <= t ->
  JS.slice_last (JS.toString t 36) 3
  = String (JS.digitChar ((t / 36 / 36) mod 36))
      (String (JS.digitChar ((t / 36) mod 36))
         (String (JS.digitChar (t mod 36)) EmptyString)).
Proof.
  intros Ht. unfold JS.toString.
  assert (Hneg : (t <? 0) = false) by (apply Z.ltb_ge; lia).
  rewrite Hneg.
  assert (Hlog : 10 <= Z.log2 t).
  { change 10 with (Z.log2 1296). apply Z.log2_le_mono. exact Ht. }
  destruct (Z.to_nat (Z.log2 t)) as [|[|k]] eqn:E; try lia.
  destruct (digitsOf_last_three k 36 t) as (prefix & Hp); try lia.
  rewrite Hp. apply slice_last_three.
Qed.

(** The identifier made from the clock keeps three base-36 digits of the
    milliseconds: it repeats every 46656 ms. *)
Lemma regenerated_id_period (t k : Z) :
  1296 <= t -> 0 <= k ->
  "m" ++ JS.slice_last (JS.toString (t + 46656 * k) 36) 3
  = "m" ++ JS.slice_last (JS.toString t 36) 3.
Proof.
  intros Ht Hk.
  rewrite !toString36_last_three by nia.
  replace ((t + 46656 * k) mod 36) with (t mod 36)
    by (replace (t + 46656 * k) with (t + (1296 * k) * 36) by lia;
        rewrite Z.mod_add by lia; reflexivity).
  replace ((t + 46656 * k) / 36) with (t / 36 + 1296 * k)
    by (replace (t + 46656 * k) with (t + (1296 * k) * 36) by lia;
        rewrite Z.div_add by lia; reflexivity).
  replace ((t / 36 + 1296 * k) mod 36) with ((t / 36) mod 36)
    by (replace (t / 36 + 1296 * k) with (t / 36 + (36 * k) * 36) by lia;
        rewrite Z.mod_add by lia; reflexivity).
  replace ((t / 36 + 1296 * k) / 36) with (t / 36 / 36 + 36 * k)
    by (replace (t / 36 + 1296 * k) with (t / 36 + (36 * k) * 36) by lia;
        rewrite Z.div_add by lia; reflexivity).
  replace ((t / 36 / 36 + 36 * k) mod 36) with ((t / 36 / 36) mod 36)
    by (replace (t / 36 / 36 + 36 * k) with (t / 36 / 36 + k * 36) by lia;
        rewrite Z.mod_add by lia; reflexivity).
  reflexivity.
Qed.

(** X17. Two messages saved with malformed ids, the second a whole number of
    46656 ms periods after the first (or within the same millisecond),
    are stored under one and the same [message_id]. *)
Theorem saveMessage_ids_repeat (env : Env)
  (sender1 recipient1 id1 content1 sender2 recipient2 id2 content2 : string)
  (amount1 amount2 : JS.number) (signature1 signature2 : option string)
  (w w1 w2 : World) (k : Z) :
  wellFormed id1 = false -> wellFormed id2 = false ->
  saveMessage env sender1 recipient1 id1 content1 amount1 signature1 w
  = (Return true, w1) ->
  saveMessage env sender2 recipient2 id2 content2 amount2 signature2 w1
  = (Return true, w2) ->
  1296 <= Date_now env (tick w) -> 0 <= k ->
  Date_now env (tick w1) = Date_now env (tick w) + 46656 * k ->
  exists row1 row2,
    messages w2 = (messages w ++ [row1; row2])%list
    /\ Messages.message_id row1 = Messages.message_id row2
    /\ wellFormed (Messages.message_id row1) = true.
Proof.
  intros Hbad1 Hbad2 Hrun1 Hrun2 Ht Hk Hclock.
  destruct (saveMessage_effect env sender1 recipient1 id1 content1 amount1
              signature1 w) as (b1 & w1' & H1 & Heff1 & _).
  rewrite Hrun1 in H1. injection H1 as <- <-.
  destruct Heff1 as (row1 & Hrows1 & Hid1 & _).
  destruct (saveMessage_effect env sender2 recipient2 id2 content2 amount2
              signature2 w1) as (b2 & w2' & H2 & Heff2 & _).
  rewrite Hrun2 in H2. injection H2 as <- <-.
  destruct Heff2 as (row2 & Hrows2 & Hid2 & _).
  unfold validMessageId in Hid1, Hid2.
  rewrite Hbad1 in Hid1. rewrite Hbad2, Hclock in Hid2.
  rewrite (regenerated_id_period _ _ Ht Hk) in Hid2.
  exists row1, row2. split.
  - rewrite Hrows2, Hrows1, <- app_assoc. reflexivity.
  - split; [congruence|]. rewrite Hid1. apply regenerated_wellFormed. exact Ht.
Qed.

(* ================================================================== *)
(** ** [getMessageStats] *)

Lemma status_partition (l : list Messages.row) :
  (List.length (filter (statusIs pending) l)
   + List.length (filter (statusIs approved) l)
   + List.length (filter (statusIs rejected) l))%nat
  = List.length l.
Proof.
  induction l as [|m l IH]; [reflexivity|].
  cbn [filter].
  assert (H : (statusIs pending m = true /\ statusIs approved m = false
               /\ statusIs rejected m = false)
              \/ (statusIs pending m = false /\ statusIs approved m = true
                  /\ statusIs rejected m = false)
              \/ (statusIs pending m = false /\ statusIs approved m = false
                  /\ statusIs rejected m = true)).
  { unfold statusIs. destruct (Messages.status m); auto. }
  destruct H as [(H1 & H2 & H3)|[(H1 & H2 & H3)|(H1 & H2 & H3)]];
    rewrite H1, H2, H3; cbn [List.length]; lia.
Qed.

Section Stats.

Variable env : Env.

(** X18. [getMessageStats] never throws and writes nothing; without a wallet
    address, or for an address that is not carried by exactly one profile,
    it answers the all-zero object and, unlike [fetchMessages], creates no
    profile. *)
Theorem getMessageStats_frame (walletAddress : option string) (w : World) :
  exists stats w',
    getMessageStats env walletAddress w = (Return stats, w')
    /\ profiles w' = profiles w /\ messages w' = messages w
    /\ (walletAddress = None -> stats = noStats)
    /\ (forall wa,
          walletAddress = Some wa ->
          List.length
            (filter (fun p => (Profiles.wallet_address p =? wa)%string)
               (profiles w)) <> 1%nat ->
          stats = noStats).
Proof.
  unfold getMessageStats.
  destruct walletAddress as [wa|].
  2: { run. eexists _, _. repeat split; intros; discriminate. }
  destruct (JS.falsy wa).
  { run. eexists _, _. repeat split; intros; discriminate. }
  unfold profiles_by_wallet, messages_for. run.
  destruct (db_error env (tick w)); simpl.
  { eexists _, _. repeat split; intros; discriminate. }
  destruct (single _) as [p|] eqn:Es; simpl.
  2: { eexists _, _. repeat split; intros; discriminate. }
  apply single_inv in Es.
  destruct (db_error env (S (tick w))); simpl;
    [|destruct (db_error env (S (S (tick w)))); simpl].
  all: eexists _, _; (split; [reflexivity|]); simpl.
  all: split; [reflexivity|]; split; [reflexivity|].
  all: split; [intros H; discriminate|].
  all: intros wa' H Hcount; injection H as <-.
  all: rewrite Es in Hcount; simpl in Hcount; congruence.
Qed.

(** X19. For a wallet address with its one profile and a database that answers,
    the totals are the numbers of stored rows received and sent by that
    profile, every row counts once among pending, approved and rejected,
    and the earnings are zero when nothing received is approved. *)
Theorem getMessageStats_counts (walletAddress : string) (w : World)
  (p : Profiles.row) :
  walletAddress <> "" ->
  filter (fun q => (Profiles.wallet_address q =? walletAddress)%string)
    (profiles w) = [p] ->
  (forall n, db_error env n = false) ->
  exists stats w',
    getMessageStats env (Some walletAddress) w = (Return stats, w')
    /\ totalReceived stats
       = List.length (filter (matches received (Profiles.id p)) (messages w))
    /\ totalSent stats
       = List.length (filter (matches sent (Profiles.id p)) (messages w))
    /\ (pendingReceived stats + approvedReceived stats
        + List.length (filter (statusIs rejected)
                         (filter (matches received (Profiles.id p))
                            (messages w))))%nat
       = totalReceived stats
    /\ (pendingSent stats + approvedSent stats
        + List.length (filter (statusIs rejected)
                         (filter (matches sent (Profiles.id p))
                            (messages w))))%nat
       = totalSent stats
    /\ (approvedReceived stats = 0%nat ->
        totalEarnings stats = S754_zero false).
Proof.
  intros Hne Hp Hdb.
  unfold getMessageStats. rewrite (falsy_nonempty _ Hne).
  unfold profiles_by_wallet, messages_for. run.
  rewrite (Hdb (tick w)), Hp. simpl.
  rewrite (Hdb (S (tick w))). simpl.
  rewrite (Hdb (S (S (tick w)))). simpl.
  eexists _, _. split; [reflexivity|]. simpl.
  split; [reflexivity|]. split; [reflexivity|].
  split; [apply status_partition|]. split; [apply status_partition|].
  intros Hzero. apply length_zero_iff_nil in Hzero. rewrite Hzero. reflexivity.
Qed.

End Stats.

(* ================================================================== *)
(** ** The diagnostic functions *)

Lemma existsb_eqb_In (x : string) (l : list string) :
  existsb (String.eqb x) l = true <-> In x l.
Proof.
  rewrite existsb_exists. split.
  - intros (y & Hy & E). apply String.eqb_eq in E. subst. exact Hy.
  - intros H. exists x. split; [exact H|apply String.eqb_refl].
Qed.

Lemma Set_of_In (seen l : list string) (x : string) :
  In x (Set_of seen l) <-> In x l /\ ~ In x seen.
Proof.
  revert seen. induction l as [|y l IH]; intros seen; simpl; [tauto|].
  destruct (existsb (String.eqb y) seen) eqn:E.
  - apply existsb_eqb_In in E. rewrite IH. split.
    + intros [H1 H2]. auto.
    + intros [[<-|H1] H2]; [contradiction|auto].
  - assert (Hy : ~ In y seen).
    { intros H. apply existsb_eqb_In in H. congruence. }
    simpl. rewrite IH. simpl. split.
    + intros [<-|[H1 H2]]; [auto|]. split; [auto|tauto].
    + intros [[<-|H1] H2]; [auto|].
      destruct (String.eqb_spec y x) as [->|Hne]; [auto|].
      right. split; [exact H1|]. intros [H|H]; [congruence|contradiction].
Qed.

Lemma Set_of_length_le (seen l : list string) :
  (List.length (Set_of seen l) <= List.length l)%nat.
Proof.
  revert seen. induction l as [|y l IH]; intros seen; simpl; [lia|].
  destruct (existsb (String.eqb y) seen); simpl.
  - specialize (IH seen). lia.
  - specialize (IH (y :: seen)). lia.
Qed.

Lemma Set_of_length_eq (seen l : list string) :
  List.length (Set_of seen l) = List.length l
  <-> NoDup l /\ forall x, In x l -> ~ In x seen.
Proof.
  revert seen. induction l as [|y l IH]; intros seen; simpl.
  - split; [intros _; split; [constructor|intros x []]|reflexivity].
  - destruct (existsb (String.eqb y) seen) eqn:E.
    + apply existsb_eqb_In in E.
      pose proof (Set_of_length_le seen l) as Hle. split; [lia|].
      intros [_ Hseen]. exfalso. apply (Hseen y); auto.
    + assert (Hy : ~ In y seen).
      { intros H. apply existsb_eqb_In in H. congruence. }
      simpl. split.
      * intros H. injection H as H'. apply IH in H'.
        destruct H' as [Hnd Hseen].
        split.
        -- constructor; [|exact Hnd]. intros Hin. apply (Hseen y Hin).
           left. reflexivity.
        -- intros x [<-|Hx]; [exact Hy|].
           intros Hs. apply (Hseen x Hx). right. exact Hs.
      * intros [Hnd Hseen]. f_equal. apply IH.
        inversion Hnd as [|? ? Hnotin Hnd']; subst.
        split; [exact Hnd'|].
        intros x Hx [<-|Hs]; [contradiction|]. apply (Hseen x); auto.
Qed.

(** [[...new Set(l)]] has the length of [l] exactly when [l] has no
    repeated element. *)
Lemma Set_of_detects_duplicates (l : list string) :
  negb (Nat.eqb (List.length l) (List.length (Set_of [] l))) = false
  <-> NoDup l.
Proof.
  rewrite negb_false_iff, Nat.eqb_eq. split.
  - intros H. symmetry in H. apply Set_of_length_eq in H. apply H.
  - intros H. symmetry. apply Set_of_length_eq. split; [exact H|].
    intros x _ [].
Qed.

Lemma missingProfiles_spec (ps : list Profiles.row) (ms : list Messages.row)
  (id : string) :
  In id (missingProfiles ps ms)
  <-> (exists m, In m ms
                 /\ (Messages.sender_id m = id \/ Messages.recipient_id m = id))
      /\ ~ (exists p, In p ps /\ Profiles.id p = id).
Proof.
  unfold missingProfiles. rewrite filter_In, negb_true_iff.
  rewrite Set_of_In, in_app_iff, !Set_of_In, !in_map_iff.
  split.
  - intros [[[[(m & Hm & Hin) _]|[(m & Hm & Hin) _]] _] Hex].
    all: split; [exists m; auto|].
    all: intros (p & Hp & Hid).
    all: assert (Hin' : In id (map Profiles.id ps))
           by (apply in_map_iff; exists p; auto).
    all: apply existsb_eqb_In in Hin'; congruence.
  - intros [(m & Hm & Hsr) Hno]. split.
    + split; [|intros []].
      destruct Hsr as [Hs|Hr]; [left|right];
        (split; [exists m; auto|intros []]).
    + destruct (existsb (String.eqb id) (map Profiles.id ps)) eqn:E;
        [|reflexivity].
      apply existsb_eqb_In in E. apply in_map_iff in E.
      destruct E as (p & Hid & Hp). exfalso. apply Hno. exists p. auto.
Qed.

Lemma invalidId_spec (m : Messages.row) :
  invalidId m = negb (wellFormed (Messages.message_id m)).
Proof. unfold invalidId. apply save_test. Qed.

Section Diagnostics.

Variable env : Env.

(** X20. The functions that inspect the database, [fixDatabaseIssues] included,
    never throw and never write: both tables are as before. *)
Theorem diagnostics_write_nothing (walletAddress : string) (w : World) :
  (exists b w', fixDatabaseIssues env w = (Return b, w')
                /\ profiles w' = profiles w /\ messages w' = messages w)
  /\ (exists r w', checkMessagesDirectly env walletAddress w = (Return r, w')
                   /\ profiles w' = profiles w /\ messages w' = messages w)
  /\ (exists r w', debugDatabase env w = (Return r, w')
                   /\ profiles w' = profiles w /\ messages w' = messages w)
  /\ (exists r w', debugMessageIssues env w = (Return r, w')
                   /\ profiles w' = profiles w /\ messages w' = messages w).
Proof.
  unfold fixDatabaseIssues, checkMessagesDirectly, debugDatabase,
    debugMessageIssues, profiles_all, messages_all.
  run.
  split; [|split; [|split]].
  all: destruct (db_error env (tick w)); simpl.
  all: try destruct (find _ (profiles w)); simpl.
  all: try destruct (db_error env (S (tick w))); simpl.
  all: eexists _, _; (split; [reflexivity|]); split; reflexivity.
Qed.

(** [fixDatabaseIssues] answers [true] exactly when its two table scans are
    answered; it repairs nothing. *)
Theorem fixDatabaseIssues_only_reads (w : World) :
  exists b w',
    fixDatabaseIssues env w = (Return b, w')
    /\ profiles w' = profiles w /\ messages w' = messages w
    /\ (b = true <-> db_error env (tick w) = false
                     /\ db_error env (1 + tick w) = false).
Proof.
  unfold fixDatabaseIssues, profiles_all, messages_all. run.
  destruct (db_error env (tick w)); simpl;
    [|destruct (db_error env (S (tick w))); simpl].
  all: eexists _, _; split; [reflexivity|]; repeat split; intros;
    try tauto; try discriminate.
  all: destruct H; discriminate.
Qed.

(** X21. With both table scans answered, the report of [debugMessageIssues] is
    exact: the duplicate flags are clear exactly when the message ids, and
    the non-empty wallet addresses, are pairwise distinct; the missing
    profile ids are the sender and recipient ids that no profile has; the
    invalid messages are the rows whose [message_id] is not well-formed. *)
Theorem debugMessageIssues_exact (w : World) :
  db_error env (tick w) = false ->
  db_error env (1 + tick w) = false ->
  exists report w',
    debugMessageIssues env w = (Return (inr report), w')
    /\ totalMessages report = List.length (messages w)
    /\ totalProfiles report = List.length (profiles w)
    /\ (hasDuplicateMessageIds report = false
        <-> NoDup (map Messages.message_id (messages w)))
    /\ (hasDuplicateWalletAddresses report = false
        <-> NoDup (filter (fun a => negb (JS.falsy a))
                     (map Profiles.wallet_address (profiles w))))
    /\ (forall id,
          In id (missingProfileIds report)
          <-> (exists m, In m (messages w)
                         /\ (Messages.sender_id m = id
                             \/ Messages.recipient_id m = id))
              /\ ~ (exists p, In p (profiles w) /\ Profiles.id p = id))
    /\ (forall m,
          In m (messagesWithInvalidId report)
          <-> In m (messages w)
              /\ wellFormed (Messages.message_id m) = false)
    /\ (forall p,
          In p (profilesWithoutWalletAddress report)
          <-> In p (profiles w) /\ Profiles.wallet_address p = "").
Proof.
  intros E0 E1.
  unfold debugMessageIssues, profiles_all, messages_all. run.
  simpl in E1. rewrite E0. simpl. rewrite E1. simpl.
  eexists _, _. split; [reflexivity|]. simpl.
  split; [reflexivity|]. split; [reflexivity|].
  split; [apply Set_of_detects_duplicates|].
  split; [apply Set_of_detects_duplicates|].
  split; [intros id; apply missingProfiles_spec|].
  split.
  - intros m. rewrite filter_In, invalidId_spec, negb_true_iff. reflexivity.
  - intros p. rewrite filter_In. split; intros [H1 H2]; split; auto.
    + destruct (Profiles.wallet_address p); [reflexivity|discriminate].
    + rewrite H2. reflexivity.
Qed.

(** X22. Where [fetchMessages] gives up on a wallet address that several
    profiles carry, [checkMessagesDirectly] takes the first of them: it
    returns that profile with the stored rows it sent and the stored rows
    it received, and creates nothing. *)
Theorem checkMessagesDirectly_first_profile (walletAddress : string)
  (w : World) (p1 : Profiles.row) (others : list Profiles.row) :
  filter (fun p => (Profiles.wallet_address p =? walletAddress)%string)
    (profiles w) = p1 :: others ->
  db_error env (tick w) = false ->
  db_error env (1 + tick w) = false ->
  exists w',
    checkMessagesDirectly env walletAddress w
    = (Return (inr {| profile := p1;
                      sentMessages :=
                        filter (matches sent (Profiles.id p1)) (messages w);
                      receivedMessages :=
                        filter (matches received (Profiles.id p1))
                          (messages w) |}), w')
    /\ profiles w' = profiles w /\ messages w' = messages w.
Proof.
  intros Hp E0 E1.
  unfold checkMessagesDirectly, profiles_all, messages_all. run.
  simpl in E1. rewrite E0. simpl.
  assert (Hfind : find (fun p => (Profiles.wallet_address p =? walletAddress)%string)
                    (profiles w) = Some p1).
  { revert Hp. generalize (profiles w) as ps.
    induction ps as [|q ps IH]; simpl; [discriminate|].
    destruct (Profiles.wallet_address q =? walletAddress)%string.
    - intros H. injection H as -> _. reflexivity.
    - exact IH. }
  rewrite Hfind. simpl. rewrite E1. simpl.
  eexists. split; [reflexivity|]. split; reflexivity.
Qed.

End Diagnostics.

(* ================================================================== *)
(** ** The repair functions *)

Lemma digitChar_not_dash (d : Z) : JS.digitChar d <> "-"%char.
Proof.
  unfold JS.digitChar. generalize (Z.to_nat d) as i. intros i.
  do 36 (destruct i as [|i]; [simpl; discriminate|]).
  simpl. discriminate.
Qed.

Lemma includes_dash_cons (c : ascii) (s : string) :
  c <> "-"%char -> JS.includes (String c s) "-" = JS.includes s "-".
Proof.
  intros Hc. cbn [JS.includes String.prefix].
  destruct (ascii_dec "-" c) as [E|E]; [congruence|].
  destruct s; reflexivity.
Qed.

(** An identifier made from a clock reading of at least 1296 ms is
    well-formed and has no [-]. *)
Lemma regenerated_clean (t : Z) :
  1296 <= t -> cleanId ("m" ++ JS.slice_last (JS.toString t 36) 3) = true.
Proof.
  intros Ht. unfold cleanId.
  rewrite (regenerated_wellFormed t Ht).
  rewrite (toString36_last_three t Ht).
  change ("m" ++ ?x) with (String "m" x).
  cbn [append].
  rewrite includes_dash_cons by discriminate.
  rewrite !includes_dash_cons by apply digitChar_not_dash.
  reflexivity.
Qed.

Lemma rename_same (newMessageId : string) (m : Messages.row) :
  sameButMessageId m (rename newMessageId m).
Proof. unfold sameButMessageId. simpl. repeat split. Qed.

Lemma sameButMessageId_refl (m : Messages.row) : sameButMessageId m m.
Proof. unfold sameButMessageId. repeat split. Qed.

Lemma sameButMessageId_trans (a b c : Messages.row) :
  sameButMessageId a b -> sameButMessageId b c -> sameButMessageId a c.
Proof.
  unfold sameButMessageId.
  intros (A1 & A2 & A3 & A4 & A5 & A6 & A7 & A8 & A9)
         (B1 & B2 & B3 & B4 & B5 & B6 & B7 & B8 & B9).
  repeat split; congruence.
Qed.

Lemma Forall2_map_left {A B C} (P : B -> C -> Prop) (f : A -> B)
  (l : list A) (l' : list C) :
  Forall2 (fun a c => P (f a) c) l l' -> Forall2 P (map f l) l'.
Proof. induction 1; simpl; constructor; auto. Qed.

Lemma Forall2_of_map_left {A B C} (P : B -> C -> Prop) (f : A -> B)
  (l : list A) (l' : list C) :
  Forall2 P (map f l) l' -> Forall2 (fun a c => P (f a) c) l l'.
Proof.
  revert l'. induction l as [|a l IH]; intros l' H; simpl in H.
  - inversion H. constructor.
  - inversion H; subst. constructor; auto.
Qed.

Lemma Forall2_Forall_right {A B} (P : A -> B -> Prop) (Q : B -> Prop)
  (l : list A) (l' : list B) :
  Forall2 P l l' ->
  (forall a b, In a l -> P a b -> Q b) ->
  Forall Q l'.
Proof.
  induction 1 as [|a b l l' Hab _ IH]; intros HQ; constructor.
  - apply (HQ a); [left; reflexivity|exact Hab].
  - apply IH. intros a' b' Hin. apply HQ. right. exact Hin.
Qed.

Lemma Forall2_with_In {A B} (P : A -> B -> Prop) (l : list A) (l' : list B) :
  Forall2 P l l' -> Forall2 (fun a b => In a l /\ P a b) l l'.
Proof.
  induction 1 as [|a b l l' Hab _ IH]; constructor.
  - split; [left; reflexivity|exact Hab].
  - eapply Forall2_impl; [|exact IH].
    intros x y [Hx Hxy]. split; [right; exact Hx|exact Hxy].
Qed.

Section Repairs.

Variable env : Env.

Lemma renameFromClock_run (msg : Messages.row) (w : World) :
  exists w',
    renameFromClock env msg w = (Return tt, w')
    /\ profiles w' = profiles w /\ tick w' = (2 + tick w)%nat
    /\ messages w'
       = if db_error env (S (tick w)) then messages w
         else map (fun m =>
                     if (Messages.id m =? Messages.id msg)%string
                     then rename ("m" ++ JS.slice_last
                                           (JS.toString (Date_now env (tick w)) 36) 3) m
                     else m)
                (messages w).
Proof.
  unfold renameFromClock, messages_rename. run.
  destruct (db_error env (S (tick w))); simpl;
    eexists; split; try reflexivity; repeat split.
Qed.

Lemma loops_agree (l : list Messages.row) (w : World) :
  fixMessageIds_loop env l w = fixMessageRetrieval_loop env l w.
Proof.
  revert w. induction l as [|msg l IH]; intros w; simpl; [reflexivity|].
  unfold bind, try_catch.
  destruct (renameFromClock_run msg w) as (w' & Hrun & _).
  rewrite Hrun. apply IH.
Qed.

(** With the database answering and the clock past 1296 ms, a repair loop
    gives every row with the database id of a listed message a clean
    identifier and changes nothing else. *)
Lemma repair_loop (l : list Messages.row) (w : World) :
  (forall n, db_error env n = false) ->
  (forall n, 1296 <= Date_now env n) ->
  exists w',
    fixMessageRetrieval_loop env l w = (Return tt, w')
    /\ profiles w' = profiles w
    /\ Forall2 (repairedRow cleanId l) (messages w) (messages w').
Proof.
  intros Hdb Hclock. revert w.
  induction l as [|msg l IH]; intros w.
  - simpl. run. eexists. split; [reflexivity|]. split; [reflexivity|].
    apply Forall2_same. intros m. split; [apply sameButMessageId_refl|].
    reflexivity.
  - simpl. unfold bind.
    destruct (renameFromClock_run msg w) as (w1 & Hrun & Hp1 & _ & Hm1).
    rewrite Hrun. rewrite Hdb in Hm1.
    destruct (IH w1) as (w' & Hloop & Hp & Hrows).
    exists w'. split; [exact Hloop|]. split; [congruence|].
    rewrite Hm1 in Hrows. apply Forall2_of_map_left in Hrows.
    eapply Forall2_impl; [|exact Hrows].
    intros m m' [Hsame Hcase]. simpl in Hsame, Hcase.
    unfold repairedRow. cbn [map existsb].
    destruct (String.eqb_spec (Messages.id m) (Messages.id msg)) as [E|E].
    + simpl in Hcase. split.
      * eapply sameButMessageId_trans; [apply rename_same|exact Hsame].
      * simpl.
        destruct (existsb (String.eqb (Messages.id m)) (map Messages.id l)).
        -- exact Hcase.
        -- subst m'. simpl. apply regenerated_clean. apply Hclock.
    + split; [exact Hsame|]. simpl. exact Hcase.
Qed.

(** With every update refused, a repair loop changes nothing. *)
Lemma repair_loop_refused (l : list Messages.row) (w : World) :
  (forall n, (tick w <= n)%nat -> db_error env n = true) ->
  exists w',
    fixMessageRetrieval_loop env l w = (Return tt, w')
    /\ profiles w' = profiles w /\ messages w' = messages w.
Proof.
  revert w. induction l as [|msg l IH]; intros w Hdb.
  - simpl. run. eauto.
  - simpl. unfold bind.
    destruct (renameFromClock_run msg w) as (w1 & Hrun & Hp1 & Ht1 & Hm1).
    rewrite Hrun. rewrite Hdb in Hm1 by lia.
    destruct (IH w1) as (w' & Hloop & Hp & Hm).
    { intros n Hn. apply Hdb. lia. }
    exists w'. split; [exact Hloop|]. split; congruence.
Qed.

Lemma needsRepair_false (m : Messages.row) :
  needsRepair m = false <-> cleanId (Messages.message_id m) = true.
Proof.
  unfold needsRepair, cleanId. rewrite invalidId_spec.
  destruct (wellFormed (Messages.message_id m)),
    (JS.includes (Messages.message_id m) "-"); simpl; split; congruence.
Qed.

Lemma listed_by_id {f : Messages.row -> bool} (ms : list Messages.row)
  (m : Messages.row) :
  In m ms -> f m = true ->
  existsb (String.eqb (Messages.id m)) (map Messages.id (filter f ms)) = true.
Proof.
  intros Hin Hf. apply existsb_eqb_In. apply in_map.
  apply filter_In. auto.
Qed.

(** What [fixMessageIds] does when the database answers. *)
Lemma fixMessageIds_effect (w : World) :
  (forall n, db_error env n = false) ->
  (forall n, 1296 <= Date_now env n) ->
  exists w',
    fixMessageIds env w = (Return true, w')
    /\ profiles w' = profiles w
    /\ Forall2 (repairedRow cleanId (filter needsRepair (messages w)))
         (messages w) (messages w').
Proof.
  intros Hdb Hclock.
  unfold fixMessageIds, messages_all. run. rewrite Hdb. simpl.
  destruct (filter needsRepair (messages w)) as [|bad rest] eqn:Hbad.
  - run. eexists. split; [reflexivity|]. split; [reflexivity|]. simpl.
    apply Forall2_same. intros m. split; [apply sameButMessageId_refl|].
    reflexivity.
  - unfold bind. rewrite loops_agree.
    match goal with
    | |- context [fixMessageRetrieval_loop env ?l ?w0] =>
        destruct (repair_loop l w0 Hdb Hclock) as (w' & Hloop & Hp & Hrows)
    end.
    rewrite Hloop. run. simpl in Hp, Hrows.
    eexists. split; [reflexivity|]. split; [exact Hp|exact Hrows].
Qed.

(** Rows repaired from the list of all rows in need of repair are clean. *)
Lemma repaired_rows_clean (ms ms' : list Messages.row) :
  Forall2 (repairedRow cleanId (filter needsRepair ms)) ms ms' ->
  Forall (fun m => cleanId (Messages.message_id m) = true) ms'.
Proof.
  intros Hrows.
  eapply Forall2_Forall_right; [exact Hrows|].
  intros m m' Hin [_ Hcase].
  match type of Hcase with
  | if ?b then _ else _ => destruct b eqn:E
  end; [exact Hcase|].
  subst m'. apply needsRepair_false.
  destruct (needsRepair m) eqn:Hn; [|reflexivity].
  rewrite (listed_by_id (f := needsRepair) ms m Hin Hn) in E.
  discriminate.
Qed.

(** X23. [fixMessageIds], with the database answering and the clock past
    1296 ms: the answer is [true]; afterwards every stored [message_id] is
    well-formed and free of [-]; no row is added or dropped and no other
    column changes; a row whose database id is not that of a message in
    need of repair is left as it was. *)
Theorem fixMessageIds_repairs (w : World) :
  (forall n, db_error env n = false) ->
  (forall n, 1296 <= Date_now env n) ->
  exists w',
    fixMessageIds env w = (Return true, w')
    /\ profiles w' = profiles w
    /\ Forall (fun m => cleanId (Messages.message_id m) = true) (messages w')
    /\ Forall2 (fun m m' =>
                  sameButMessageId m m'
                  /\ (~ In (Messages.id m)
                        (map Messages.id (filter needsRepair (messages w))) ->
                      m' = m))
         (messages w) (messages w').
Proof.
  intros Hdb Hclock.
  destruct (fixMessageIds_effect w Hdb Hclock) as (w' & Hrun & Hp & Hrows).
  exists w'. split; [exact Hrun|]. split; [exact Hp|]. split.
  - apply (repaired_rows_clean (messages w)). exact Hrows.
  - eapply Forall2_impl; [|exact Hrows].
    intros m m' [Hsame Hcase]. split; [exact Hsame|].
    intros Hnot.
    match type of Hcase with
    | if ?b then _ else _ => destruct b eqn:E
    end; [|exact Hcase].
    apply existsb_eqb_In in E. contradiction.
Qed.

Lemma fixMessageIds_clean (w : World) :
  Forall (fun m => cleanId (Messages.message_id m) = true) (messages w) ->
  db_error env (tick w) = false ->
  fixMessageIds env w = (Return true, advance 1 w).
Proof.
  intros Hclean Hdb.
  unfold fixMessageIds, messages_all. run. rewrite Hdb. simpl.
  rewrite filter_none; [reflexivity|].
  intros m Hm. apply needsRepair_false.
  revert m Hm. apply Forall_forall. exact Hclean.
Qed.

(** X24. Running [fixMessageIds] a second time changes nothing. *)
Theorem fixMessageIds_twice (w : World) :
  (forall n, db_error env n = false) ->
  (forall n, 1296 <= Date_now env n) ->
  let w1 := snd (fixMessageIds env w) in
  fixMessageIds env w1 = (Return true, advance 1 w1)
  /\ messages (snd (fixMessageIds env w1)) = messages w1.
Proof.
  intros Hdb Hclock w1.
  destruct (fixMessageIds_effect w Hdb Hclock) as (w' & Hrun & _ & Hrows).
  pose proof (repaired_rows_clean _ _ Hrows) as Hclean.
  assert (Hw1 : w1 = w') by (unfold w1; rewrite Hrun; reflexivity).
  rewrite Hw1.
  rewrite (fixMessageIds_clean w' Hclean (Hdb _)). split; reflexivity.
Qed.

(** Whatever the database answers to the updates, a repair loop runs to its
    end, leaves the profiles alone and changes nothing in a row but its
    [message_id]. *)
Lemma repair_loop_any (l : list Messages.row) (w : World) :
  exists w',
    fixMessageRetrieval_loop env l w = (Return tt, w')
    /\ profiles w' = profiles w
    /\ Forall2 sameButMessageId (messages w) (messages w').
Proof.
  revert w. induction l as [|msg l IH]; intros w.
  - simpl. run. eexists. split; [reflexivity|]. split; [reflexivity|].
    apply Forall2_same. apply sameButMessageId_refl.
  - simpl. unfold bind.
    destruct (renameFromClock_run msg w) as (w1 & Hrun & Hp1 & _ & Hm1).
    rewrite Hrun.
    destruct (IH w1) as (w' & Hloop & Hp & Hrows).
    exists w'. split; [exact Hloop|]. split; [congruence|].
    rewrite Hm1 in Hrows.
    destruct (db_error env (S (tick w))); [exact Hrows|].
    apply Forall2_of_map_left in Hrows.
    eapply Forall2_impl; [|exact Hrows].
    intros m m' Hsame. simpl in Hsame.
    destruct (Messages.id m =? Messages.id msg)%string; [|exact Hsame].
    eapply sameButMessageId_trans; [apply rename_same|exact Hsame].
Qed.

(** X25. [fixMessageIds] answers [true] as soon as its table scan is
    answered, whatever the database answers to the updates that follow: no
    row is added or dropped, no column but [message_id] changes and the
    profiles are left alone.  With every update refused it still reports
    success, and the table is as before. *)
Theorem fixMessageIds_reports_success (w : World) :
  db_error env (tick w) = false ->
  exists w',
    fixMessageIds env w = (Return true, w')
    /\ profiles w' = profiles w
    /\ Forall2 sameButMessageId (messages w) (messages w')
    /\ ((forall n, (tick w < n)%nat -> db_error env n = true) ->
        messages w' = messages w).
Proof.
  intros Hscan.
  unfold fixMessageIds, messages_all. run. rewrite Hscan. simpl.
  destruct (filter needsRepair (messages w)) as [|bad rest].
  - run. eexists. split; [reflexivity|]. split; [reflexivity|]. simpl.
    split; [|reflexivity].
    apply Forall2_same. apply sameButMessageId_refl.
  - unfold bind. rewrite loops_agree.
    match goal with
    | |- context [fixMessageRetrieval_loop env ?l ?w0] =>
        destruct (repair_loop_any l w0) as (w' & Hloop & Hp & Hrows);
        pose proof (repair_loop_refused l w0) as Hrefused
    end.
    rewrite Hloop in Hrefused |- *. run.
    eexists. split; [reflexivity|]. simpl in Hp, Hrows.
    split; [exact Hp|]. split; [exact Hrows|].
    intros Hdb.
    destruct Hrefused as (w2 & Heq & _ & Hm).
    { simpl. intros n Hn. apply Hdb. lia. }
    injection Heq as <-. exact Hm.
Qed.

(** X26. [fixMessageRetrieval], for a wallet address with its one profile, the
    database answering and the clock past 1296 ms: the answer is [true];
    afterwards every message sent or received by that profile has a
    well-formed [message_id]; no other column changes, and a row whose
    database id is not that of one of the profile's invalid messages is
    left as it was. *)
Theorem fixMessageRetrieval_repairs (walletAddress : string) (w : World)
  (p : Profiles.row) :
  filter (fun q => (Profiles.wallet_address q =? walletAddress)%string)
    (profiles w) = [p] ->
  (forall n, db_error env n = false) ->
  (forall n, 1296 <= Date_now env n) ->
  exists w',
    fixMessageRetrieval env walletAddress w = (Return true, w')
    /\ profiles w' = profiles w
    /\ Forall2 (fun m m' =>
                  sameButMessageId m m'
                  /\ (matches all (Profiles.id p) m = true ->
                      wellFormed (Messages.message_id m') = true)
                  /\ (~ In (Messages.id m)
                        (map Messages.id
                           (filter invalidId
                              (filter (matches all (Profiles.id p))
                                 (messages w)))) ->
                      m' = m))
         (messages w) (messages w').
Proof.
  intros Hp Hdb Hclock.
  unfold fixMessageRetrieval, profiles_by_wallet, messages_all, profiles_all.
  run. rewrite Hdb, Hp. simpl. rewrite Hdb. simpl.
  unfold bind.
  match goal with
  | |- context [fixMessageRetrieval_loop env ?l ?w0] =>
      destruct (repair_loop l w0 Hdb Hclock) as (w' & Hloop & Hpr & Hrows)
  end.
  rewrite Hloop. run. rewrite Hdb. simpl. simpl in Hpr, Hrows.
  eexists. split; [reflexivity|]. split; [exact Hpr|].
  pose proof (Forall2_with_In _ _ _ Hrows) as Hrows'.
  eapply Forall2_impl; [|exact Hrows'].
  intros m m' (Hin & Hsame & Hcase). split; [exact Hsame|]. split.
  - intros Huser.
    match type of Hcase with
    | if ?b then _ else _ => destruct b eqn:E
    end.
    + unfold cleanId in Hcase. apply andb_true_iff in Hcase. apply Hcase.
    + subst m'.
      destruct (wellFormed (Messages.message_id m)) eqn:Hwf; [reflexivity|].
      assert (Hinv : invalidId m = true)
        by (rewrite invalidId_spec, Hwf; reflexivity).
      assert (Hu : In m (filter (matches all (Profiles.id p)) (messages w)))
        by (apply filter_In; auto).
      match type of E with
      | ?lhs = false =>
          assert (E' : lhs = true)
            by exact (listed_by_id (f := invalidId) _ m Hu Hinv)
      end.
      congruence.
  - intros Hnot.
    match type of Hcase with
    | if ?b then _ else _ => destruct b eqn:E
    end; [|exact Hcase].
    apply existsb_eqb_In in E. contradiction.
Qed.

End Repairs.

(* ================================================================== *)
(** ** Saving, then updating *)

Section SaveThenUpdate.

Variable env : Env.

(** X27. A message saved under a well-formed id that no stored row carries can
    be updated by that id: with the database answering, the update answers
    [true], the new row takes the requested status and the rows stored
    before are left as they were. *)
Theorem saved_message_is_updatable (senderWalletAddress
  recipientWalletAddress messageId content : string) (amount : JS.number)
  (transactionSignature newSignature : option string)
  (status : MessageStatus) (w w1 : World) :
  wellFormed messageId = true ->
  (forall m, In m (messages w) -> Messages.message_id m <> messageId) ->
  (forall n, db_error env n = false) ->
  saveMessage env senderWalletAddress recipientWalletAddress messageId
    content amount transactionSignature w = (Return true, w1) ->
  exists row row' w2,
    messages w1 = (messages w ++ [row])%list
    /\ Messages.message_id row = messageId
    /\ Messages.status row = pending
    /\ updateMessageStatus env messageId status newSignature w1
       = (Return true, w2)
    /\ messages w2 = (messages w ++ [row'])%list
    /\ Messages.message_id row' = messageId
    /\ Messages.status row' = status
    /\ Messages.content row' = content.
Proof.
  intros Hwf Hfresh Hdb Hsave.
  destruct (saveMessage_effect env senderWalletAddress recipientWalletAddress
              messageId content amount transactionSignature w)
    as (b & w1' & Hrun & Heff & _).
  rewrite Hsave in Hrun. injection Hrun as <- <-.
  destruct Heff as (row & Hrows & Hid & Hst & Hcontent & _).
  unfold validMessageId in Hid. rewrite Hwf in Hid.
  assert (Hold : filter (fun m => (Messages.message_id m =? messageId)%string)
                   (messages w) = []).
  { apply filter_none. intros m Hm. apply String.eqb_neq. apply Hfresh, Hm. }
  assert (Hone : filter (fun m => (Messages.message_id m =? messageId)%string)
                   (messages w1) = [row]).
  { rewrite Hrows, filter_app, Hold. simpl. rewrite Hid, String.eqb_refl.
    reflexivity. }
  destruct (updateMessageStatus_overwrites env messageId status newSignature
              w1 row Hwf Hone (Hdb _) (Hdb _)) as (w2 & Hupd & Hrows2).
  eexists row, _, w2. split; [exact Hrows|]. split; [exact Hid|].
  split; [exact Hst|]. split; [exact Hupd|].
  rewrite Hrows2, Hrows, map_app. simpl.
  rewrite Hid, String.eqb_refl. split.
  - f_equal. rewrite <- (map_id (messages w)) at 2. apply map_ext_in.
    intros m Hm.
    destruct (String.eqb_spec (Messages.message_id m) messageId) as [E|E];
      [|reflexivity].
    exfalso. apply (Hfresh m Hm E).
  - simpl. repeat split; assumption.
Qed.

End SaveThenUpdate.

(* ================================================================== *)
(** ** The properties above on sample runs *)

Lemma saveMessage_references_profiles_witness :
  exists b w' added,
    saveMessage Demo.env "Alice" "Bob" "m001" "hello" (JS.ofZ 1) (Some "tx0")
      Demo.empty = (Return b, w')
    /\ profiles w' = (profiles Demo.empty ++ added)%list
    /\ (List.length added <= 2)%nat
    /\ Forall (fun p => Profiles.wallet_address p = "Alice"
                        \/ Profiles.wallet_address p = "Bob") added
    /\ (b = false -> messages w' = messages Demo.empty)
    /\ (b = true ->
        exists row sender recipient,
          messages w' = (messages Demo.empty ++ [row])%list
          /\ In sender (profiles w') /\ In recipient (profiles w')
          /\ Profiles.id sender = Messages.sender_id row
          /\ Profiles.wallet_address sender = "Alice"
          /\ Profiles.id recipient = Messages.recipient_id row
          /\ Profiles.wallet_address recipient = "Bob").
Proof.
  apply (saveMessage_references_profiles Demo.env "Alice" "Bob" "m001" "hello"
           (JS.ofZ 1) (Some "tx0") Demo.empty).
Defined.

Lemma saveMessage_reuses_profiles_witness :
  exists row w',
    saveMessage Demo.env "Alice" "Bob" "m004" "again" (JS.ofZ 2) None
      Demo.inbox = (Return true, w')
    /\ profiles w' = profiles Demo.inbox
    /\ messages w' = (messages Demo.inbox ++ [row])%list
    /\ Messages.sender_id row = "pa"
    /\ Messages.recipient_id row = "pb"
    /\ Messages.content row = "again"
    /\ Messages.status row = pending.
Proof.
  apply (saveMessage_reuses_profiles Demo.env "Alice" "Bob" "m004" "again"
           (JS.ofZ 2) None Demo.inbox (Demo.profileOf "pa" "Alice")
           (Demo.profileOf "pb" "Bob")).
  - reflexivity.
  - reflexivity.
  - intros n. reflexivity.
Defined.

Lemma fetchMessages_duplicate_profiles_witness :
  exists p w',
    fetchMessages Demo.env (Some "Alice") all Samples.twins = (Return [], w')
    /\ profiles w' = (profiles Samples.twins ++ [p])%list
    /\ Profiles.wallet_address p = "Alice"
    /\ messages w' = messages Samples.twins.
Proof.
  apply (fetchMessages_duplicate_profiles Demo.env "Alice" all Samples.twins
           (Demo.profileOf "pa" "Alice") (Demo.profileOf "pa2" "Alice") []).
  - discriminate.
  - reflexivity.
  - reflexivity.
Defined.

Lemma updateMessageStatus_not_found_witness :
  exists w',
    updateMessageStatus Demo.env "m999" approved None Demo.inbox
    = (Return false, w')
    /\ messages w' = messages Demo.inbox /\ profiles w' = profiles Demo.inbox.
Proof.
  apply (updateMessageStatus_not_found Demo.env "m999" approved None
           Demo.inbox).
  - reflexivity.
  - reflexivity.
  - simpl. discriminate.
Defined.

Lemma updateMessageStatus_by_database_id_witness :
  exists w' updated,
    updateMessageStatus Demo.env "m-17" rejected (Some "tx9") Samples.messy
    = (Return true, w')
    /\ messages w'
       = map (fun m => if (Messages.id m =? "m-17")%string
                       then apply_update rejected (Some "tx9") updated m
                       else m)
           (messages Samples.messy).
Proof.
  apply (updateMessageStatus_by_database_id Demo.env "m-17" rejected
           (Some "tx9") Samples.messy (Demo.messageAt "m-17" "200" "m003")).
  - reflexivity.
  - reflexivity.
  - reflexivity.
  - reflexivity.
  - intros n. reflexivity.
Defined.

(** Ten million SOL, with a balance that covers them: [new BN] turns the
    amount away and nothing is sent. *)
Example amount_too_large :
  createMessagePayment (Demo.withBalance (inl 20000000000000000)) Demo.alice
    "Bob" (JS.ofZ 10000000) "hello" Demo.inbox
  = (Throw "Assertion failed", advance 3 Demo.inbox).
Proof. vm_compute. reflexivity. Qed.

Lemma createMessagePayment_throws_before_writing_witness :
  let w' := snd (createMessagePayment
                   (Demo.withBalance (inl 20000000000000000)) Demo.alice
                   "Bob" (JS.ofZ 10000000) "hello" Demo.inbox) in
  db_log w' = db_log Demo.inbox /\ profiles w' = profiles Demo.inbox
  /\ messages w' = messages Demo.inbox
  /\ (submitted w' = submitted Demo.inbox
      \/ exists i, submitted w' = (submitted Demo.inbox ++ [i])%list).
Proof.
  apply (createMessagePayment_throws_before_writing
           (Demo.withBalance (inl 20000000000000000)) Demo.alice "Bob"
           (JS.ofZ 10000000) "hello" Demo.inbox _ "Assertion failed").
  vm_compute. reflexivity.
Defined.

Lemma createMessagePayment_submission_refused_witness :
  fst (createMessagePayment (Samples.refusing "User rejected the request")
         Demo.alice "Bob" (JS.ofZ 1) "hello" Demo.empty)
  = Throw msg_rejected.
Proof.
  rewrite (createMessagePayment_submission_refused
             (Samples.refusing "User rejected the request") Demo.alice "Bob"
             "hello" (JS.ofZ 1) Demo.empty 5000000000 255 (Demo.key "Bob")
             {| toBuffer :=
                  List.concat (escrowSeeds (Demo.key "Alice") (Demo.key "Bob")
                                 "18bc") |}
             eq_refl eq_refl eq_refl eq_refl eq_refl
             "User rejected the request" eq_refl).
  reflexivity.
Defined.


Lemma settlement_throws_before_writing_witness :
  let w' := snd (approveMessagePayment (Samples.refusing "blockhash expired")
                   Demo.bob "Alice" "m001" Demo.inbox) in
  db_log w' = db_log Demo.inbox /\ profiles w' = profiles Demo.inbox
  /\ messages w' = messages Demo.inbox.
Proof.
  apply (settlement_throws_before_writing
           (Samples.refusing "blockhash expired") Demo.bob "Alice" "m001"
           Demo.inbox _ "blockhash expired").
  left. vm_compute. reflexivity.
Defined.

Lemma settlement_reads_four_characters_witness :
  fst (approveMessagePayment Demo.env Demo.bob "Alice" "m001" Demo.inbox)
  = fst (approveMessagePayment Demo.env Demo.bob "Alice" "m001-other"
           Demo.inbox)
  /\ submitted (snd (approveMessagePayment Demo.env Demo.bob "Alice" "m001"
                       Demo.inbox))
     = submitted (snd (approveMessagePayment Demo.env Demo.bob "Alice"
                         "m001-other" Demo.inbox)).
Proof.
  apply (settlement_reads_four_characters Demo.env Demo.bob "Alice" "m001"
           "m001-other" Demo.inbox).
  reflexivity.
Defined.

Lemma approval_with_malformed_id_witness :
  exists w',
    approveMessagePayment Demo.env Demo.bob "Alice" "xx1" Demo.inbox
    = (Return "tx0", w')
    /\ submitted w'
       = (submitted Demo.inbox ++
          [IxApproveMessagePayment (Demo.key "Alice") (publicKey Demo.bob)
             {| toBuffer :=
                  List.concat (escrowSeeds (Demo.key "Alice") (Demo.key "Bob")
                                 "xx1") |}])%list
    /\ db_log w' = db_log Demo.inbox
    /\ messages w' = messages Demo.inbox /\ profiles w' = profiles Demo.inbox.
Proof.
  apply (approval_with_malformed_id Demo.env Demo.bob "Alice" "xx1" Demo.inbox
           (Demo.key "Alice") _ 255 eq_refl eq_refl "tx0").
  - reflexivity.
  - reflexivity.
Defined.

Lemma approval_is_mirrored_witness :
  exists w',
    approveMessagePayment Demo.env Demo.bob "Alice" "m002" Demo.inbox
    = (Return "tx0", w')
    /\ submitted w'
       = (submitted Demo.inbox ++
          [IxApproveMessagePayment (Demo.key "Alice") (publicKey Demo.bob)
             {| toBuffer :=
                  List.concat (escrowSeeds (Demo.key "Alice") (Demo.key "Bob")
                                 "m002") |}])%list
    /\ Forall2 (fun m m' =>
                  if (Messages.message_id m =? "m002")%string
                  then Messages.status m' = approved
                       /\ Messages.transaction_signature m' = Some "tx0"
                       /\ Messages.id m' = Messages.id m
                       /\ Messages.message_id m' = "m002"
                  else m' = m)
         (messages Demo.inbox) (messages w').
Proof.
  apply (approval_is_mirrored Demo.env Demo.bob "Alice" "m002" Demo.inbox
           (Demo.key "Alice") _ 255 eq_refl eq_refl "tx0"
           (Demo.messageAt "r2" "300" "m002")).
  - reflexivity.
  - reflexivity.
  - intros n. reflexivity.
  - reflexivity.
  - discriminate.
Defined.

Lemma escrow_found_from_generated_id_witness :
  exists escrow,
    submitted (snd Demo.paid)
    = (submitted Demo.empty ++
       [IxCreateMessagePayment (JS.mul (JS.ofZ 1) LAMPORTS_PER_SOL)
          (JS.slice (generatedId Demo.env Demo.empty) 0 4)
          (publicKey Demo.alice) (publicKey Demo.bob) escrow])%list
    /\ forall w2,
         submitted (snd (approveMessagePayment Demo.env Demo.bob "Alice"
                           "18bcfe56801-a3f19c27" w2))
         = (submitted w2 ++
            [IxApproveMessagePayment (publicKey Demo.alice)
               (publicKey Demo.bob) escrow])%list
         /\ submitted (snd (rejectMessagePayment Demo.env Demo.bob "Alice"
                              "18bcfe56801-a3f19c27" w2))
            = (submitted w2 ++
               [IxRejectMessagePayment (publicKey Demo.alice)
                  (publicKey Demo.bob) escrow])%list.
Proof.
  apply (escrow_found_from_generated_id Demo.env Demo.alice Demo.bob "Bob"
           "Alice" "hello" "18bcfe56801-a3f19c27" (JS.ofZ 1) Demo.empty
           (snd Demo.paid) "tx3").
  - vm_compute. reflexivity.
  - reflexivity.
  - reflexivity.
  - reflexivity.
Defined.

Lemma saveMessage_ids_repeat_witness :
  let w1 := snd (saveMessage Samples.slowClock "Alice" "Bob" "xx1" "one"
                   (JS.ofZ 1) None Demo.inbox) in
  let w2 := snd (saveMessage Samples.slowClock "Bob" "Alice" "" "two"
                   (JS.ofZ 1) None w1) in
  exists row1 row2,
    messages w2 = (messages Demo.inbox ++ [row1; row2])%list
    /\ Messages.message_id row1 = Messages.message_id row2
    /\ wellFormed (Messages.message_id row1) = true.
Proof.
  intros w1 w2.
  apply (saveMessage_ids_repeat Samples.slowClock "Alice" "Bob" "xx1" "one"
           "Bob" "Alice" "" "two" (JS.ofZ 1) (JS.ofZ 1) None None Demo.inbox
           w1 w2 4).
  - reflexivity.
  - reflexivity.
  - vm_compute. reflexivity.
  - vm_compute. reflexivity.
  - simpl. lia.
  - lia.
  - vm_compute. reflexivity.
Defined.

Lemma getMessageStats_counts_witness :
  exists stats w',
    getMessageStats Demo.env (Some "Bob") Demo.inbox = (Return stats, w')
    /\ totalReceived stats
       = List.length (filter (matches received "pb") (messages Demo.inbox))
    /\ totalSent stats
       = List.length (filter (matches sent "pb") (messages Demo.inbox))
    /\ (pendingReceived stats + approvedReceived stats
        + List.length (filter (statusIs rejected)
                         (filter (matches received "pb")
                            (messages Demo.inbox))))%nat
       = totalReceived stats
    /\ (pendingSent stats + approvedSent stats
        + List.length (filter (statusIs rejected)
                         (filter (matches sent "pb") (messages Demo.inbox))))%nat
       = totalSent stats
    /\ (approvedReceived stats = 0%nat ->
        totalEarnings stats = S754_zero false).
Proof.
  apply (getMessageStats_counts Demo.env "Bob" Demo.inbox
           (Demo.profileOf "pb" "Bob")).
  - discriminate.
  - reflexivity.
  - intros n. reflexivity.
Defined.

Lemma debugMessageIssues_exact_witness :
  exists report w',
    debugMessageIssues Demo.env Samples.messy = (Return (inr report), w')
    /\ totalMessages report = 3%nat
    /\ forall m,
         In m (messagesWithInvalidId report)
         <-> In m (messages Samples.messy)
             /\ wellFormed (Messages.message_id m) = false.
Proof.
  destruct (debugMessageIssues_exact Demo.env Samples.messy eq_refl eq_refl)
    as (report & w' & Hrun & Htotal & _ & _ & _ & _ & Hinvalid & _).
  exists report, w'. split; [exact Hrun|]. split; [exact Htotal|exact Hinvalid].
Defined.

Lemma checkMessagesDirectly_first_profile_witness :
  exists w',
    checkMessagesDirectly Demo.env "Alice" Samples.twins
    = (Return (inr {| profile := Demo.profileOf "pa" "Alice";
                      sentMessages :=
                        filter (matches sent "pa") (messages Samples.twins);
                      receivedMessages :=
                        filter (matches received "pa")
                          (messages Samples.twins) |}), w')
    /\ profiles w' = profiles Samples.twins
    /\ messages w' = messages Samples.twins.
Proof.
  apply (checkMessagesDirectly_first_profile Demo.env "Alice" Samples.twins
           (Demo.profileOf "pa" "Alice") [Demo.profileOf "pa2" "Alice"]).
  - reflexivity.
  - reflexivity.
  - reflexivity.
Defined.

Lemma fixMessageIds_repairs_witness :
  exists w',
    fixMessageIds Demo.env Samples.messy = (Return true, w')
    /\ profiles w' = profiles Samples.messy
    /\ Forall (fun m => cleanId (Messages.message_id m) = true) (messages w')
    /\ Forall2 (fun m m' =>
                  sameButMessageId m m'
                  /\ (~ In (Messages.id m)
                        (map Messages.id
                           (filter needsRepair (messages Samples.messy))) ->
                      m' = m))
         (messages Samples.messy) (messages w').
Proof.
  apply (fixMessageIds_repairs Demo.env Samples.messy).
  - intros n. reflexivity.
  - intros n. change (1296 <= 1700000000000 + Z.of_nat n). lia.
Defined.

Lemma fixMessageIds_twice_witness :
  let w1 := snd (fixMessageIds Demo.env Samples.messy) in
  fixMessageIds Demo.env w1 = (Return true, advance 1 w1)
  /\ messages (snd (fixMessageIds Demo.env w1)) = messages w1.
Proof.
  apply (fixMessageIds_twice Demo.env Samples.messy).
  - intros n. reflexivity.
  - intros n. change (1296 <= 1700000000000 + Z.of_nat n). lia.
Defined.

Lemma fixMessageIds_reports_success_witness :
  exists w',
    fixMessageIds Samples.firstCallOnly Samples.messy = (Return true, w')
    /\ profiles w' = profiles Samples.messy
    /\ Forall2 sameButMessageId (messages Samples.messy) (messages w')
    /\ ((forall n, (tick Samples.messy < n)%nat ->
                   db_error Samples.firstCallOnly n = true) ->
        messages w' = messages Samples.messy).
Proof.
  apply (fixMessageIds_reports_success Samples.firstCallOnly Samples.messy).
  reflexivity.
Defined.

Lemma fixMessageRetrieval_repairs_witness :
  exists w',
    fixMessageRetrieval Demo.env "Bob" Samples.messy = (Return true, w')
    /\ profiles w' = profiles Samples.messy
    /\ Forall2 (fun m m' =>
                  sameButMessageId m m'
                  /\ (matches all "pb" m = true ->
                      wellFormed (Messages.message_id m') = true)
                  /\ (~ In (Messages.id m)
                        (map Messages.id
                           (filter invalidId
                              (filter (matches all "pb")
                                 (messages Samples.messy)))) ->
                      m' = m))
         (messages Samples.messy) (messages w').
Proof.
  apply (fixMessageRetrieval_repairs Demo.env "Bob" Samples.messy
           (Demo.profileOf "pb" "Bob")).
  - reflexivity.
  - intros n. reflexivity.
  - intros n. change (1296 <= 1700000000000 + Z.of_nat n). lia.
Defined.

Lemma saved_message_is_updatable_witness :
  exists row row' w2,
    messages Demo.saved = (messages Demo.empty ++ [row])%list
    /\ Messages.message_id row = "m001"
    /\ Messages.status row = pending
    /\ updateMessageStatus Demo.env "m001" approved (Some "tx1") Demo.saved
       = (Return true, w2)
    /\ messages w2 = (messages Demo.empty ++ [row'])%list
    /\ Messages.message_id row' = "m001"
    /\ Messages.status row' = approved
    /\ Messages.content row' = "hello".
Proof.
  apply (saved_message_is_updatable Demo.env "Alice" "Bob" "m001" "hello"
           (JS.ofZ 1) (Some "tx0") (Some "tx1") approved Demo.empty Demo.saved).
  - reflexivity.
  - intros m [].
  - intros n. reflexivity.
  - vm_compute. reflexivity.
Defined.

(** The repair functions on the sample table. *)
Example repairs_on_sample :
  map Messages.message_id (messages (snd (fixMessageIds Demo.env Samples.messy)))
  = ["mv29"; "mv2b"; "m003"]
  /\ map Messages.message_id
       (messages (snd (fixMessageRetrieval Demo.env "Bob" Samples.messy)))
     = ["mv2a"; "m0-2"; "m003"].
Proof. split; vm_compute; reflexivity. Qed.
